(** * Spooktober tracker: Jetstream ingestion and backfill engine

    A shallow embedding of the backend of the tracker
    (backend/src/db.ts, backend/src/jetstream-service.ts,
    backend/src/utils/jetstream-temp.ts, backend/src/utils/jetstream-utils.ts,
    backend/src/utils/handle-resolver.ts, and the routes of the change table
    and of the ignore list)
    together with the properties its specification states about it.

    Conventions of the embedding.
    - A nullable string ([string | null], a column of a table, what a lookup
      answers) is an [option string]. A field of a change request, which a
      JSON body or an object literal may leave out ([undefined]) or set to
      [null], is a [JsString]; [x ?? null] takes it to a nullable string.
    - JavaScript numbers are exact: integers are [Z], and a quotient such as
      [cursor / 1000] is a rational [Q].
    - The process heap (database, main service singleton, temporary service
      objects, temporary manager) is one record [World]; every function of the
      source that reads or writes it is a computation in the monad [M], which
      also carries thrown exceptions.
    - Database statements may throw: an oracle in the world ([faults]) decides,
      statement by statement, whether the next statement fails.
    - [console.warn] and [console.error], socket operations, timers,
      broadcasts and requests for a DID reload are recorded in the world's
      [trace]; other [console.log] lines are informational and are not
      recorded.
    - A computation in [M] is the function of the source run without
      interference. A schedule of whole calls ([exec_all]) is therefore a
      serial schedule; where the source lets two calls overlap at an [await],
      the overlap is written out from the parts of the calls (see
      "Overlapping calls"). *)

From Stdlib Require Import ZArith QArith Qround List String Bool Lia.
From stdpp Require Import base option strings gmap list.

Local Open Scope string_scope.
Local Open Scope Z_scope.

(** ** JavaScript idioms on optional strings *)

(** Truthiness of a [string | undefined | null] value. *)
Definition truthy (o : option string) : bool :=
  match o with
  | Some s => negb (bool_decide (s = ""))
  | None => false
  end.

(** [x || ""] *)
Definition or_empty (o : option string) : string :=
  match o with
  | Some s => s
  | None => ""
  end.

(** [x || undefined] (also [x || null]) for a string-or-nothing [x]. *)
Definition or_undefined (o : option string) : option string :=
  if truthy o then o else None.

(** A field of type [string | null | undefined]. *)
Inductive JsString :=
| js_undefined
| js_null
| js_string (s : string).

(** [x ?? null] *)
Definition nullish (x : JsString) : option string :=
  match x with
  | js_string s => Some s
  | js_undefined | js_null => None
  end.

(** Where a nullable string is expected (a truthiness test, a statement
    parameter), a field stands for [x ?? null]. *)
Coercion nullish : JsString >-> option.

(** [x !== undefined] *)
Definition is_defined (x : JsString) : bool :=
  match x with
  | js_undefined => false
  | js_null | js_string _ => true
  end.

(** [s || undefined] for a string [s]. *)
Definition string_or_undefined (s : string) : JsString :=
  if bool_decide (s = "") then js_undefined else js_string s.

(** ** Persistent data (db.ts) *)

Inductive ChangeType := CT_handle | CT_profile | CT_combined.

(** shared/types.ts, [SubmitChangeRequest] *)
Record SubmitChangeRequest := {
  sc_did : string;
  sc_handle : JsString;
  sc_old_handle : JsString;
  sc_new_handle : JsString;
  sc_old_display_name : JsString;
  sc_new_display_name : JsString;
  sc_old_avatar : JsString;
  sc_new_avatar : JsString;
}.

(** A row of [profile_changes] ([ProfileChangeRow]). Timestamps are
    milliseconds since the epoch. *)
Record ProfileChangeRow := {
  pc_id : Z;
  pc_did : string;
  pc_handle : option string;
  pc_old_handle : option string;
  pc_new_handle : option string;
  pc_old_display_name : option string;
  pc_new_display_name : option string;
  pc_old_avatar : option string;
  pc_new_avatar : option string;
  pc_change_type : ChangeType;
  pc_changed_at : Z;
  pc_created_at : Z;
}.

Record MonitoredFollowRow := {
  mf_user_did : string;
  mf_follow_did : string;
  mf_follow_handle : option string;
  mf_rkey : option string;
  mf_added_at : Z;
}.

Record IgnoredUserRow := {
  iu_did : string;
  iu_added_at : Z;
}.

Record BackfillStateRow := {
  bs_user_did : string;
  bs_last_started_at : option Z;
  bs_last_completed_at : option Z;
  bs_updated_at : Z;
}.

(** A JSON value stored in [system_settings] (only numbers and strings are
    ever saved). *)
Inductive Setting := SettingNum (n : Z) | SettingStr (s : string).

(** The database: each table is the list of its rows in insertion order;
    [profile_changes_seq] is the next value of the SERIAL column [id]. *)
Record Db := {
  profile_changes : list ProfileChangeRow;
  profile_changes_seq : Z;
  monitored_follows : list MonitoredFollowRow;
  monitoring_backfill_state : list BackfillStateRow;
  ignored_users : list IgnoredUserRow;
  system_settings : list (string * Setting);
}.

Definition empty_db : Db :=
  {| profile_changes := []; profile_changes_seq := 1;
     monitored_follows := []; monitoring_backfill_state := [];
     ignored_users := []; system_settings := [] |}.

Definition set_profile_changes (rows : list ProfileChangeRow) (seq : Z) (d : Db) : Db :=
  {| profile_changes := rows; profile_changes_seq := seq;
     monitored_follows := monitored_follows d;
     monitoring_backfill_state := monitoring_backfill_state d;
     ignored_users := ignored_users d;
     system_settings := system_settings d |}.

Definition set_monitored_follows (rows : list MonitoredFollowRow) (d : Db) : Db :=
  {| profile_changes := profile_changes d;
     profile_changes_seq := profile_changes_seq d;
     monitored_follows := rows;
     monitoring_backfill_state := monitoring_backfill_state d;
     ignored_users := ignored_users d;
     system_settings := system_settings d |}.

Definition set_monitoring_backfill_state (rows : list BackfillStateRow) (d : Db) : Db :=
  {| profile_changes := profile_changes d;
     profile_changes_seq := profile_changes_seq d;
     monitored_follows := monitored_follows d;
     monitoring_backfill_state := rows;
     ignored_users := ignored_users d;
     system_settings := system_settings d |}.

Definition set_ignored_users (rows : list IgnoredUserRow) (d : Db) : Db :=
  {| profile_changes := profile_changes d;
     profile_changes_seq := profile_changes_seq d;
     monitored_follows := monitored_follows d;
     monitoring_backfill_state := monitoring_backfill_state d;
     ignored_users := rows;
     system_settings := system_settings d |}.

Definition set_system_settings (rows : list (string * Setting)) (d : Db) : Db :=
  {| profile_changes := profile_changes d;
     profile_changes_seq := profile_changes_seq d;
     monitored_follows := monitored_follows d;
     monitoring_backfill_state := monitoring_backfill_state d;
     ignored_users := ignored_users d;
     system_settings := rows |}.

(** ** In-memory data (jetstream-service.ts, jetstream-temp.ts) *)

(** [JetstreamEvent] and its parts. [cr_avatar_link] is
    [record.avatar?.ref?.$link]. *)
Record CommitRecord := {
  cr_displayName : option string;
  cr_avatar_link : option string;
  cr_subject : option string;
}.

Record Commit := {
  c_operation : string;
  c_collection : string;
  c_rkey : option string;
  c_record : option CommitRecord;
}.

Record Identity := {
  i_did : string;
  i_handle : option string;
}.

Record JetstreamEvent := {
  ev_kind : string;
  ev_did : string;
  ev_time_us : Z;
  ev_commit : option Commit;
  ev_identity : option Identity;
}.

(** [ProfileData]: the cached snapshot of one DID. *)
Record ProfileData := {
  pd_displayName : string;
  pd_avatarRef : string;
  pd_handle : string;
}.

(** The request a socket was opened with ([buildJetstreamRequest]). *)
Record WebSocket := {
  ws_host : string;
  ws_cursor : option Z;
}.

(** The [options_update] message, before [JSON.stringify]. *)
Record OptionsUpdateMessage := {
  om_type : string;
  om_wantedCollections : list string;
  om_wantedDids : list string;
  om_maxMessageSizeBytes : Z;
}.

(** Result of [getCursorInfo]; the timestamp is the instant (ms) that
    [toISOString] renders. *)
Record CursorInfo := {
  ci_timestamp : option Z;
  ci_isInBackfill : bool;
}.

(** State of the main [JetstreamService] singleton. A timer handle is the
    delay (ms) it was scheduled with. *)
Record JetstreamService := {
  ws : option WebSocket;
  profileData : gmap string ProfileData;
  reconnectAttempts : Z;
  shouldRun : bool;
  reconnectTimeout : option Z;
  currentDIDs : list string;
  lastCursor : option Z;
  startTime : option Z;
  isInActualBackfill : bool;
  actualBackfillLagSeconds : option Z;
  lastHost : option string;
  stoppedAt : option Z;
  cursorAtStop : option Z;
}.

Definition new_JetstreamService : JetstreamService :=
  {| ws := None; profileData := ∅; reconnectAttempts := 0; shouldRun := true;
     reconnectTimeout := None; currentDIDs := []; lastCursor := None;
     startTime := None; isInActualBackfill := false;
     actualBackfillLagSeconds := None; lastHost := None; stoppedAt := None;
     cursorAtStop := None |}.

(** State of one [TemporaryJetstreamService] object. *)
Record TemporaryJetstreamService := {
  t_userDID : string;
  t_userHandle : option string;
  t_follows : list string;
  t_ws : option WebSocket;
  t_profileData : gmap string ProfileData;
  t_startTime : Z;
  t_reconnectAttempts : Z;
  t_reconnectTimeout : option Z;
  t_shouldRun : bool;
  t_lastCursor : option Z;
  t_initialCursor : option Z;
  t_lastHost : option string;
  t_hasStopped : bool;
}.

(** A queued [startForUser] request. Settling its promise is an effect:
    [queue_resolve] with the position that the promise is fulfilled with,
    [queue_reject] when it is rejected. *)
Record QueueEntry := {
  q_userDID : string;
  q_follows : list string;
}.

(** State of the [TemporaryJetstreamManager]: [activeStreams] maps a user DID
    to the address of its service object in the world's heap. *)
Record TemporaryJetstreamManager := {
  activeStreams : gmap string nat;
  queue : list QueueEntry;
}.

Inductive StreamRef := MainStream | TempStream (obj : nat).

(** Observable effects. *)
Inductive Effect :=
| console_warn (msg : string)
| console_error (msg : string)
| ws_send (from : StreamRef) (msg : OptionsUpdateMessage)
| ws_close (from : StreamRef)
| set_timeout (from : StreamRef) (delay : Z)
| clear_timeout (from : StreamRef)
| status_broadcast
| cursor_broadcast (info : CursorInfo)
| did_reload (source : string)
| queue_resolve (userDID : string) (position : Z)
| queue_reject (userDID : string).

(** What a lookup over the network comes to: the handle that the answer
    yields ([None] for a response that is not ok and for a document without
    an [at://] alias), or a request that throws. *)
Inductive Lookup :=
| answered (handle : option string)
| lookup_throws.

(** The world: the database, the environment oracles and the process heap.
    - [faults]: whether the next database statements throw;
    - [clock]: [Date.now()], in milliseconds;
    - [net_resolveHandle], [net_auditLog]: what the directory answers to the
      requests of [resolveHandle] and [getPreviousHandleFromAuditLog];
    - [handleCache]: the cache of the handle resolver, a [Map] in insertion
      order;
    - [net_follows]: what the follow-graph API answers for a user;
    - [hosts], [random_index]: [JETSTREAM_HOSTS] and the draw of [selectHost];
    - [maxConcurrentTempStreams]: the configured pool size. *)
Record World := {
  db : Db;
  faults : list bool;
  clock : Z;
  trace : list Effect;
  net_resolveHandle : string -> Lookup;
  net_auditLog : string -> Lookup;
  net_follows : string -> list (string * string);
  hosts : list string;
  random_index : nat;
  maxConcurrentTempStreams : Z;
  main : JetstreamService;
  heap : gmap nat TemporaryJetstreamService;
  mgr : TemporaryJetstreamManager;
  handleCache : list (string * option string);
}.

Definition set_db (x : Db) (w : World) : World :=
  {| db := x; faults := faults w; clock := clock w; trace := trace w;
     net_resolveHandle := net_resolveHandle w; net_auditLog := net_auditLog w;
     net_follows := net_follows w; hosts := hosts w;
     random_index := random_index w;
     maxConcurrentTempStreams := maxConcurrentTempStreams w;
     main := main w; heap := heap w; mgr := mgr w;
     handleCache := handleCache w |}.

Definition set_faults (x : list bool) (w : World) : World :=
  {| db := db w; faults := x; clock := clock w; trace := trace w;
     net_resolveHandle := net_resolveHandle w; net_auditLog := net_auditLog w;
     net_follows := net_follows w; hosts := hosts w;
     random_index := random_index w;
     maxConcurrentTempStreams := maxConcurrentTempStreams w;
     main := main w; heap := heap w; mgr := mgr w;
     handleCache := handleCache w |}.

Definition set_clock (x : Z) (w : World) : World :=
  {| db := db w; faults := faults w; clock := x; trace := trace w;
     net_resolveHandle := net_resolveHandle w; net_auditLog := net_auditLog w;
     net_follows := net_follows w; hosts := hosts w;
     random_index := random_index w;
     maxConcurrentTempStreams := maxConcurrentTempStreams w;
     main := main w; heap := heap w; mgr := mgr w;
     handleCache := handleCache w |}.

Definition set_trace (x : list Effect) (w : World) : World :=
  {| db := db w; faults := faults w; clock := clock w; trace := x;
     net_resolveHandle := net_resolveHandle w; net_auditLog := net_auditLog w;
     net_follows := net_follows w; hosts := hosts w;
     random_index := random_index w;
     maxConcurrentTempStreams := maxConcurrentTempStreams w;
     main := main w; heap := heap w; mgr := mgr w;
     handleCache := handleCache w |}.

Definition set_main (x : JetstreamService) (w : World) : World :=
  {| db := db w; faults := faults w; clock := clock w; trace := trace w;
     net_resolveHandle := net_resolveHandle w; net_auditLog := net_auditLog w;
     net_follows := net_follows w; hosts := hosts w;
     random_index := random_index w;
     maxConcurrentTempStreams := maxConcurrentTempStreams w;
     main := x; heap := heap w; mgr := mgr w;
     handleCache := handleCache w |}.

Definition set_heap (x : gmap nat TemporaryJetstreamService) (w : World) : World :=
  {| db := db w; faults := faults w; clock := clock w; trace := trace w;
     net_resolveHandle := net_resolveHandle w; net_auditLog := net_auditLog w;
     net_follows := net_follows w; hosts := hosts w;
     random_index := random_index w;
     maxConcurrentTempStreams := maxConcurrentTempStreams w;
     main := main w; heap := x; mgr := mgr w;
     handleCache := handleCache w |}.

Definition set_mgr (x : TemporaryJetstreamManager) (w : World) : World :=
  {| db := db w; faults := faults w; clock := clock w; trace := trace w;
     net_resolveHandle := net_resolveHandle w; net_auditLog := net_auditLog w;
     net_follows := net_follows w; hosts := hosts w;
     random_index := random_index w;
     maxConcurrentTempStreams := maxConcurrentTempStreams w;
     main := main w; heap := heap w; mgr := x;
     handleCache := handleCache w |}.

Definition set_handleCache (x : list (string * option string)) (w : World) : World :=
  {| db := db w; faults := faults w; clock := clock w; trace := trace w;
     net_resolveHandle := net_resolveHandle w; net_auditLog := net_auditLog w;
     net_follows := net_follows w; hosts := hosts w;
     random_index := random_index w;
     maxConcurrentTempStreams := maxConcurrentTempStreams w;
     main := main w; heap := heap w; mgr := mgr w; handleCache := x |}.

(** ** The monad of effectful code *)

Inductive Error := DbError | JsError (msg : string).

Inductive Res (A : Type) :=
| Ok (a : A)
| Throw (e : Error).
Arguments Ok {A} a.
Arguments Throw {A} e.

Definition M (A : Type) : Type := World -> Res A * World.

Definition ret {A} (a : A) : M A := fun w => (Ok a, w).

Definition bind {A B} (m : M A) (k : A -> M B) : M B := fun w =>
  match m w with
  | (Ok a, w') => k a w'
  | (Throw e, w') => (Throw e, w')
  end.

Definition throw {A} (e : Error) : M A := fun w => (Throw e, w).

(** [try { m } catch (e) { h e }] *)
Definition try_catch {A} (m : M A) (h : Error -> M A) : M A := fun w =>
  match m w with
  | (Ok a, w') => (Ok a, w')
  | (Throw e, w') => h e w'
  end.

Definition gets {A} (f : World -> A) : M A := fun w => (Ok (f w), w).

Definition modify (f : World -> World) : M unit := fun w => (Ok tt, f w).

Notation "x <- c1 ;; c2" := (bind c1 (fun x => c2))
  (at level 100, c1 at next level, right associativity).
Notation "c1 ;; c2" := (bind c1 (fun _ => c2))
  (at level 100, right associativity).

(** [if (c) { m }] *)
Definition when (c : bool) (m : M unit) : M unit := if c then m else ret tt.

Definition emit (e : Effect) : M unit :=
  modify (fun w => set_trace (trace w ++ [e]) w).

(** [Date.now()] *)
Definition Date_now : M Z := gets clock.

(** [await wait(ms)]: time passes. *)
Definition wait (ms : Z) : M unit :=
  modify (fun w => set_clock (clock w + ms) w).

(** One database statement: it throws when the oracle says so, and otherwise
    runs [stmt] on the database. *)
Definition pool_query {A} (stmt : Db -> A * Db) : M A := fun w =>
  match faults w with
  | true :: fs => (Throw DbError, set_faults fs w)
  | _ =>
      let '(a, d) := stmt (db w) in
      (Ok a, set_db d (set_faults (tail (faults w)) w))
  end.

(** [BEGIN; body; COMMIT], with [ROLLBACK] and rethrow when [body] throws. *)
Definition transaction {A} (body : M A) : M A := fun w =>
  match body w with
  | (Ok a, w') => (Ok a, w')
  | (Throw e, w') => (Throw e, set_db (db w) w')
  end.

(** ** Change persistence (db.ts) *)

(** The WHERE clause of the duplicate check: [did = $1] and
    [IS NOT DISTINCT FROM] on the six before/after columns, against the
    request's fields normalised with [?? null]. *)
Definition same_change (change : SubmitChangeRequest) (row : ProfileChangeRow) : bool :=
  bool_decide (pc_did row = sc_did change)
  && bool_decide (pc_old_display_name row = nullish (sc_old_display_name change))
  && bool_decide (pc_new_display_name row = nullish (sc_new_display_name change))
  && bool_decide (pc_old_avatar row = nullish (sc_old_avatar change))
  && bool_decide (pc_new_avatar row = nullish (sc_new_avatar change))
  && bool_decide (pc_old_handle row = nullish (sc_old_handle change))
  && bool_decide (pc_new_handle row = nullish (sc_new_handle change)).

(** [SELECT ... LIMIT 1]: the first matching row in table order. *)
Definition select_limit_1 {A} (p : A -> bool) (rows : list A) : list A :=
  firstn 1 (List.filter p rows).

(** [isDuplicateChange]: the stored old and new handle of a duplicate. *)
Definition isDuplicateChange (change : SubmitChangeRequest)
  : M (option (option string * option string)) :=
  duplicateCheck <- pool_query (fun d =>
    (select_limit_1 (same_change change) (profile_changes d), d)) ;;
  match duplicateCheck with
  | row :: _ => ret (Some (pc_old_handle row, pc_new_handle row))
  | [] => ret None
  end.

(** [getChangeType]: a profile field counts when it is not [undefined]; an
    explicit [null] counts. *)
Definition getChangeType (change : SubmitChangeRequest) : ChangeType :=
  let hasHandleChange :=
    truthy (sc_old_handle change) && truthy (sc_new_handle change) in
  let hasProfileChange :=
    is_defined (sc_old_display_name change)
    || is_defined (sc_new_display_name change)
    || is_defined (sc_old_avatar change)
    || is_defined (sc_new_avatar change) in
  if hasHandleChange && hasProfileChange then CT_combined
  else if hasHandleChange then CT_handle
  else CT_profile.

(** The row written by the INSERT of [insertChange], whose parameters are
    the fields with [?? null]; [NOW()] is [now]. *)
Definition new_change_row (id : Z) (change : SubmitChangeRequest)
    (changeType : ChangeType) (now : Z) : ProfileChangeRow :=
  {| pc_id := id; pc_did := sc_did change;
     pc_handle := nullish (sc_handle change);
     pc_old_handle := nullish (sc_old_handle change);
     pc_new_handle := nullish (sc_new_handle change);
     pc_old_display_name := nullish (sc_old_display_name change);
     pc_new_display_name := nullish (sc_new_display_name change);
     pc_old_avatar := nullish (sc_old_avatar change);
     pc_new_avatar := nullish (sc_new_avatar change);
     pc_change_type := changeType; pc_changed_at := now;
     pc_created_at := now |}.

(** [INSERT INTO profile_changes ... RETURNING *] *)
Definition insert_profile_change (change : SubmitChangeRequest)
    (changeType : ChangeType) (now : Z) (d : Db) : list ProfileChangeRow * Db :=
  let row := new_change_row (profile_changes_seq d) change changeType now in
  ([row],
   set_profile_changes (profile_changes d ++ [row]) (profile_changes_seq d + 1) d).

(** [insertChange]: [None] is the [null] returned for an ignored DID. The
    log prefix only selects what is printed with [console.log]. *)
Definition insertChange (change : SubmitChangeRequest) (logPrefix : option string)
  : M (option ProfileChangeRow) :=
  ignoredCheck <- pool_query (fun d =>
    (select_limit_1 (fun u => bool_decide (iu_did u = sc_did change))
       (ignored_users d), d)) ;;
  if (0 <? Z.of_nat (length ignoredCheck)) then ret None
  else
    duplicateCheck <- pool_query (fun d =>
      (select_limit_1 (same_change change) (profile_changes d), d)) ;;
    match duplicateCheck with
    | dup :: _ =>
        existing <- pool_query (fun d =>
          (List.filter (fun r => bool_decide (pc_id r = pc_id dup))
             (profile_changes d), d)) ;;
        ret (head existing)
    | [] =>
        let changeType := getChangeType change in
        now <- Date_now ;;
        result <- pool_query (insert_profile_change change changeType now) ;;
        ret (head result)
    end.

(** [ORDER BY changed_at DESC LIMIT 1]; among equal timestamps the earliest
    row of the table is taken. *)
Fixpoint latest_change (rows : list ProfileChangeRow) : option ProfileChangeRow :=
  match rows with
  | [] => None
  | r :: rs =>
      match latest_change rs with
      | Some r' => if pc_changed_at r <? pc_changed_at r' then Some r' else Some r
      | None => Some r
      end
  end.

(** [getLastKnownHandle] *)
Definition getLastKnownHandle (did : string) : M (option string) :=
  result <- pool_query (fun d =>
    (latest_change
       (List.filter (fun r =>
          bool_decide (pc_did r = did)
          && (negb (bool_decide (pc_handle r = None))
              || negb (bool_decide (pc_new_handle r = None))))
          (profile_changes d)), d)) ;;
  match result with
  | None => ret None
  | Some row =>
      ret (if truthy (pc_new_handle row) then pc_new_handle row else pc_handle row)
  end.

(** ** Monitored follows (db.ts) *)

(** [Follow] of utils/follows.ts *)
Record Follow := {
  f_did : string;
  f_handle : string;
  f_rkey : option string;
}.

(** One row of the bulk upsert: [ON CONFLICT (user_did, follow_did) DO UPDATE
    SET follow_handle = EXCLUDED.follow_handle,
    rkey = COALESCE(EXCLUDED.rkey, monitored_follows.rkey)]. *)
Fixpoint upsert_follow (userDID : string) (follow : Follow) (now : Z)
    (rows : list MonitoredFollowRow) : list MonitoredFollowRow :=
  match rows with
  | [] =>
      [ {| mf_user_did := userDID; mf_follow_did := f_did follow;
           mf_follow_handle := Some (f_handle follow);
           mf_rkey := or_undefined (f_rkey follow); mf_added_at := now |} ]
  | r :: rs =>
      if bool_decide (mf_user_did r = userDID)
         && bool_decide (mf_follow_did r = f_did follow)
      then
        {| mf_user_did := mf_user_did r; mf_follow_did := mf_follow_did r;
           mf_follow_handle := Some (f_handle follow);
           mf_rkey := match or_undefined (f_rkey follow) with
                      | Some k => Some k
                      | None => mf_rkey r
                      end;
           mf_added_at := mf_added_at r |} :: rs
      else r :: upsert_follow userDID follow now rs
  end.

(** [addMonitoredFollows]: one transaction around one bulk upsert. The
    database rejects an [INSERT ... ON CONFLICT DO UPDATE] whose rows name
    the same pair of user and followed DID twice. *)
Definition addMonitoredFollows (userDID : string) (follows : list Follow) : M unit :=
  transaction (
    when (0 <? Z.of_nat (length follows)) (
      now <- Date_now ;;
      if bool_decide (NoDup (map f_did follows)) then
        pool_query (fun d =>
          (tt, set_monitored_follows
                 (fold_left (fun rows f => upsert_follow userDID f now rows)
                    follows (monitored_follows d)) d))
      else
        pool_query (fun d => (tt, d)) ;;
        throw DbError)).

(** A stable [ORDER BY added_at DESC]. *)
Fixpoint insert_by_added_at (r : MonitoredFollowRow) (rows : list MonitoredFollowRow)
  : list MonitoredFollowRow :=
  match rows with
  | [] => [r]
  | r' :: rs =>
      if mf_added_at r' <? mf_added_at r then r :: r' :: rs
      else r' :: insert_by_added_at r rs
  end.

Definition order_by_added_at_desc (rows : list MonitoredFollowRow)
  : list MonitoredFollowRow :=
  fold_right insert_by_added_at [] rows.

(** [getMonitoredFollows] *)
Definition getMonitoredFollows (userDID : string) : M (list MonitoredFollowRow) :=
  pool_query (fun d =>
    (order_by_added_at_desc
       (List.filter (fun r => bool_decide (mf_user_did r = userDID))
          (monitored_follows d)), d)).

(** [getAllMonitoredDIDs]: [SELECT DISTINCT follow_did]. *)
Definition getAllMonitoredDIDs : M (list string) :=
  pool_query (fun d => (remove_dups (map mf_follow_did (monitored_follows d)), d)).

(** [getMonitoringUsers]: [SELECT DISTINCT user_did]. *)
Definition getMonitoringUsers : M (list string) :=
  pool_query (fun d => (remove_dups (map mf_user_did (monitored_follows d)), d)).

(** [getMonitoringUserCount] *)
Definition getMonitoringUserCount : M Z :=
  pool_query (fun d =>
    (Z.of_nat (length (remove_dups (map mf_user_did (monitored_follows d)))), d)).

(** [hasMonitoringEnabled] *)
Definition hasMonitoringEnabled (userDID : string) : M bool :=
  count <- pool_query (fun d =>
    (Z.of_nat (length (List.filter (fun r => bool_decide (mf_user_did r = userDID))
                         (monitored_follows d))), d)) ;;
  ret (0 <? count).

(** [removeMonitoredFollow] *)
Definition removeMonitoredFollow (userDID followDID : string) : M unit :=
  pool_query (fun d =>
    (tt, set_monitored_follows
           (List.filter (fun r =>
              negb (bool_decide (mf_user_did r = userDID)
                    && bool_decide (mf_follow_did r = followDID)))
              (monitored_follows d)) d)).

(** The rows selected by [user_did = $1 AND rkey = $2] (a NULL rkey never
    matches). *)
Definition by_rkey (userDID rkey : string) (r : MonitoredFollowRow) : bool :=
  bool_decide (mf_user_did r = userDID) && bool_decide (mf_rkey r = Some rkey).

(** [getFollowDIDByRkey] *)
Definition getFollowDIDByRkey (userDID rkey : string) : M (option string) :=
  result <- pool_query (fun d =>
    (List.filter (by_rkey userDID rkey) (monitored_follows d), d)) ;;
  ret (mf_follow_did <$> head result).

(** [removeMonitoredFollowByRkey] *)
Definition removeMonitoredFollowByRkey (userDID rkey : string) : M (option string) :=
  result <- pool_query (fun d =>
    (List.filter (by_rkey userDID rkey) (monitored_follows d),
     set_monitored_follows
       (List.filter (fun r => negb (by_rkey userDID rkey r)) (monitored_follows d)) d)) ;;
  ret (mf_follow_did <$> head result).

(** ** Backfill markers, ignore list and settings (db.ts) *)

(** [markBackfillStarted]: upsert with [last_started_at = NOW()] and
    [last_completed_at = NULL]. *)
Definition markBackfillStarted (userDID : string) : M unit :=
  now <- Date_now ;;
  pool_query (fun d =>
    let started :=
      {| bs_user_did := userDID; bs_last_started_at := Some now;
         bs_last_completed_at := None; bs_updated_at := now |} in
    (tt, set_monitoring_backfill_state
           (if existsb (fun r => bool_decide (bs_user_did r = userDID))
                 (monitoring_backfill_state d)
            then map (fun r => if bool_decide (bs_user_did r = userDID)
                               then started else r)
                   (monitoring_backfill_state d)
            else monitoring_backfill_state d ++ [started]) d)).

(** [markBackfillCompleted]: upsert with [last_completed_at = NOW()]. *)
Definition markBackfillCompleted (userDID : string) : M unit :=
  now <- Date_now ;;
  pool_query (fun d =>
    (tt, set_monitoring_backfill_state
           (if existsb (fun r => bool_decide (bs_user_did r = userDID))
                 (monitoring_backfill_state d)
            then map (fun r =>
                   if bool_decide (bs_user_did r = userDID)
                   then {| bs_user_did := userDID;
                           bs_last_started_at := bs_last_started_at r;
                           bs_last_completed_at := Some now;
                           bs_updated_at := now |}
                   else r)
                   (monitoring_backfill_state d)
            else monitoring_backfill_state d ++
                 [ {| bs_user_did := userDID; bs_last_started_at := None;
                      bs_last_completed_at := Some now;
                      bs_updated_at := now |} ]) d)).

(** A stable [ORDER BY added_at DESC] on the ignore list. *)
Fixpoint insert_ignored (r : IgnoredUserRow) (rows : list IgnoredUserRow)
  : list IgnoredUserRow :=
  match rows with
  | [] => [r]
  | r' :: rs =>
      if iu_added_at r' <? iu_added_at r then r :: r' :: rs
      else r' :: insert_ignored r rs
  end.

(** [getIgnoredUsers] *)
Definition getIgnoredUsers : M (list IgnoredUserRow) :=
  pool_query (fun d => (fold_right insert_ignored [] (ignored_users d), d)).

(** [INSERT INTO ignored_users (did) VALUES ($1) ON CONFLICT (did) DO NOTHING] *)
Definition insert_ignored_user (did : string) (now : Z) (d : Db) : unit * Db :=
  (tt,
   if existsb (fun u => bool_decide (iu_did u = did)) (ignored_users d) then d
   else set_ignored_users
          (ignored_users d ++ [ {| iu_did := did; iu_added_at := now |} ]) d).

(** [DELETE FROM profile_changes WHERE did = $1], returning [rowCount]. *)
Definition delete_profile_changes (did : string) (d : Db) : Z * Db :=
  (Z.of_nat (length (List.filter (fun r => bool_decide (pc_did r = did))
                       (profile_changes d))),
   set_profile_changes
     (List.filter (fun r => negb (bool_decide (pc_did r = did))) (profile_changes d))
     (profile_changes_seq d) d).

(** [addIgnoredUser]: both statements in one transaction; the result is
    [{ did, deletedChanges }]. *)
Definition addIgnoredUser (did : string) : M (string * Z) :=
  transaction (
    now <- Date_now ;;
    pool_query (insert_ignored_user did now) ;;
    deleteResult <- pool_query (delete_profile_changes did) ;;
    ret (did, deleteResult)).

(** [removeIgnoredUser] *)
Definition removeIgnoredUser (did : string) : M unit :=
  pool_query (fun d =>
    (tt, set_ignored_users
           (List.filter (fun u => negb (bool_decide (iu_did u = did)))
              (ignored_users d)) d)).

(** [saveSetting]: upsert on the key. *)
Definition saveSetting (key : string) (value : Setting) : M unit :=
  pool_query (fun d =>
    (tt, set_system_settings
           (if existsb (fun kv => bool_decide (kv.1 = key)) (system_settings d)
            then map (fun kv => if bool_decide (kv.1 = key) then (key, value) else kv)
                   (system_settings d)
            else system_settings d ++ [(key, value)]) d)).

(** [loadSetting] *)
Definition loadSetting (key : string) : M (option Setting) :=
  result <- pool_query (fun d =>
    (List.filter (fun kv => bool_decide (kv.1 = key)) (system_settings d), d)) ;;
  ret (snd <$> head result).

(** ** Handle resolver (utils/handle-resolver.ts)

    The resolver asks the directory over HTTPS, behind a cache, and never
    throws: a request that throws is logged with [console.warn]. What the
    directory answers is the world's network oracle. *)

Definition MAX_CACHE_SIZE : Z := 10000.

(** [handleCache.get(did)]; [None] when the cache has no entry of the DID. *)
Definition cache_get (did : string) (cache : list (string * option string))
  : option (option string) :=
  snd <$> head (List.filter (fun kv => bool_decide (kv.1 = did)) cache).

(** [handleCache.set(did, handle)]: an entry of the DID keeps its place, a
    new one goes to the end. *)
Fixpoint cache_set (did : string) (handle : option string)
    (cache : list (string * option string)) : list (string * option string) :=
  match cache with
  | [] => [(did, handle)]
  | kv :: rest =>
      if bool_decide (kv.1 = did) then (did, handle) :: rest
      else kv :: cache_set did handle rest
  end.

(** [setCacheEntry]: a full cache first drops its oldest entry. *)
Definition setCacheEntry (did : string) (handle : option string) : M unit :=
  cache <- gets handleCache ;;
  let cache :=
    if MAX_CACHE_SIZE <=? Z.of_nat (length cache) then tail cache else cache in
  modify (set_handleCache (cache_set did handle cache)).

(** [resolveHandle] *)
Definition resolveHandle (did : string) : M (option string) :=
  cache <- gets handleCache ;;
  match cache_get did cache with
  | Some handle => ret handle
  | None =>
      response <- gets (fun w => net_resolveHandle w did) ;;
      match response with
      | answered handle =>
          setCacheEntry did handle ;;
          ret handle
      | lookup_throws =>
          emit (console_warn ("Failed to resolve handle for " +:+ did)) ;;
          setCacheEntry did None ;;
          ret None
      end
  end.

(** [getPreviousHandleFromAuditLog] *)
Definition getPreviousHandleFromAuditLog (did : string) : M (option string) :=
  if negb (String.prefix "did:plc:" did) then ret None
  else
    response <- gets (fun w => net_auditLog w did) ;;
    match response with
    | answered handle => ret handle
    | lookup_throws =>
        emit (console_warn ("Failed to get audit log for " +:+ did)) ;;
        ret None
    end.

(** ** Cursor and request builder (utils/jetstream-utils.ts) *)

Definition LOOKBACK_MS_24H : Z := 24 * 60 * 60 * 1000.

(** [getCursor24hAgo] *)
Definition getCursor24hAgo : M Z :=
  now <- Date_now ;;
  ret ((now - LOOKBACK_MS_24H) * 1000).

(** [selectHost]: the host at the drawn index. *)
Definition selectHost : M string :=
  gets (fun w => nth (random_index w mod length (hosts w))%nat (hosts w) "").

(** [buildJetstreamRequest]: the cursor parameter is attached when the cursor
    is truthy (present and not 0). *)
Definition buildJetstreamRequest (cursor : option Z) : M WebSocket :=
  host <- selectHost ;;
  ret {| ws_host := host;
         ws_cursor := match cursor with
                      | Some c => if bool_decide (c = 0) then None else Some c
                      | None => None
                      end |}.

(** ** Retry wrapper (jetstream-service.ts) *)

Definition MAX_WANTED_DIDS : Z := 10000.
Definition DB_RETRY_ATTEMPTS : Z := 3.
Definition DB_RETRY_BASE_DELAY_MS : Z := 200.

(** The [while (true)] loop of [withDBRetry], entered with [attempt] failures
    so far. [fuel] bounds the iterations still allowed; the loop leaves by
    [throw] as soon as [attempt] reaches [DB_RETRY_ATTEMPTS], so three
    iterations are all it can make. *)
Fixpoint withDBRetry_loop {A} (fuel : nat) (attempt : Z) (operation : M A)
    (context : string) : M A :=
  try_catch operation (fun error =>
    let attempt := attempt + 1 in
    emit (console_error (context +:+ " failed")) ;;
    if DB_RETRY_ATTEMPTS <=? attempt then throw error
    else
      match fuel with
      | O => throw error
      | S fuel' =>
          wait (DB_RETRY_BASE_DELAY_MS * 2 ^ (attempt - 1)) ;;
          withDBRetry_loop fuel' attempt operation context
      end).

(** [withDBRetry] *)
Definition withDBRetry {A} (operation : M A) (context : string) : M A :=
  withDBRetry_loop (Z.to_nat DB_RETRY_ATTEMPTS) 0 operation context.

(** ** Options message of the main stream (jetstream-service.ts) *)

Definition wantedCollections : list string :=
  ["app.bsky.actor.profile"; "app.bsky.graph.follow"].

(** [buildOptionsUpdateMessage] of jetstream-service.ts: a warning when the
    list is longer than [MAX_WANTED_DIDS], and [dids.slice(0, maxDids)]. *)
Definition buildOptionsUpdateMessage (dids : list string) : M OptionsUpdateMessage :=
  let maxDids := Z.min (Z.of_nat (length dids)) MAX_WANTED_DIDS in
  when (MAX_WANTED_DIDS <? Z.of_nat (length dids))
    (emit (console_warn "WARNING: more DIDs to monitor than the Jetstream limit")) ;;
  ret {| om_type := "options_update";
         om_wantedCollections := wantedCollections;
         om_wantedDids := firstn (Z.to_nat maxDids) dids;
         om_maxMessageSizeBytes := 0 |}.

(** ** Field updates of the service objects *)

Definition set_ws (x : option WebSocket) (s : JetstreamService) : JetstreamService :=
  {| ws := x; profileData := profileData s;
     reconnectAttempts := reconnectAttempts s; shouldRun := shouldRun s;
     reconnectTimeout := reconnectTimeout s; currentDIDs := currentDIDs s;
     lastCursor := lastCursor s; startTime := startTime s;
     isInActualBackfill := isInActualBackfill s;
     actualBackfillLagSeconds := actualBackfillLagSeconds s;
     lastHost := lastHost s; stoppedAt := stoppedAt s;
     cursorAtStop := cursorAtStop s |}.

Definition set_profileData (x : gmap string ProfileData) (s : JetstreamService) : JetstreamService :=
  {| ws := ws s; profileData := x; reconnectAttempts := reconnectAttempts s;
     shouldRun := shouldRun s; reconnectTimeout := reconnectTimeout s;
     currentDIDs := currentDIDs s; lastCursor := lastCursor s;
     startTime := startTime s; isInActualBackfill := isInActualBackfill s;
     actualBackfillLagSeconds := actualBackfillLagSeconds s;
     lastHost := lastHost s; stoppedAt := stoppedAt s;
     cursorAtStop := cursorAtStop s |}.

Definition set_reconnectAttempts (x : Z) (s : JetstreamService) : JetstreamService :=
  {| ws := ws s; profileData := profileData s; reconnectAttempts := x;
     shouldRun := shouldRun s; reconnectTimeout := reconnectTimeout s;
     currentDIDs := currentDIDs s; lastCursor := lastCursor s;
     startTime := startTime s; isInActualBackfill := isInActualBackfill s;
     actualBackfillLagSeconds := actualBackfillLagSeconds s;
     lastHost := lastHost s; stoppedAt := stoppedAt s;
     cursorAtStop := cursorAtStop s |}.

Definition set_shouldRun (x : bool) (s : JetstreamService) : JetstreamService :=
  {| ws := ws s; profileData := profileData s;
     reconnectAttempts := reconnectAttempts s; shouldRun := x;
     reconnectTimeout := reconnectTimeout s; currentDIDs := currentDIDs s;
     lastCursor := lastCursor s; startTime := startTime s;
     isInActualBackfill := isInActualBackfill s;
     actualBackfillLagSeconds := actualBackfillLagSeconds s;
     lastHost := lastHost s; stoppedAt := stoppedAt s;
     cursorAtStop := cursorAtStop s |}.

Definition set_reconnectTimeout (x : option Z) (s : JetstreamService) : JetstreamService :=
  {| ws := ws s; profileData := profileData s;
     reconnectAttempts := reconnectAttempts s; shouldRun := shouldRun s;
     reconnectTimeout := x; currentDIDs := currentDIDs s;
     lastCursor := lastCursor s; startTime := startTime s;
     isInActualBackfill := isInActualBackfill s;
     actualBackfillLagSeconds := actualBackfillLagSeconds s;
     lastHost := lastHost s; stoppedAt := stoppedAt s;
     cursorAtStop := cursorAtStop s |}.

Definition set_currentDIDs (x : list string) (s : JetstreamService) : JetstreamService :=
  {| ws := ws s; profileData := profileData s;
     reconnectAttempts := reconnectAttempts s; shouldRun := shouldRun s;
     reconnectTimeout := reconnectTimeout s; currentDIDs := x;
     lastCursor := lastCursor s; startTime := startTime s;
     isInActualBackfill := isInActualBackfill s;
     actualBackfillLagSeconds := actualBackfillLagSeconds s;
     lastHost := lastHost s; stoppedAt := stoppedAt s;
     cursorAtStop := cursorAtStop s |}.

Definition set_lastCursor (x : option Z) (s : JetstreamService) : JetstreamService :=
  {| ws := ws s; profileData := profileData s;
     reconnectAttempts := reconnectAttempts s; shouldRun := shouldRun s;
     reconnectTimeout := reconnectTimeout s; currentDIDs := currentDIDs s;
     lastCursor := x; startTime := startTime s;
     isInActualBackfill := isInActualBackfill s;
     actualBackfillLagSeconds := actualBackfillLagSeconds s;
     lastHost := lastHost s; stoppedAt := stoppedAt s;
     cursorAtStop := cursorAtStop s |}.

Definition set_startTime (x : option Z) (s : JetstreamService) : JetstreamService :=
  {| ws := ws s; profileData := profileData s;
     reconnectAttempts := reconnectAttempts s; shouldRun := shouldRun s;
     reconnectTimeout := reconnectTimeout s; currentDIDs := currentDIDs s;
     lastCursor := lastCursor s; startTime := x;
     isInActualBackfill := isInActualBackfill s;
     actualBackfillLagSeconds := actualBackfillLagSeconds s;
     lastHost := lastHost s; stoppedAt := stoppedAt s;
     cursorAtStop := cursorAtStop s |}.

Definition set_isInActualBackfill (x : bool) (s : JetstreamService) : JetstreamService :=
  {| ws := ws s; profileData := profileData s;
     reconnectAttempts := reconnectAttempts s; shouldRun := shouldRun s;
     reconnectTimeout := reconnectTimeout s; currentDIDs := currentDIDs s;
     lastCursor := lastCursor s; startTime := startTime s;
     isInActualBackfill := x;
     actualBackfillLagSeconds := actualBackfillLagSeconds s;
     lastHost := lastHost s; stoppedAt := stoppedAt s;
     cursorAtStop := cursorAtStop s |}.

Definition set_actualBackfillLagSeconds (x : option Z) (s : JetstreamService) : JetstreamService :=
  {| ws := ws s; profileData := profileData s;
     reconnectAttempts := reconnectAttempts s; shouldRun := shouldRun s;
     reconnectTimeout := reconnectTimeout s; currentDIDs := currentDIDs s;
     lastCursor := lastCursor s; startTime := startTime s;
     isInActualBackfill := isInActualBackfill s;
     actualBackfillLagSeconds := x; lastHost := lastHost s;
     stoppedAt := stoppedAt s; cursorAtStop := cursorAtStop s |}.

Definition set_lastHost (x : option string) (s : JetstreamService) : JetstreamService :=
  {| ws := ws s; profileData := profileData s;
     reconnectAttempts := reconnectAttempts s; shouldRun := shouldRun s;
     reconnectTimeout := reconnectTimeout s; currentDIDs := currentDIDs s;
     lastCursor := lastCursor s; startTime := startTime s;
     isInActualBackfill := isInActualBackfill s;
     actualBackfillLagSeconds := actualBackfillLagSeconds s; lastHost := x;
     stoppedAt := stoppedAt s; cursorAtStop := cursorAtStop s |}.

Definition set_stoppedAt (x : option Z) (s : JetstreamService) : JetstreamService :=
  {| ws := ws s; profileData := profileData s;
     reconnectAttempts := reconnectAttempts s; shouldRun := shouldRun s;
     reconnectTimeout := reconnectTimeout s; currentDIDs := currentDIDs s;
     lastCursor := lastCursor s; startTime := startTime s;
     isInActualBackfill := isInActualBackfill s;
     actualBackfillLagSeconds := actualBackfillLagSeconds s;
     lastHost := lastHost s; stoppedAt := x;
     cursorAtStop := cursorAtStop s |}.

Definition set_cursorAtStop (x : option Z) (s : JetstreamService) : JetstreamService :=
  {| ws := ws s; profileData := profileData s;
     reconnectAttempts := reconnectAttempts s; shouldRun := shouldRun s;
     reconnectTimeout := reconnectTimeout s; currentDIDs := currentDIDs s;
     lastCursor := lastCursor s; startTime := startTime s;
     isInActualBackfill := isInActualBackfill s;
     actualBackfillLagSeconds := actualBackfillLagSeconds s;
     lastHost := lastHost s; stoppedAt := stoppedAt s; cursorAtStop := x |}.

Definition set_t_ws (x : option WebSocket) (s : TemporaryJetstreamService) : TemporaryJetstreamService :=
  {| t_userDID := t_userDID s; t_userHandle := t_userHandle s;
     t_follows := t_follows s; t_ws := x; t_profileData := t_profileData s;
     t_startTime := t_startTime s;
     t_reconnectAttempts := t_reconnectAttempts s;
     t_reconnectTimeout := t_reconnectTimeout s;
     t_shouldRun := t_shouldRun s; t_lastCursor := t_lastCursor s;
     t_initialCursor := t_initialCursor s; t_lastHost := t_lastHost s;
     t_hasStopped := t_hasStopped s |}.

Definition set_t_profileData (x : gmap string ProfileData) (s : TemporaryJetstreamService) : TemporaryJetstreamService :=
  {| t_userDID := t_userDID s; t_userHandle := t_userHandle s;
     t_follows := t_follows s; t_ws := t_ws s; t_profileData := x;
     t_startTime := t_startTime s;
     t_reconnectAttempts := t_reconnectAttempts s;
     t_reconnectTimeout := t_reconnectTimeout s;
     t_shouldRun := t_shouldRun s; t_lastCursor := t_lastCursor s;
     t_initialCursor := t_initialCursor s; t_lastHost := t_lastHost s;
     t_hasStopped := t_hasStopped s |}.

Definition set_t_reconnectAttempts (x : Z) (s : TemporaryJetstreamService) : TemporaryJetstreamService :=
  {| t_userDID := t_userDID s; t_userHandle := t_userHandle s;
     t_follows := t_follows s; t_ws := t_ws s;
     t_profileData := t_profileData s; t_startTime := t_startTime s;
     t_reconnectAttempts := x; t_reconnectTimeout := t_reconnectTimeout s;
     t_shouldRun := t_shouldRun s; t_lastCursor := t_lastCursor s;
     t_initialCursor := t_initialCursor s; t_lastHost := t_lastHost s;
     t_hasStopped := t_hasStopped s |}.

Definition set_t_reconnectTimeout (x : option Z) (s : TemporaryJetstreamService) : TemporaryJetstreamService :=
  {| t_userDID := t_userDID s; t_userHandle := t_userHandle s;
     t_follows := t_follows s; t_ws := t_ws s;
     t_profileData := t_profileData s; t_startTime := t_startTime s;
     t_reconnectAttempts := t_reconnectAttempts s; t_reconnectTimeout := x;
     t_shouldRun := t_shouldRun s; t_lastCursor := t_lastCursor s;
     t_initialCursor := t_initialCursor s; t_lastHost := t_lastHost s;
     t_hasStopped := t_hasStopped s |}.

Definition set_t_shouldRun (x : bool) (s : TemporaryJetstreamService) : TemporaryJetstreamService :=
  {| t_userDID := t_userDID s; t_userHandle := t_userHandle s;
     t_follows := t_follows s; t_ws := t_ws s;
     t_profileData := t_profileData s; t_startTime := t_startTime s;
     t_reconnectAttempts := t_reconnectAttempts s;
     t_reconnectTimeout := t_reconnectTimeout s; t_shouldRun := x;
     t_lastCursor := t_lastCursor s; t_initialCursor := t_initialCursor s;
     t_lastHost := t_lastHost s; t_hasStopped := t_hasStopped s |}.

Definition set_t_lastCursor (x : option Z) (s : TemporaryJetstreamService) : TemporaryJetstreamService :=
  {| t_userDID := t_userDID s; t_userHandle := t_userHandle s;
     t_follows := t_follows s; t_ws := t_ws s;
     t_profileData := t_profileData s; t_startTime := t_startTime s;
     t_reconnectAttempts := t_reconnectAttempts s;
     t_reconnectTimeout := t_reconnectTimeout s;
     t_shouldRun := t_shouldRun s; t_lastCursor := x;
     t_initialCursor := t_initialCursor s; t_lastHost := t_lastHost s;
     t_hasStopped := t_hasStopped s |}.

Definition set_t_initialCursor (x : option Z) (s : TemporaryJetstreamService) : TemporaryJetstreamService :=
  {| t_userDID := t_userDID s; t_userHandle := t_userHandle s;
     t_follows := t_follows s; t_ws := t_ws s;
     t_profileData := t_profileData s; t_startTime := t_startTime s;
     t_reconnectAttempts := t_reconnectAttempts s;
     t_reconnectTimeout := t_reconnectTimeout s;
     t_shouldRun := t_shouldRun s; t_lastCursor := t_lastCursor s;
     t_initialCursor := x; t_lastHost := t_lastHost s;
     t_hasStopped := t_hasStopped s |}.

Definition set_t_lastHost (x : option string) (s : TemporaryJetstreamService) : TemporaryJetstreamService :=
  {| t_userDID := t_userDID s; t_userHandle := t_userHandle s;
     t_follows := t_follows s; t_ws := t_ws s;
     t_profileData := t_profileData s; t_startTime := t_startTime s;
     t_reconnectAttempts := t_reconnectAttempts s;
     t_reconnectTimeout := t_reconnectTimeout s;
     t_shouldRun := t_shouldRun s; t_lastCursor := t_lastCursor s;
     t_initialCursor := t_initialCursor s; t_lastHost := x;
     t_hasStopped := t_hasStopped s |}.

Definition set_t_hasStopped (x : bool) (s : TemporaryJetstreamService) : TemporaryJetstreamService :=
  {| t_userDID := t_userDID s; t_userHandle := t_userHandle s;
     t_follows := t_follows s; t_ws := t_ws s;
     t_profileData := t_profileData s; t_startTime := t_startTime s;
     t_reconnectAttempts := t_reconnectAttempts s;
     t_reconnectTimeout := t_reconnectTimeout s;
     t_shouldRun := t_shouldRun s; t_lastCursor := t_lastCursor s;
     t_initialCursor := t_initialCursor s; t_lastHost := t_lastHost s;
     t_hasStopped := x |}.

(** [this.field = x] on the main service. *)
Definition update_main (f : JetstreamService -> JetstreamService) : M unit :=
  modify (fun w => set_main (f (main w)) w).

(** [triggerMonitoringStatusBroadcast] *)
Definition triggerMonitoringStatusBroadcast : M unit := emit status_broadcast.

(** ** Profile snapshot caches

    A handler receives the [Map] of the stream that owns the event by
    reference; the reference is the stream. *)

Definition profileData_get (owner : StreamRef) (did : string) : M (option ProfileData) :=
  gets (fun w =>
    match owner with
    | MainStream => profileData (main w) !! did
    | TempStream obj => heap w !! obj ≫= fun t => t_profileData t !! did
    end).

Definition profileData_set (owner : StreamRef) (did : string) (v : ProfileData) : M unit :=
  modify (fun w =>
    match owner with
    | MainStream => set_main (set_profileData (<[did := v]> (profileData (main w))) (main w)) w
    | TempStream obj =>
        set_heap (alter (fun t => set_t_profileData (<[did := v]> (t_profileData t)) t)
                    obj (heap w)) w
    end).

(** ** Event handlers (jetstream-service.ts) *)

(** [if (value) target = value], on a target that is still [null]. *)
Definition take_if_truthy (value : option string) : option string :=
  if truthy value then value else None.

(** [handleIdentityEvent] *)
Definition handleIdentityEvent (event : JetstreamEvent) (profileData : StreamRef)
    (logPrefix : option string) : M unit :=
  if negb (bool_decide (ev_kind event = "identity")) then ret tt
  else
    match ev_identity event with
    | None => ret tt
    | Some identity =>
        let did := ev_did event in
        let newHandle := or_empty (i_handle identity) in
        oldProfile <- profileData_get profileData did ;;
        let oldHandle := pd_handle <$> oldProfile in
        oldHandle <- match oldHandle with
                     | None =>
                         dbHandle <- getLastKnownHandle did ;;
                         ret (take_if_truthy dbHandle)
                     | Some _ => ret oldHandle
                     end ;;
        oldHandle <- match oldHandle with
                     | None =>
                         auditHandle <- getPreviousHandleFromAuditLog did ;;
                         ret (take_if_truthy auditHandle)
                     | Some _ => ret oldHandle
                     end ;;
        oldHandle <- match oldHandle with
                     | None =>
                         resolvedHandle <- resolveHandle did ;;
                         ret (take_if_truthy resolvedHandle)
                     | Some _ => ret oldHandle
                     end ;;
        let oldHandle := or_empty oldHandle in
        let handleChanged :=
          negb (bool_decide (newHandle = oldHandle))
          && negb (bool_decide (oldHandle = ""))
          && negb (bool_decide (newHandle = "")) in
        currentProfile <- profileData_get profileData did ;;
        profileData_set profileData did
          {| pd_displayName := or_empty (pd_displayName <$> currentProfile);
             pd_avatarRef := or_empty (pd_avatarRef <$> currentProfile);
             pd_handle := newHandle |} ;;
        if negb handleChanged then ret tt
        else
          let changeData :=
            {| sc_did := did;
               sc_handle := string_or_undefined newHandle;
               sc_old_handle := string_or_undefined oldHandle;
               sc_new_handle := string_or_undefined newHandle;
               sc_old_display_name := js_undefined;
               sc_new_display_name := js_undefined;
               sc_old_avatar := js_undefined; sc_new_avatar := js_undefined |} in
          duplicate <- isDuplicateChange changeData ;;
          match duplicate with
          | Some (dupOldHandle, dupNewHandle) =>
              (* the handles are looked up again only to print them *)
              when (negb (truthy dupOldHandle))
                (getPreviousHandleFromAuditLog did ;; ret tt) ;;
              when (negb (truthy dupNewHandle))
                (resolveHandle did ;; ret tt)
          | None =>
              insertChange changeData logPrefix ;;
              ret tt
          end
    end.

(** [handleProfileCommit] *)
Definition handleProfileCommit (event : JetstreamEvent) (profileData : StreamRef)
    (logPrefix : option string) : M unit :=
  if negb (bool_decide (ev_kind event = "commit")) then ret tt
  else
    match ev_commit event with
    | None => ret tt
    | Some commit =>
        if negb (bool_decide (c_collection commit = "app.bsky.actor.profile"))
        then ret tt
        else
          match c_record commit with
          | None => ret tt
          | Some record =>
              let did := ev_did event in
              let newDisplayName := or_empty (cr_displayName record) in
              let newAvatarRef := or_empty (cr_avatar_link record) in
              oldProfile <- profileData_get profileData did ;;
              let oldDisplayName := or_empty (pd_displayName <$> oldProfile) in
              let oldAvatarRef := or_empty (pd_avatarRef <$> oldProfile) in
              let currentHandle := or_empty (pd_handle <$> oldProfile) in
              currentHandle <-
                (if bool_decide (currentHandle = "") then
                   dbHandle <- getLastKnownHandle did ;;
                   ret (if truthy dbHandle then or_empty dbHandle else currentHandle)
                 else ret currentHandle) ;;
              currentHandle <-
                (if bool_decide (currentHandle = "") then
                   resolvedHandle <- resolveHandle did ;;
                   ret (if truthy resolvedHandle then or_empty resolvedHandle
                        else currentHandle)
                 else ret currentHandle) ;;
              let displayNameChanged :=
                negb (bool_decide (newDisplayName = oldDisplayName)) in
              let avatarChanged :=
                negb (bool_decide (newAvatarRef = oldAvatarRef)) in
              if negb displayNameChanged && negb avatarChanged
                 && bool_decide (is_Some oldProfile)
              then ret tt
              else
                profileData_set profileData did
                  {| pd_displayName := newDisplayName;
                     pd_avatarRef := newAvatarRef;
                     pd_handle := currentHandle |} ;;
                if negb displayNameChanged && negb avatarChanged then ret tt
                else if negb (bool_decide (is_Some oldProfile)) then ret tt
                else
                  let changeData :=
                    {| sc_did := did;
                       sc_handle := string_or_undefined currentHandle;
                       sc_old_handle := js_undefined; sc_new_handle := js_undefined;
                       sc_old_display_name := string_or_undefined oldDisplayName;
                       sc_new_display_name := string_or_undefined newDisplayName;
                       sc_old_avatar := string_or_undefined oldAvatarRef;
                       sc_new_avatar := string_or_undefined newAvatarRef |} in
                  (* with or without a duplicate the change goes to
                     [insertChange]; the two branches of the source differ
                     in what they print *)
                  isDuplicate <- isDuplicateChange changeData ;;
                  insertChange changeData logPrefix ;;
                  ret tt
          end
    end.

(** ** Main stream: DID-set reconciliation (jetstream-service.ts) *)

(** [reloadDIDs]. The test [didsChanged] of the source compares the lengths
    and then the arrays element by element, which is inequality of the two
    lists. *)
Definition reloadDIDs : M unit :=
  try_catch (
    followedDIDs <- withDBRetry getAllMonitoredDIDs "Loading monitored DIDs" ;;
    userDIDs <- withDBRetry getMonitoringUsers "Loading monitoring users" ;;
    ignoredUsers <- withDBRetry getIgnoredUsers "Loading ignored users" ;;
    let ignoredSet := map iu_did ignoredUsers in
    let userDIDsFiltered :=
      List.filter (fun did => negb (bool_decide (did ∈ ignoredSet))) userDIDs in
    let followedDIDsFiltered :=
      List.filter (fun did => negb (bool_decide (did ∈ ignoredSet))) followedDIDs in
    let dids :=
      (userDIDsFiltered ++
       List.filter (fun did => negb (bool_decide (did ∈ userDIDsFiltered)))
         followedDIDsFiltered)%list in
    if bool_decide (length dids = 0%nat) then
      current <- gets (fun w => currentDIDs (main w)) ;;
      let stateChanged := (0 <? Z.of_nat (length current)) in
      when stateChanged (
        socket <- gets (fun w => ws (main w)) ;;
        when (bool_decide (is_Some socket)) (
          emit (ws_close MainStream) ;;
          update_main (set_ws None))) ;;
      update_main (set_currentDIDs []) ;;
      when stateChanged triggerMonitoringStatusBroadcast
    else
      current <- gets (fun w => currentDIDs (main w)) ;;
      let didsChanged := negb (bool_decide (dids = current)) in
      when didsChanged (
        userCount <- withDBRetry getMonitoringUserCount
                       "Loading monitoring user count" ;;
        update_main (set_currentDIDs dids) ;;
        socket <- gets (fun w => ws (main w)) ;;
        when (bool_decide (is_Some socket)) (
          update_main (set_reconnectAttempts 0) ;;
          emit (ws_close MainStream))) ;;
      when didsChanged triggerMonitoringStatusBroadcast)
  (fun error => emit (console_error "Error reloading DIDs")).

(** [reloadDIDsNow]: the request is announced ("DID reload triggered", the
    one [console.log] line that the trace records, as [did_reload]) and then
    carried out. *)
Definition reloadDIDsNow (source : string) : M unit :=
  emit (did_reload source) ;;
  reloadDIDs.

(** ** Follow and unfollow events (jetstream-service.ts) *)

(** [handleFollowEvent]. The service argument of the source is always the
    main singleton, which lives in the world. *)
Definition handleFollowEvent (event : JetstreamEvent) (logPrefix : option string)
    (isInBackfill : bool) : M unit :=
  if negb (bool_decide (ev_kind event = "commit")) then ret tt
  else
    match ev_commit event with
    | None => ret tt
    | Some commit =>
        if negb (bool_decide (c_collection commit = "app.bsky.graph.follow"))
        then ret tt
        else
          let followerDID := ev_did event in
          let operation := c_operation commit in
          let rkey := c_rkey commit in
          if negb (bool_decide (operation = "create"))
             && negb (bool_decide (operation = "delete"))
          then ret tt
          else
            hasMonitoring <- hasMonitoringEnabled followerDID ;;
            if negb hasMonitoring then ret tt
            else if isInBackfill && negb (truthy logPrefix) then ret tt
            else
              followerHandle <- resolveHandle followerDID ;;
              if bool_decide (operation = "create") then
                match c_record commit ≫= cr_subject with
                | None => ret tt
                | Some followedDID =>
                    if bool_decide (followedDID = "") then ret tt
                    else
                      followedHandle <- resolveHandle followedDID ;;
                      if negb (truthy followedHandle) then
                        emit (console_warn
                                ("Could not resolve handle for " +:+ followedDID
                                 +:+ ", skipping auto-add"))
                      else
                        existingFollows <- getMonitoredFollows followerDID ;;
                        let alreadyExists :=
                          existsb (fun f => bool_decide (mf_follow_did f = followedDID))
                            existingFollows in
                        if alreadyExists then ret tt
                        else
                          addMonitoredFollows followerDID
                            [ {| f_did := followedDID;
                                 f_handle := or_empty followedHandle;
                                 f_rkey := rkey |} ] ;;
                          reloadDIDsNow "auto"
                end
              else
                match or_undefined rkey with
                | None =>
                    emit (console_warn "Delete event without rkey, cannot process")
                | Some rkey =>
                    removedDID <- getFollowDIDByRkey followerDID rkey ;;
                    match or_undefined removedDID with
                    | None => ret tt
                    | Some removedDID =>
                        removedHandle <- resolveHandle removedDID ;;
                        removeMonitoredFollowByRkey followerDID rkey ;;
                        allMonitoredDIDs <- getAllMonitoredDIDs ;;
                        let stillMonitored :=
                          bool_decide (removedDID ∈ allMonitoredDIDs) in
                        if stillMonitored then ret tt
                        else reloadDIDsNow "auto"
                    end
                end
    end.

(** ** Main stream manager (jetstream-service.ts, class JetstreamService) *)

(** [a < b] on exact numbers. *)
Definition Qltb (a b : Q) : bool := negb (Qle_bool b a).

(** [isRunningWithCursor] *)
Definition isRunningWithCursor : M bool :=
  now <- Date_now ;;
  s <- gets main ;;
  let hasValidCursor := negb (bool_decide (lastCursor s = None)) in
  let runningSinceMs :=
    match startTime s with
    | Some t => now - t
    | None => 0
    end in
  let runningForAtLeast30s := (30000 <? runningSinceMs) in
  ret (hasValidCursor && runningForAtLeast30s).

(** [getCursorInfo]: the timestamp is taken when the cursor is truthy;
    [new Date(x)] drops the fraction of a millisecond. *)
Definition getCursorInfo : M CursorInfo :=
  s <- gets main ;;
  ret {| ci_timestamp :=
           match lastCursor s with
           | Some c => if bool_decide (c = 0) then None else Some (Z.quot c 1000)
           | None => None
           end;
         ci_isInBackfill := isInActualBackfill s |}.

(** [broadcastCursorUpdate] *)
Definition broadcastCursorUpdate : M unit :=
  cursorInfo <- getCursorInfo ;;
  emit (cursor_broadcast cursorInfo).

(** [fetchFollowsFromBluesky] (utils/follows.ts): the follow-graph API
    answers through the network oracle and the fetcher never throws. *)
Definition fetchFollowsFromBluesky (userDID : string) : M (list Follow) :=
  gets (fun w =>
    map (fun '(did, handle) =>
           {| f_did := did; f_handle := handle; f_rkey := None |})
      (net_follows w userDID)).

(** [for (const x of xs) { body x }] *)
Fixpoint for_each {A} (xs : list A) (body : A -> M unit) : M unit :=
  match xs with
  | [] => ret tt
  | x :: xs' => body x ;; for_each xs' body
  end.

(** [fetchFollowsForUsers]: the map from each user to its follows, in the
    order of the users. *)
Fixpoint fetchFollowsForUsers (userDIDs : list string)
  : M (list (string * list Follow)) :=
  match userDIDs with
  | [] => ret []
  | u :: us =>
      follows <- fetchFollowsFromBluesky u ;;
      rest <- fetchFollowsForUsers us ;;
      ret ((u, follows) :: rest)
  end.

(** [getMonitoredFollowsBatch] (db.ts): one statement; the rows are grouped
    by user when they are looked up. *)
Definition getMonitoredFollowsBatch (userDIDs : list string)
  : M (list MonitoredFollowRow) :=
  if bool_decide (length userDIDs = 0%nat) then ret []
  else
    pool_query (fun d =>
      (order_by_added_at_desc
         (List.filter (fun r => bool_decide (mf_user_did r ∈ userDIDs))
            (monitored_follows d)), d)).

(** [syncFollowsForAllUsers] *)
Definition syncFollowsForAllUsers : M unit :=
  try_catch (
    userDIDs <- withDBRetry getMonitoringUsers
                  "Loading monitoring users for follow sync" ;;
    if bool_decide (length userDIDs = 0%nat) then ret tt
    else
      followsMap <- fetchFollowsForUsers userDIDs ;;
      dbFollowsMap <- withDBRetry (getMonitoredFollowsBatch userDIDs)
                        "Getting DB follows for all users (batch)" ;;
      for_each followsMap (fun '(userDID, currentFollows) =>
        let dbFollows :=
          List.filter (fun r => bool_decide (mf_user_did r = userDID))
            dbFollowsMap in
        let currentFollowDIDs := map f_did currentFollows in
        let unfollowed :=
          List.filter (fun f => negb (bool_decide (mf_follow_did f ∈ currentFollowDIDs)))
            dbFollows in
        when (0 <? Z.of_nat (length unfollowed)) (
          resolveHandle userDID ;;
          for_each unfollowed (fun unfollow =>
            withDBRetry (removeMonitoredFollow userDID (mf_follow_did unfollow))
              "Removing unfollowed")) ;;
        (* new and updated follows are only counted, to be announced *)
        when (0 <? Z.of_nat (length currentFollows)) (
          withDBRetry (addMonitoredFollows userDID currentFollows)
            "Syncing follows")))
  (fun error => emit (console_error "Error synchronizing follows")).

(** [connect]. The handlers it registers on the new socket are [on_open],
    [on_message], [on_error] and [on_close] below; the constructor of the
    socket is assumed not to throw. *)
Definition connect : M unit :=
  update_main (set_lastHost None) ;;
  current <- gets (fun w => currentDIDs (main w)) ;;
  if bool_decide (length current = 0%nat) then ret tt
  else
    last <- gets (fun w => lastCursor (main w)) ;;
    let cursor :=
      match last with
      | Some c => if bool_decide (c = 0) then None else Some c
      | None => None
      end in
    when (bool_decide (cursor = None)) (
      update_main (set_isInActualBackfill false) ;;
      update_main (set_actualBackfillLagSeconds None)) ;;
    request <- buildJetstreamRequest cursor ;;
    update_main (set_lastHost (Some (ws_host request))) ;;
    update_main (set_ws (Some request)).

(** The ["open"] handler of the main socket. *)
Definition on_open : M unit :=
  update_main (set_reconnectAttempts 0) ;;
  current <- gets (fun w => currentDIDs (main w)) ;;
  optionsMessage <- buildOptionsUpdateMessage current ;;
  socket <- gets (fun w => ws (main w)) ;;
  when (bool_decide (is_Some socket)) (emit (ws_send MainStream optionsMessage)) ;;
  last <- gets (fun w => lastCursor (main w)) ;;
  when (match last with
        | Some c => negb (bool_decide (c = 0))
        | None => false
        end) broadcastCursorUpdate ;;
  triggerMonitoringStatusBroadcast.

(** The handlers that [processEvent] runs for an event, before it touches the
    cursor: the statements of its [try] block up to the cursor update. *)
Definition dispatch_event (event : JetstreamEvent) : M unit :=
  when (bool_decide (ev_kind event = "identity")) (
    withDBRetry (handleIdentityEvent event MainStream None)
      "Persisting Jetstream identity event") ;;
  when (bool_decide (ev_kind event = "commit")) (
    withDBRetry (handleProfileCommit event MainStream None)
      "Persisting Jetstream commit event" ;;
    withDBRetry (
      inBackfill <- gets (fun w => isInActualBackfill (main w)) ;;
      handleFollowEvent event None inBackfill)
      "Processing follow event for auto-add").

(** [processEvent] of the main stream. *)
Definition processEvent (event : JetstreamEvent) : M unit :=
  try_catch (
    hadValidCursor <- isRunningWithCursor ;;
    let eventCursor := ev_time_us event in
    dispatch_event event ;;
    update_main (set_lastCursor (Some eventCursor)) ;;
    broadcastCursorUpdate ;;
    s <- gets main ;;
    when (isInActualBackfill s) (
      match startTime s with
      | None => ret tt
      | Some startTimeMs =>
          let eventTime := (eventCursor # 1000)%Q in
          when (Qle_bool (inject_Z startTimeMs) eventTime) (
            update_main (set_isInActualBackfill false) ;;
            update_main (set_actualBackfillLagSeconds None))
      end) ;;
    hasValidCursor <- isRunningWithCursor ;;
    when (hasValidCursor && negb hadValidCursor) triggerMonitoringStatusBroadcast)
  (fun error => emit (console_error "Error processing event")).

(** The ["message"] handler, with the call of [processEvent] that it starts
    run to its end (the handler itself does not await the call, see
    "Overlapping calls"): a frame that does not parse ([None]) is logged and
    skipped. *)
Definition on_message (frame : option JetstreamEvent) : M unit :=
  match frame with
  | Some event => processEvent event
  | None => emit (console_error "Error parsing message")
  end.

(** The ["close"] handler of the main socket. The reconnect itself is the
    timer firing later, which runs [connect]. *)
Definition on_close : M unit :=
  run <- gets (fun w => shouldRun (main w)) ;;
  when run (
    attempts <- gets (fun w => reconnectAttempts (main w)) ;;
    let isManualReconnect := bool_decide (attempts = 0) in
    when (negb isManualReconnect) (update_main (set_reconnectAttempts (attempts + 1))) ;;
    attempts <- gets (fun w => reconnectAttempts (main w)) ;;
    let delay :=
      if isManualReconnect then 0 else Z.min (1000 * 2 ^ attempts) 30000 in
    emit (set_timeout MainStream delay) ;;
    update_main (set_reconnectTimeout (Some delay))) ;;
  triggerMonitoringStatusBroadcast.

(** [start] *)
Definition start (cursor : option Z) : M unit :=
  update_main (set_shouldRun true) ;;
  now <- Date_now ;;
  update_main (set_startTime (Some now)) ;;
  match cursor with
  | Some cursor =>
      update_main (set_lastCursor (Some cursor)) ;;
      let cursorTime := (cursor # 1000)%Q in
      now <- Date_now ;;
      let timeDiff := (inject_Z now - cursorTime)%Q in
      update_main (set_isInActualBackfill (Qltb (inject_Z 60000) timeDiff)) ;;
      inBackfill <- gets (fun w => isInActualBackfill (main w)) ;;
      when inBackfill (
        update_main (set_actualBackfillLagSeconds
                       (Some (Qfloor (timeDiff / inject_Z 1000)))))
  | None => ret tt
  end ;;
  syncFollowsForAllUsers ;;
  reloadDIDs ;;
  connect.

(** [stop] *)
Definition stop : M unit :=
  update_main (set_shouldRun false) ;;
  last <- gets (fun w => lastCursor (main w)) ;;
  update_main (set_cursorAtStop last) ;;
  now <- Date_now ;;
  update_main (set_stoppedAt (Some now)) ;;
  match last with
  | Some c =>
      when (negb (bool_decide (c = 0))) (
        saveSetting "jetstream_stop_cursor" (SettingNum c) ;;
        saveSetting "jetstream_stop_time" (SettingNum now))
  | None => ret tt
  end ;;
  update_main (set_lastCursor None) ;;
  update_main (set_startTime None) ;;
  update_main (set_isInActualBackfill false) ;;
  update_main (set_actualBackfillLagSeconds None) ;;
  timer <- gets (fun w => reconnectTimeout (main w)) ;;
  when (bool_decide (is_Some timer)) (emit (clear_timeout MainStream)) ;;
  socket <- gets (fun w => ws (main w)) ;;
  when (bool_decide (is_Some socket)) (
    emit (ws_close MainStream) ;;
    update_main (set_ws None)) ;;
  triggerMonitoringStatusBroadcast.

(** Result of [getMainStreamStatus]. *)
Record MainStreamStatus := {
  isRunning : bool;
  monitoredDIDs : Z;
  hasValidCursor : bool;
}.

(** [getMainStreamStatus] *)
Definition getMainStreamStatus : M MainStreamStatus :=
  s <- gets main ;;
  let isRunning :=
    shouldRun s && negb (bool_decide (ws s = None))
    && (0 <? Z.of_nat (length (currentDIDs s))) in
  withCursor <- (if isRunning then isRunningWithCursor else ret false) ;;
  ret {| isRunning := isRunning;
         monitoredDIDs := Z.of_nat (length (currentDIDs s));
         hasValidCursor := isRunning && withCursor |}.

(** ** Temporary backfill streams (utils/jetstream-temp.ts) *)

Module Temp.

(** [buildOptionsUpdateMessage] of jetstream-temp.ts: the list is sent as it
    is ("no limit here; upstream may cap"). *)
Definition buildOptionsUpdateMessage (dids : list string) : M OptionsUpdateMessage :=
  ret {| om_type := "options_update";
         om_wantedCollections := wantedCollections;
         om_wantedDids := dids;
         om_maxMessageSizeBytes := 0 |}.

(** Access to the service object at address [obj]. *)
Definition this (obj : nat) : M (option TemporaryJetstreamService) :=
  gets (fun w => heap w !! obj).

Definition update (obj : nat)
    (f : TemporaryJetstreamService -> TemporaryJetstreamService) : M unit :=
  modify (fun w => set_heap (alter f obj (heap w)) w).

(** A method body that runs on an existing object. *)
Definition method (obj : nat) (body : TemporaryJetstreamService -> M unit) : M unit :=
  t <- this obj ;;
  match t with
  | Some t => body t
  | None => ret tt
  end.

(** The getter [logPrefix]. *)
Definition logPrefix (t : TemporaryJetstreamService) : string :=
  if truthy (t_userHandle t)
  then "[Temp/@" +:+ or_empty (t_userHandle t) +:+ "]"
  else "[Temp/" +:+ t_userDID t +:+ "]".

(** [connect] of a temporary service. *)
Definition connect (obj : nat) : M unit :=
  method obj (fun t =>
    if negb (t_shouldRun t) then ret tt
    else
      update obj (set_t_lastHost None) ;;
      when (bool_decide (is_Some (t_reconnectTimeout t))) (
        emit (clear_timeout (TempStream obj)) ;;
        update obj (set_t_reconnectTimeout None)) ;;
      cursor <- match t_lastCursor t with
                | Some c => ret c
                | None =>
                    match t_initialCursor t with
                    | Some c => ret c
                    | None => getCursor24hAgo
                    end
                end ;;
      when (bool_decide (t_initialCursor t = None))
        (update obj (set_t_initialCursor (Some cursor))) ;;
      request <- buildJetstreamRequest (Some cursor) ;;
      update obj (set_t_lastHost (Some (ws_host request))) ;;
      update obj (set_t_ws (Some request))).

(** [start] of a temporary service. *)
Definition start (obj : nat) : M unit :=
  update obj (set_t_shouldRun true) ;;
  update obj (set_t_hasStopped false) ;;
  update obj (set_t_reconnectAttempts 0) ;;
  update obj (set_t_lastCursor None) ;;
  cursor <- getCursor24hAgo ;;
  update obj (set_t_initialCursor (Some cursor)) ;;
  connect obj.

(** The ["open"] handler of a temporary socket. *)
Definition on_open (obj : nat) : M unit :=
  method obj (fun t =>
    update obj (set_t_reconnectAttempts 0) ;;
    when (bool_decide (is_Some (t_reconnectTimeout t))) (
      emit (clear_timeout (TempStream obj)) ;;
      update obj (set_t_reconnectTimeout None)) ;;
    message <- buildOptionsUpdateMessage (t_follows t) ;;
    when (bool_decide (is_Some (t_ws t))) (emit (ws_send (TempStream obj) message))).

(** The ["close"] handler of a temporary socket. *)
Definition on_close (obj : nat) : M unit :=
  method obj (fun t =>
    update obj (set_t_ws None) ;;
    if negb (t_shouldRun t) then update obj (set_t_reconnectAttempts 0)
    else
      let attempts := t_reconnectAttempts t + 1 in
      update obj (set_t_reconnectAttempts attempts) ;;
      let delay := Z.min (1000 * 2 ^ attempts) 30000 in
      emit (set_timeout (TempStream obj) delay) ;;
      update obj (set_t_reconnectTimeout (Some delay)) ;;
      triggerMonitoringStatusBroadcast).

(** [this.activeStreams] and [this.queue] of the manager. *)
Definition update_mgr (f : TemporaryJetstreamManager -> TemporaryJetstreamManager)
  : M unit :=
  modify (fun w => set_mgr (f (mgr w)) w).

Definition set_activeStreams (x : gmap string nat) (m : TemporaryJetstreamManager)
  : TemporaryJetstreamManager :=
  {| activeStreams := x; queue := queue m |}.

Definition set_queue (x : list QueueEntry) (m : TemporaryJetstreamManager)
  : TemporaryJetstreamManager :=
  {| activeStreams := activeStreams m; queue := x |}.

(** [this.activeStreams.size >= this.deps.maxConcurrentTempStreams] *)
Definition at_capacity : M bool :=
  gets (fun w =>
    maxConcurrentTempStreams w <=? Z.of_nat (size (activeStreams (mgr w)))).

(** [new TemporaryJetstreamService(...)]: a fresh address in the heap; the
    constructor records the time. *)
Definition new_service (userDID : string) (userHandle : option string)
    (follows : list string) : M nat :=
  now <- Date_now ;;
  obj <- gets (fun w => fresh (dom (heap w))) ;;
  modify (fun w =>
    set_heap
      (<[obj := {| t_userDID := userDID; t_userHandle := userHandle;
                   t_follows := follows; t_ws := None; t_profileData := ∅;
                   t_startTime := now; t_reconnectAttempts := 0;
                   t_reconnectTimeout := None; t_shouldRun := true;
                   t_lastCursor := None; t_initialCursor := None;
                   t_lastHost := None; t_hasStopped := false |}]> (heap w)) w) ;;
  ret obj.

(** [startStreamForUser] *)
Definition startStreamForUser (userDID : string) (follows : list string) : M unit :=
  userHandle <- resolveHandle userDID ;;
  ignoredRows <- getIgnoredUsers ;;
  let ignoredSet := map iu_did ignoredRows in
  let filteredFollows :=
    List.filter (fun did => negb (bool_decide (did ∈ ignoredSet))) follows in
  if bool_decide (length filteredFollows = 0%nat) then
    withDBRetry (markBackfillStarted userDID) "Marking backfill started" ;;
    withDBRetry (markBackfillCompleted userDID) "Marking backfill completed" ;;
    triggerMonitoringStatusBroadcast
  else
    service <- new_service userDID userHandle filteredFollows ;;
    update_mgr (fun m => set_activeStreams (<[userDID := service]> (activeStreams m)) m) ;;
    withDBRetry (markBackfillStarted userDID) "Marking backfill started" ;;
    try_catch (
      start service ;;
      triggerMonitoringStatusBroadcast)
    (fun error =>
      emit (console_error "Failed to start temporary stream") ;;
      update_mgr (fun m => set_activeStreams (delete userDID (activeStreams m)) m) ;;
      try_catch
        (withDBRetry (markBackfillCompleted userDID) "Marking backfill completed")
        (fun dbError => emit (console_error "Failed to reset backfill state")) ;;
      triggerMonitoringStatusBroadcast ;;
      throw error).

(** What the promise of [startForUser] holds when the call has run as far as
    it can: it is fulfilled with [{ queued: false }], or it is still pending
    because the request waits in the queue. [processQueue] settles a pending
    promise when it promotes the request (the effects [queue_resolve] and
    [queue_reject]). *)
Inductive StartResult :=
| Started
| Pending.

(** [startForUser] *)
Definition startForUser (userDID : string) (follows : list string) : M StartResult :=
  active <- gets (fun w => activeStreams (mgr w) !! userDID) ;;
  if bool_decide (is_Some active) then
    throw (JsError "User already has an active temporary stream")
  else
    full <- at_capacity ;;
    if full then
      update_mgr (fun m =>
        set_queue (queue m ++ [ {| q_userDID := userDID; q_follows := follows |} ]) m) ;;
      triggerMonitoringStatusBroadcast ;;
      ret Pending
    else
      startStreamForUser userDID follows ;;
      ret Started.

(** [processQueue] *)
Definition processQueue : M unit :=
  pending <- gets (fun w => queue (mgr w)) ;;
  if bool_decide (length pending = 0%nat) then ret tt
  else
    full <- at_capacity ;;
    if full then ret tt
    else
      match pending with
      | [] => ret tt
      | next :: rest =>
          update_mgr (set_queue rest) ;;
          triggerMonitoringStatusBroadcast ;;
          try_catch (
            startStreamForUser (q_userDID next) (q_follows next) ;;
            (* [next.resolve()]: the promise of the request is fulfilled with
               [{ queued: true, position: this.queue.length }] *)
            position <- gets (fun w => Z.of_nat (length (queue (mgr w)))) ;;
            emit (queue_resolve (q_userDID next) position))
          (fun err => emit (queue_reject (q_userDID next)))
      end.

(** [finalizeStream] *)
Definition finalizeStream (userDID : string) (triggeredByManager : bool) : M unit :=
  service <- gets (fun w => activeStreams (mgr w) !! userDID) ;;
  match service with
  | None => ret tt
  | Some _ =>
      update_mgr (fun m => set_activeStreams (delete userDID (activeStreams m)) m) ;;
      try_catch
        (withDBRetry (markBackfillCompleted userDID) "Marking backfill completed")
        (fun error => emit (console_error "Failed to record backfill completion")) ;;
      triggerMonitoringStatusBroadcast ;;
      processQueue
  end.

(** [stop] of a temporary service; [onStopped] is the manager's
    [finalizeStream] for the user of the service. *)
Definition stop (obj : nat) (triggeredByManager : bool) : M unit :=
  method obj (fun t =>
    update obj (set_t_shouldRun false) ;;
    when (bool_decide (is_Some (t_reconnectTimeout t))) (
      emit (clear_timeout (TempStream obj)) ;;
      update obj (set_t_reconnectTimeout None)) ;;
    update obj (set_t_reconnectAttempts 0) ;;
    when (bool_decide (is_Some (t_ws t))) (
      emit (ws_close (TempStream obj)) ;;
      update obj (set_t_ws None)) ;;
    if t_hasStopped t then ret tt
    else
      update obj (set_t_hasStopped true) ;;
      try_catch (finalizeStream (t_userDID t) triggeredByManager)
        (fun error => emit (console_error "Failed to finalize temporary stream"))).

(** [stopForUser] *)
Definition stopForUser (userDID : string) : M unit :=
  service <- gets (fun w => activeStreams (mgr w) !! userDID) ;;
  match service with
  | Some obj => stop obj true
  | None => ret tt
  end.

(** The handlers that [processEvent] runs for an event that has not caught
    up with the start of the stream. *)
Definition dispatch_event (obj : nat) (t : TemporaryJetstreamService)
    (event : JetstreamEvent) : M unit :=
  when (bool_decide (ev_kind event = "identity")) (
    withDBRetry (handleIdentityEvent event (TempStream obj) (Some (logPrefix t)))
      "Persisting temporary Jetstream identity event") ;;
  when (bool_decide (ev_kind event = "commit")) (
    withDBRetry (handleProfileCommit event (TempStream obj) (Some (logPrefix t)))
      "Persisting temporary Jetstream commit event" ;;
    withDBRetry (handleFollowEvent event (Some (logPrefix t)) false)
      "Processing temporary Jetstream follow event").

(** [processEvent] of a temporary service. *)
Definition processEvent (obj : nat) (event : JetstreamEvent) : M unit :=
  method obj (fun t =>
    try_catch (
      when (negb (bool_decide (ev_time_us event = 0)))
        (update obj (set_t_lastCursor (Some (ev_time_us event)))) ;;
      if negb (bool_decide (ev_time_us event = 0))
         && Qle_bool (inject_Z (t_startTime t)) (ev_time_us event # 1000)%Q
      then stop obj false
      else dispatch_event obj t event)
    (fun error => emit (console_error "Error processing temporary Jetstream event"))).

(** The ["message"] handler of a temporary socket, with the call of
    [processEvent] that it starts run to its end (the handler does not await
    the call). *)
Definition on_message (obj : nat) (frame : option JetstreamEvent) : M unit :=
  match frame with
  | Some event => processEvent obj event
  | None => emit (console_error "Error parsing Jetstream event")
  end.

(** Result of the manager's [getStatus]. *)
Record ManagerStatus := {
  st_activeStreams : Z;
  st_maxStreams : Z;
  st_queueLength : Z;
  st_availableSlots : Z;
  st_activeUsers : list string;
}.

(** [getStatus] of the manager ([activeUsers] in key order, not insertion
    order). *)
Definition getStatus : M ManagerStatus :=
  gets (fun w =>
    let active := Z.of_nat (size (activeStreams (mgr w))) in
    {| st_activeStreams := active;
       st_maxStreams := maxConcurrentTempStreams w;
       st_queueLength := Z.of_nat (length (queue (mgr w)));
       st_availableSlots := Z.max 0 (maxConcurrentTempStreams w - active);
       st_activeUsers := (map_to_list (activeStreams (mgr w))).*1 |}).



End Temp.

(** * Overlapping calls

    The source lets calls overlap wherever one of them awaits: a route or a
    handler that awaits a database statement gives way to whatever is ready
    to run. The functions below are calls cut at such an [await], and
    schedules in which another call runs in the gap. *)

(** The two checks of [insertChange], up to the [await] of its INSERT:
    whether the call goes on to insert. *)
Definition insertChange_checks (change : SubmitChangeRequest) : M bool :=
  ignoredCheck <- pool_query (fun d =>
    (select_limit_1 (fun u => bool_decide (iu_did u = sc_did change))
       (ignored_users d), d)) ;;
  if (0 <? Z.of_nat (length ignoredCheck)) then ret false
  else
    duplicateCheck <- pool_query (fun d =>
      (select_limit_1 (same_change change) (profile_changes d), d)) ;;
    ret (match duplicateCheck with
         | [] => true
         | _ :: _ => false
         end).

(** [insertChange] from its INSERT on: the call as it resumes after its
    checks found neither an ignored DID nor a duplicate. *)
Definition insertChange_insert (change : SubmitChangeRequest)
  : M (option ProfileChangeRow) :=
  let changeType := getChangeType change in
  now <- Date_now ;;
  result <- pool_query (insert_profile_change change changeType now) ;;
  ret (head result).

(** A call of [insertChange] that has passed its checks when a call of
    [addIgnoredUser] runs and commits; the INSERT of the first call is
    executed after the commit. *)
Definition insertChange_overtaken_by_ignore (change : SubmitChangeRequest)
    (did : string) : M (option ProfileChangeRow) :=
  inserts <- insertChange_checks change ;;
  if inserts then
    addIgnoredUser did ;;
    insertChange_insert change
  else ret None.

(** [processEvent] of the main stream from its first [await] on;
    [hadValidCursor] is what the call read when it started. *)
Definition processEvent_resumed (event : JetstreamEvent) (hadValidCursor : bool)
  : M unit :=
  try_catch (
    let eventCursor := ev_time_us event in
    dispatch_event event ;;
    update_main (set_lastCursor (Some eventCursor)) ;;
    broadcastCursorUpdate ;;
    s <- gets main ;;
    when (isInActualBackfill s) (
      match startTime s with
      | None => ret tt
      | Some startTimeMs =>
          let eventTime := (eventCursor # 1000)%Q in
          when (Qle_bool (inject_Z startTimeMs) eventTime) (
            update_main (set_isInActualBackfill false) ;;
            update_main (set_actualBackfillLagSeconds None))
      end) ;;
    hasValidCursor <- isRunningWithCursor ;;
    when (hasValidCursor && negb hadValidCursor) triggerMonitoringStatusBroadcast)
  (fun error => emit (console_error "Error processing event")).

(** Two frames that arrive one after the other. The ["message"] handler
    calls [processEvent] and does not await it: the call for the first frame
    is suspended at the [await] of its handlers, with its database statement
    under way, when the second frame arrives. The second frame is of a kind
    that no handler takes, so its call has nothing to wait for and runs to
    its end; then the call for the first frame resumes. The call for the
    second frame writes the cursor, the back-fill flags and the trace only,
    none of which a handler has read before its first [await]: the handlers
    of the first frame are run as a whole after it. *)
Definition two_frames_overlap (first second : JetstreamEvent) : M unit :=
  hadValidCursor <- isRunningWithCursor ;;
  on_message (Some second) ;;
  processEvent_resumed first hadValidCursor.

(** * Vocabulary of the specification *)

(** ** Change records *)

(** A handle transition: old and new handle both present and non-empty. *)
Definition handle_transition (c : SubmitChangeRequest) : Prop :=
  exists o n, sc_old_handle c = js_string o /\ sc_new_handle c = js_string n
              /\ o <> "" /\ n <> "".

(** A profile-field transition: an old or new display name or avatar is
    present, that is, the record has a value in one of the four columns. *)
Definition profile_transition (c : SubmitChangeRequest) : Prop :=
  is_Some (nullish (sc_old_display_name c))
  \/ is_Some (nullish (sc_new_display_name c))
  \/ is_Some (nullish (sc_old_avatar c)) \/ is_Some (nullish (sc_new_avatar c)).

(** What [getChangeType] takes for a profile field: a key of the request
    that is not [undefined]. *)
Definition profile_field_defined (c : SubmitChangeRequest) : Prop :=
  sc_old_display_name c <> js_undefined \/ sc_new_display_name c <> js_undefined
  \/ sc_old_avatar c <> js_undefined \/ sc_new_avatar c <> js_undefined.

(** No field of the request is an explicit [null]. *)
Definition no_null_field (c : SubmitChangeRequest) : Prop :=
  sc_old_display_name c <> js_null /\ sc_new_display_name c <> js_null
  /\ sc_old_avatar c <> js_null /\ sc_new_avatar c <> js_null.

(** No stored row is a duplicate of the candidate. *)
Definition no_duplicate (c : SubmitChangeRequest) (d : Db) : Prop :=
  forall r, In r (profile_changes d) -> same_change c r = false.


(** The columns on which two change records are compared. *)
Definition change_key (r : ProfileChangeRow)
  : string * option string * option string * option string * option string
    * option string * option string :=
  (pc_did r, pc_old_display_name r, pc_new_display_name r, pc_old_avatar r,
   pc_new_avatar r, pc_old_handle r, pc_new_handle r).

Definition request_key (c : SubmitChangeRequest)
  : string * option string * option string * option string * option string
    * option string * option string :=
  (sc_did c, nullish (sc_old_display_name c), nullish (sc_new_display_name c),
   nullish (sc_old_avatar c), nullish (sc_new_avatar c),
   nullish (sc_old_handle c), nullish (sc_new_handle c)).

(** Well-formed change table: the ids come from the sequence (they are
    distinct and below its next value), and no two rows carry the same
    compared columns. *)
Definition db_wf (d : Db) : Prop :=
  (forall r, In r (profile_changes d) -> pc_id r < profile_changes_seq d)
  /\ NoDup (map pc_id (profile_changes d))
  /\ NoDup (map change_key (profile_changes d)).

(** The DID is not on the ignore list. *)
Definition not_ignored (did : string) (d : Db) : Prop :=
  forall u, In u (ignored_users d) -> iu_did u <> did.

(** The DID is on the ignore list. *)
Definition ignored (did : string) (d : Db) : Prop :=
  exists u, In u (ignored_users d) /\ iu_did u = did.

(** ** Handle lookups *)

(** The directory has no handle for the answer: it answers without a handle
    (or with an empty one), or the request throws. *)
Definition no_handle (response : Lookup) : Prop :=
  match response with
  | answered handle => truthy handle = false
  | lookup_throws => True
  end.

(** The handle of the DID cannot be resolved: the cache of the resolver
    holds no handle for it and the directory has none. *)
Definition unresolvable (did : string) (w : World) : Prop :=
  (forall handle, In (did, handle) (handleCache w) -> truthy handle = false)
  /\ no_handle (net_resolveHandle w did).

(** The effects are warnings. *)
Definition warnings_only (effects : list Effect) : Prop :=
  forall e, In e effects -> exists msg, e = console_warn msg.


(** ** Frame conditions

    [preserves R m]: whatever [m] does, and whether it returns or throws, the
    world it leaves is related by [R] to the world it started from. *)

Definition preserves {A} (R : World -> World -> Prop) (m : M A) : Prop :=
  forall w, R w (m w).2.

(** The relations that frame reasoning uses: preorders that the environment
    oracles, the trace, the resolver's cache and a rollback do not disturb. *)
Class Frame (R : World -> World -> Prop) : Prop := {
  frame_refl : forall w, R w w;
  frame_trans : forall w1 w2 w3, R w1 w2 -> R w2 w3 -> R w1 w3;
  frame_faults : forall w fs, R w (set_faults fs w);
  frame_clock : forall w c, R w (set_clock c w);
  frame_trace : forall w t, R w (set_trace t w);
  frame_cache : forall w c, R w (set_handleCache c w);
  frame_rollback : forall w w', R w w' -> R w (set_db (db w) w');
}.

(** The ignore list shields the change table: no stored change belongs to an
    ignored DID. *)
Definition ignore_invariant (d : Db) : Prop :=
  forall u r, In u (ignored_users d) -> In r (profile_changes d) ->
              pc_did r <> iu_did u.

Definition keeps_ignore_invariant (w w' : World) : Prop :=
  ignore_invariant (db w) -> ignore_invariant (db w').


(** ** The system as a transition system

    The entry points through which the world changes: the persistence calls
    of the HTTP routes, the public methods of the main service, the callbacks
    of its socket and timer, the public methods of the temporary manager, the
    callbacks of the temporary sockets and timers, and the environment
    (oracles and time). *)

Definition set_environment (fs : list bool) (now : Z)
    (resolve audit : string -> Lookup)
    (follows : string -> list (string * string)) (draw : nat) (w : World) : World :=
  {| db := db w; faults := fs; clock := now; trace := trace w;
     net_resolveHandle := resolve; net_auditLog := audit;
     net_follows := follows; hosts := hosts w; random_index := draw;
     maxConcurrentTempStreams := maxConcurrentTempStreams w;
     main := main w; heap := heap w; mgr := mgr w;
     handleCache := handleCache w |}.

Inductive Action :=
| ApiInsertChange (change : SubmitChangeRequest)
| AdminAddIgnoredUser (did : string)
| AdminRemoveIgnoredUser (did : string)
| MainStart (cursor : option Z)
| MainStop
| MainReloadDIDsNow
| MainTimer
| MainOpen
| MainMessage (frame : option JetstreamEvent)
| MainClose
| TempStartForUser (userDID : string) (follows : list string)
| TempStopForUser (userDID : string)
| TempTimer (obj : nat)
| TempOpen (obj : nat)
| TempMessage (obj : nat) (frame : option JetstreamEvent)
| TempClose (obj : nat)
| Environment (fs : list bool) (now : Z)
    (resolve audit : string -> Lookup)
    (follows : string -> list (string * string)) (draw : nat).

Definition run (a : Action) : M unit :=
  match a with
  | ApiInsertChange change => insertChange change None ;; ret tt
  | AdminAddIgnoredUser did => addIgnoredUser did ;; ret tt
  | AdminRemoveIgnoredUser did => removeIgnoredUser did
  | MainStart cursor => start cursor
  | MainStop => stop
  | MainReloadDIDsNow => reloadDIDsNow "manual"
  | MainTimer => connect
  | MainOpen => on_open
  | MainMessage frame => on_message frame
  | MainClose => on_close
  | TempStartForUser userDID follows => Temp.startForUser userDID follows ;; ret tt
  | TempStopForUser userDID => Temp.stopForUser userDID
  | TempTimer obj => Temp.connect obj
  | TempOpen obj => Temp.on_open obj
  | TempMessage obj frame => Temp.on_message obj frame
  | TempClose obj => Temp.on_close obj
  | Environment fs now resolve audit follows draw =>
      modify (set_environment fs now resolve audit follows draw)
  end.

(** The world after an action, whether it returned or threw. *)
Definition exec (w : World) (a : Action) : World := (run a w).2.

(** The world after a sequence of actions, each run to its end before the
    next one starts (a serial schedule). *)
Definition exec_all (w : World) (actions : list Action) : World :=
  fold_left exec actions w.


(** ** Example worlds *)

(** A resolver that knows two accounts. *)
Definition example_resolver (did : string) : Lookup :=
  if bool_decide (did = "did:plc:alice") then answered (Some "alice.example")
  else if bool_decide (did = "did:plc:user") then answered (Some "user.example")
  else answered None.

(** A freshly booted process with an empty database, at a time when the
    clock shows 1 700 000 000 000 ms. *)
Definition world0 : World :=
  {| db := empty_db; faults := []; clock := 1700000000000; trace := [];
     net_resolveHandle := example_resolver; net_auditLog := fun _ => answered None;
     net_follows := fun _ => []; hosts := ["jetstream.example"];
     random_index := 0; maxConcurrentTempStreams := 50;
     main := new_JetstreamService; heap := ∅;
     mgr := {| activeStreams := ∅; queue := [] |}; handleCache := [] |}.

(** A handle change of alice. *)
Definition example_change : SubmitChangeRequest :=
  {| sc_did := "did:plc:alice"; sc_handle := js_string "new.alice.example";
     sc_old_handle := js_string "old.alice.example";
     sc_new_handle := js_string "new.alice.example";
     sc_old_display_name := js_undefined; sc_new_display_name := js_undefined;
     sc_old_avatar := js_undefined; sc_new_avatar := js_undefined |}.

(** The body [{ did, handle, old_handle, new_handle, old_display_name: null }]
    of a [POST /api/changes]: a handle change of alice with one profile field
    set to [null]. *)
Definition null_field_change : SubmitChangeRequest :=
  {| sc_did := "did:plc:alice"; sc_handle := js_string "new.alice.example";
     sc_old_handle := js_string "old.alice.example";
     sc_new_handle := js_string "new.alice.example";
     sc_old_display_name := js_null; sc_new_display_name := js_undefined;
     sc_old_avatar := js_undefined; sc_new_avatar := js_undefined |}.

(** The row that the first insert of [example_change] stores in [world0]. *)
Definition example_row : ProfileChangeRow :=
  new_change_row 1 example_change CT_handle 1700000000000.


(** The main stream connected for alice, one minute after it started, with a
    cursor. *)
Definition world_connected : World :=
  set_main
    {| ws := Some {| ws_host := "jetstream.example"; ws_cursor := None |};
       profileData := ∅; reconnectAttempts := 0; shouldRun := true;
       reconnectTimeout := None; currentDIDs := ["did:plc:user"; "did:plc:alice"];
       lastCursor := Some 1699999999000000; startTime := Some 1699999940000;
       isInActualBackfill := false; actualBackfillLagSeconds := None;
       lastHost := Some "jetstream.example"; stoppedAt := None;
       cursorAtStop := None |}
    world0.


(** The options messages that a trace shows as sent upstream, oldest first. *)
Fixpoint sent (t : list Effect) : list (StreamRef * OptionsUpdateMessage) :=
  match t with
  | [] => []
  | ws_send from msg :: t' => (from, msg) :: sent t'
  | _ :: t' => sent t'
  end.


(** A follow list of 10 001 DIDs. *)
Definition many_dids : list string :=
  map (fun n => "did:plc:follow" +:+ String (Ascii.ascii_of_nat (48 + n mod 10)) "")
    (seq 0 (Z.to_nat 10001)).


(** The cursor and the backfill flag of the main stream are untouched. *)
Definition keeps_cursor (w w' : World) : Prop :=
  lastCursor (main w') = lastCursor (main w)
  /\ isInActualBackfill (main w') = isInActualBackfill (main w)
  /\ startTime (main w') = startTime (main w).


(** The cursor of the main stream is untouched. *)
Definition keeps_lastCursor (w w' : World) : Prop :=
  lastCursor (main w') = lastCursor (main w).

(** The temporary service at [obj], if there is one, stays and keeps its
    cursor. *)
Definition keeps_temp_cursor (obj : nat) (w w' : World) : Prop :=
  forall t, heap w !! obj = Some t ->
  exists t', heap w' !! obj = Some t' /\ t_lastCursor t' = t_lastCursor t.


(** ** Cursors over a sequence of events *)

(** Order on cursors; a stream without a cursor ([null]) is below all. *)
Definition cursor_le (a b : option Z) : Prop :=
  match a, b with
  | None, _ => True
  | Some x, Some y => x <= y
  | Some _, None => False
  end.

(** Each element is at least the one before it. *)
Fixpoint nondecreasing (cs : list (option Z)) : Prop :=
  match cs with
  | a :: (b :: _) as rest => cursor_le a b /\ nondecreasing rest
  | _ => True
  end.

(** The times [ts] arrive in ascending order, none below the cursor [lo]. *)
Fixpoint ascending (lo : option Z) (ts : list Z) : Prop :=
  match ts with
  | [] => True
  | t :: ts' => cursor_le lo (Some t) /\ ascending (Some t) ts'
  end.

(** The cursor of the main stream after each of the events, processed one
    after the other. *)
Fixpoint main_cursors (w : World) (events : list JetstreamEvent)
  : list (option Z) :=
  match events with
  | [] => []
  | e :: es =>
      let w' := (processEvent e w).2 in
      lastCursor (main w') :: main_cursors w' es
  end.

(** The cursor of the temporary stream at [obj] after each of the events. *)
Fixpoint temp_cursors (obj : nat) (w : World) (events : list JetstreamEvent)
  : list (option Z) :=
  match events with
  | [] => []
  | e :: es =>
      let w' := (Temp.processEvent obj e w).2 in
      (heap w' !! obj ≫= t_lastCursor) :: temp_cursors obj w' es
  end.

(** An event of a kind that no handler takes. *)
Definition other_event (time_us : Z) : JetstreamEvent :=
  {| ev_kind := "account"; ev_did := "did:plc:alice"; ev_time_us := time_us;
     ev_commit := None; ev_identity := None |}.

(** An identity event: alice takes a new handle. *)
Definition identity_event (time_us : Z) : JetstreamEvent :=
  {| ev_kind := "identity"; ev_did := "did:plc:alice"; ev_time_us := time_us;
     ev_commit := None;
     ev_identity := Some {| i_did := "did:plc:alice";
                            i_handle := Some "new.alice.example" |} |}.

(** A temporary stream for the example user, opened, and then a database
    that fails three statements in a row. *)
Definition world_temp : World :=
  exec_all world0
    [TempStartForUser "did:plc:user" ["did:plc:alice"];
     TempOpen 0%nat;
     Environment [true; true; true] 1700000001000 example_resolver
       (fun _ => answered None) (fun _ => []) 0%nat].


(** ** The pool of temporary streams *)

(** The number of active temporary streams. *)
Definition active_count (w : World) : Z :=
  Z.of_nat (size (activeStreams (mgr w))).

(** The pool holds at most the configured number of streams. *)
Definition within_capacity (w : World) : Prop :=
  active_count w <= maxConcurrentTempStreams w.

(** A request waits only while the pool is full. *)
Definition queue_only_when_full (w : World) : Prop :=
  queue (mgr w) <> [] -> active_count w = maxConcurrentTempStreams w.

(** The DID of the [n]-th example user, for [n] below 100. *)
Definition user_did (n : nat) : string :=
  "did:plc:user"
  +:+ String (Ascii.ascii_of_nat (48 + n / 10))
        (String (Ascii.ascii_of_nat (48 + n mod 10)) "").

(** One DID is ignored; fifty users fill the pool, each with a stream for
    alice; a request whose only follow is the ignored DID and a request for
    alice then have to wait. *)
Definition pool_full_two_waiting : list Action :=
  (AdminAddIgnoredUser "did:plc:ignored"
   :: map (fun n => TempStartForUser (user_did n) ["did:plc:alice"]) (seq 0 50)
   ++ [TempStartForUser (user_did 50) ["did:plc:ignored"];
       TempStartForUser (user_did 51) ["did:plc:alice"]])%list.


(** The pool size is configured once. The pool does not grow, it grows by at
    most one stream, it stays within its capacity. *)
Definition pool_shrinks (w w' : World) : Prop :=
  maxConcurrentTempStreams w' = maxConcurrentTempStreams w
  /\ active_count w' <= active_count w.

Definition pool_grows_by_one (w w' : World) : Prop :=
  maxConcurrentTempStreams w' = maxConcurrentTempStreams w
  /\ active_count w' <= active_count w + 1.

Definition keeps_within_capacity (w w' : World) : Prop :=
  maxConcurrentTempStreams w' = maxConcurrentTempStreams w
  /\ (within_capacity w -> within_capacity w').


(** The connected main stream, with the example user monitoring alice. *)
Definition world_monitoring : World :=
  set_db
    (set_monitored_follows
       [ {| mf_user_did := "did:plc:user"; mf_follow_did := "did:plc:alice";
            mf_follow_handle := Some "alice.example"; mf_rkey := Some "k0";
            mf_added_at := 1699999000000 |} ]
       empty_db)
    world_connected.

(** The example user follows an account whose handle does not resolve. *)
Definition follow_stranger_commit : Commit :=
  {| c_operation := "create"; c_collection := "app.bsky.graph.follow";
     c_rkey := Some "k1";
     c_record := Some {| cr_displayName := None; cr_avatar_link := None;
                         cr_subject := Some "did:plc:stranger" |} |}.

Definition follow_stranger_event : JetstreamEvent :=
  {| ev_kind := "commit"; ev_did := "did:plc:user";
     ev_time_us := 1700000000000000;
     ev_commit := Some follow_stranger_commit; ev_identity := None |}.


(** The change table stays well formed. *)
Definition keeps_db_wf (w w' : World) : Prop :=
  db_wf (db w) -> db_wf (db w').


(** ** Listings of the change table (db.ts) *)

(** [ORDER BY changed_at DESC]; rows of equal timestamp stay in table
    order. *)
Fixpoint insert_by_changed_at (r : ProfileChangeRow) (rows : list ProfileChangeRow)
  : list ProfileChangeRow :=
  match rows with
  | [] => [r]
  | r' :: rs =>
      if pc_changed_at r' <=? pc_changed_at r then r :: r' :: rs
      else r' :: insert_by_changed_at r rs
  end.

Definition order_by_changed_at_desc (rows : list ProfileChangeRow)
  : list ProfileChangeRow :=
  fold_right insert_by_changed_at [] rows.

(** [NOT EXISTS (SELECT 1 FROM ignored_users iu WHERE iu.did = pc.did)] *)
Definition not_in_ignored_users (d : Db) (pc : ProfileChangeRow) : bool :=
  negb (existsb (fun iu => bool_decide (iu_did iu = pc_did pc)) (ignored_users d)).

(** [getAllChanges] *)
Definition getAllChanges : M (list ProfileChangeRow) :=
  pool_query (fun d =>
    (order_by_changed_at_desc
       (List.filter (not_in_ignored_users d) (profile_changes d)), d)).

(** [getChangesByDIDs]: [pc.did = ANY($1)] and the ignore filter. *)
Definition getChangesByDIDs (dids : list string) : M (list ProfileChangeRow) :=
  pool_query (fun d =>
    (order_by_changed_at_desc
       (List.filter (fun pc =>
          bool_decide (pc_did pc ∈ dids) && not_in_ignored_users d pc)
          (profile_changes d)), d)).

(** [getChangeHistory]: every row of the DID; the ignore list is not
    consulted. *)
Definition getChangeHistory (did : string) : M (list ProfileChangeRow) :=
  pool_query (fun d =>
    (order_by_changed_at_desc
       (List.filter (fun pc => bool_decide (pc_did pc = did)) (profile_changes d)),
     d)).

(** [getChangesForUser]: the join of the change table with the follows of
    the user, one row for each pair that matches. *)
Definition getChangesForUser (userDID : string) : M (list ProfileChangeRow) :=
  pool_query (fun d =>
    (order_by_changed_at_desc
       (List.filter (not_in_ignored_users d)
          (flat_map (fun pc =>
             map (fun _ => pc)
               (List.filter (fun mf =>
                  bool_decide (pc_did pc = mf_follow_did mf)
                  && bool_decide (mf_user_did mf = userDID))
                  (monitored_follows d)))
             (profile_changes d))), d)).

(** [removeMonitoredFollows] *)
Definition removeMonitoredFollows (userDID : string) : M unit :=
  pool_query (fun d =>
    (tt, set_monitored_follows
           (List.filter (fun r => negb (bool_decide (mf_user_did r = userDID)))
              (monitored_follows d)) d)).

(** [getBackfillState]: [result.rows[0] ?? null]. *)
Definition getBackfillState (userDID : string) : M (option BackfillStateRow) :=
  result <- pool_query (fun d =>
    (List.filter (fun r => bool_decide (bs_user_did r = userDID))
       (monitoring_backfill_state d), d)) ;;
  ret (head result).

(** ** Vocabulary for the tables *)

(** The rows are listed newest first. *)
Fixpoint newest_first (rows : list ProfileChangeRow) : Prop :=
  match rows with
  | [] => True
  | r :: rs =>
      (forall r', In r' rs -> pc_changed_at r' <= pc_changed_at r)
      /\ newest_first rs
  end.

(** The row that [monitored_follows] holds for a user and a followed DID. *)
Definition find_follow (d : Db) (userDID followDID : string)
  : option MonitoredFollowRow :=
  head (List.filter (fun r =>
          bool_decide (mf_user_did r = userDID)
          && bool_decide (mf_follow_did r = followDID))
          (monitored_follows d)).

(** The row that an upsert writes for [follow], on top of the row [old] that
    was stored for the pair. *)
Definition upserted_row (userDID : string) (follow : Follow) (now : Z)
    (old : option MonitoredFollowRow) : MonitoredFollowRow :=
  {| mf_user_did := userDID; mf_follow_did := f_did follow;
     mf_follow_handle := Some (f_handle follow);
     mf_rkey := match or_undefined (f_rkey follow) with
                | Some k => Some k
                | None => old ≫= mf_rkey
                end;
     mf_added_at := match old with
                    | Some r => mf_added_at r
                    | None => now
                    end |}.

(** The first row of [rows] for a user and a followed DID. *)
Definition find_in (rows : list MonitoredFollowRow) (u did : string)
  : option MonitoredFollowRow :=
  head (List.filter (fun r =>
          bool_decide (mf_user_did r = u) && bool_decide (mf_follow_did r = did))
          rows).

(** The attempt counter of the main stream stays at zero. *)
Definition keeps_no_backoff (w w' : World) : Prop :=
  reconnectAttempts (main w) = 0 -> reconnectAttempts (main w') = 0.

(** A user with monitoring enabled, and a DID that some user follows. *)
Definition monitoring_user (d : Db) (did : string) : Prop :=
  exists mf, In mf (monitored_follows d) /\ mf_user_did mf = did.

Definition followed_did (d : Db) (did : string) : Prop :=
  exists mf, In mf (monitored_follows d) /\ mf_follow_did mf = did.


(** ** Start cursor and uptime (jetstream-service.ts) *)

(** Truthiness of a [number | null]. *)
Definition truthy_number (o : option Z) : bool :=
  match o with
  | Some n => negb (bool_decide (n = 0))
  | None => false
  end.

(** The number that a setting holds. The two settings of the service are
    written by [stop] alone, the cursor as a number and the stop time as the
    instant of its ISO string; as TypeScript types them, anything else reads
    as no value. *)
Definition number_setting (s : option Setting) : option Z :=
  match s with
  | Some (SettingNum n) => Some n
  | _ => None
  end.

(** [getRecommendedStartCursor] *)
Definition getRecommendedStartCursor : M Z :=
  cursor <- gets (fun w => cursorAtStop (main w)) ;;
  stopped <- gets (fun w => stoppedAt (main w)) ;;
  loaded <-
    (if negb (truthy_number cursor) || negb (bool_decide (is_Some stopped)) then
       storedCursor <- loadSetting "jetstream_stop_cursor" ;;
       let cursor := number_setting storedCursor in
       stopTimeStr <- loadSetting "jetstream_stop_time" ;;
       let stopped :=
         match number_setting stopTimeStr with
         | Some t => Some t
         | None => stopped
         end in
       when (truthy_number cursor && bool_decide (is_Some stopped)) (
         update_main (set_cursorAtStop cursor) ;;
         update_main (set_stoppedAt stopped)) ;;
       ret (cursor, stopped)
     else ret (cursor, stopped)) ;;
  now <- Date_now ;;
  match loaded with
  | (Some c, Some t) =>
      if negb (bool_decide (c = 0)) && (now - t <? 24 * 60 * 60 * 1000)
      then ret c
      else ret (now * 1000)
  | _ => ret (now * 1000)
  end.

(** Result of [getUptimeInfo]; [up_startTime] is the instant that
    [toISOString] renders. *)
Record UptimeInfo := {
  up_startTime : Z;
  uptimeSeconds : Z;
  uptimeMinutes : Z;
  uptimeHours : Z;
  uptimeDays : Z;
}.

(** [getUptimeInfo]; [Math.floor] of a quotient is [Z.div]. *)
Definition getUptimeInfo : M (option UptimeInfo) :=
  s <- gets main ;;
  match startTime s with
  | None => ret None
  | Some started =>
      if negb (shouldRun s) then ret None
      else
        now <- Date_now ;;
        let uptimeMs := now - started in
        let uptimeSeconds := uptimeMs / 1000 in
        let uptimeMinutes := uptimeSeconds / 60 in
        let uptimeHours := uptimeMinutes / 60 in
        let uptimeDays := uptimeHours / 24 in
        ret (Some {| up_startTime := started; uptimeSeconds := uptimeSeconds;
                     uptimeMinutes := uptimeMinutes; uptimeHours := uptimeHours;
                     uptimeDays := uptimeDays |})
  end.

(** The DID list that [reloadDIDs] computes from the database. *)
Definition reload_users (d : Db) : list string :=
  List.filter (fun did =>
    negb (bool_decide (did ∈ map iu_did (fold_right insert_ignored [] (ignored_users d)))))
    (remove_dups (map mf_user_did (monitored_follows d))).

Definition reload_dids (d : Db) : list string :=
  (reload_users d ++
   List.filter (fun did => negb (bool_decide (did ∈ reload_users d)))
     (List.filter (fun did =>
        negb (bool_decide (did ∈ map iu_did (fold_right insert_ignored []
                                               (ignored_users d)))))
        (remove_dups (map mf_follow_did (monitored_follows d)))))%list.

(** The value stored under a key of the settings. *)
Definition stored_setting (d : Db) (key : string) : option Setting :=
  snd <$> head (List.filter (fun kv => bool_decide (kv.1 = key)) (system_settings d)).

(** The temporary service at [obj], if there is one, is left as it is. *)
Definition keeps_object (obj : nat) (w w' : World) : Prop :=
  forall t, heap w !! obj = Some t -> heap w' !! obj = Some t.

(** A temporary service that was stopped. *)
Definition stopped_service (t : TemporaryJetstreamService) : Prop :=
  t_shouldRun t = false /\ t_reconnectTimeout t = None
  /\ t_reconnectAttempts t = 0 /\ t_ws t = None /\ t_hasStopped t = true.

(** The change table and the follow table are left as they are. *)
Definition keeps_changes_and_follows (w w' : World) : Prop :=
  profile_changes (db w') = profile_changes (db w)
  /\ monitored_follows (db w') = monitored_follows (db w).

(** The world after [k] closes of the socket of a temporary stream, one
    after the other, with nothing else happening in between. *)
Fixpoint temp_closes (obj : nat) (k : nat) (w : World) : World :=
  match k with
  | O => w
  | S k' => (Temp.on_close obj (temp_closes obj k' w)).2
  end.

(** The temporary service at [obj], if there is one, stays and keeps its
    follow list. *)
Definition keeps_follows (obj : nat) (w w' : World) : Prop :=
  forall t, heap w !! obj = Some t ->
  exists t', heap w' !! obj = Some t' /\ t_follows t' = t_follows t.

(** No temporary service is created. *)
Definition keeps_domain (w w' : World) : Prop :=
  forall obj, heap w !! obj = None -> heap w' !! obj = None.

(** ** HTTP routes (routes/changes.ts, routes/admin.ts) *)

(** What a route answers: [res.json({ success: true, data })], with status
    200, or [res.status(status).json({ success: false, error })]. *)
Inductive APIResponse (A : Type) :=
| Success (data : A)
| Failure (status : Z) (error : string).
Arguments Success {A} data.
Arguments Failure {A} status error.

(** [POST /api/changes]: the body is the candidate; a missing [did] is the
    empty string. *)
Definition post_changes (change : SubmitChangeRequest)
  : M (APIResponse ProfileChangeRow) :=
  try_catch (
    if bool_decide (sc_did change = "") then
      ret (Failure 400 "DID is required")
    else
      let hasHandleChange :=
        truthy (sc_old_handle change) || truthy (sc_new_handle change) in
      let hasDisplayNameChange :=
        truthy (sc_old_display_name change) || truthy (sc_new_display_name change) in
      let hasAvatarChange :=
        truthy (sc_old_avatar change) || truthy (sc_new_avatar change) in
      if negb hasHandleChange && negb hasDisplayNameChange && negb hasAvatarChange
      then
        ret (Failure 400
               "At least one change field must be provided (handle, display_name, or avatar)")
      else
        result <- insertChange change None ;;
        match result with
        | None => ret (Failure 403 "DID is on the ignored list")
        | Some row => ret (Success row)
        end)
  (fun error =>
     emit (console_error "Error submitting change") ;;
     ret (Failure 500 "Failed to submit change")).

(** [requireAdmin] (middleware/auth.ts): the request passes when its
    [x-user-did] header is the configured admin DID. *)
Definition requireAdmin (ADMIN_DID : string) (userDID : option string) : bool :=
  bool_decide (userDID = Some ADMIN_DID).

(** [requireAuth] (middleware/auth.ts) *)
Definition requireAuth (userDID : option string) : bool :=
  truthy userDID && String.prefix "did:" (or_empty userDID).

(** A value that [JSON.parse] of a request body gives to a field, or
    [undefined] for a field that the body leaves out; [jv_object] stands for
    objects and arrays. *)
Inductive JsValue :=
| jv_undefined
| jv_null
| jv_bool (b : bool)
| jv_number (n : Q)
| jv_string (s : string)
| jv_object.

(** Truthiness of a value. *)
Definition js_truthy (v : JsValue) : bool :=
  match v with
  | jv_undefined | jv_null => false
  | jv_bool b => b
  | jv_number n => negb (Qeq_bool n 0)
  | jv_string s => negb (bool_decide (s = ""))
  | jv_object => true
  end.

(** [v.startsWith(prefix)] on a value that is not nullish: a string has the
    method; on anything else the call is a [TypeError]. *)
Definition js_startsWith (v : JsValue) (prefix : string) : M bool :=
  match v with
  | jv_string s => ret (String.prefix prefix s)
  | _ => throw (JsError "TypeError: did.startsWith is not a function")
  end.

(** The string that a value is, once [startsWith] has answered for it. *)
Definition js_string_of (v : JsValue) : string :=
  match v with
  | jv_string s => s
  | _ => ""
  end.

(** [POST /api/admin/ignored-users], behind [requireAdmin]; [did] is
    [req.body.did], and the answer carries the DID and the number of deleted
    changes. *)
Definition post_admin_ignored_users (ADMIN_DID : string) (userDID : option string)
    (did : JsValue) : M (APIResponse (string * Z)) :=
  if negb (requireAdmin ADMIN_DID userDID) then
    ret (Failure 403 "Unauthorized: Admin access required")
  else
    try_catch (
      (* [!did || !did.startsWith("did:plc:")] *)
      invalid <- (if negb (js_truthy did) then ret true
                  else
                    starts <- js_startsWith did "did:plc:" ;;
                    ret (negb starts)) ;;
      if invalid then
        ret (Failure 400 "Invalid DID format (must be did:plc:xxxxx)")
      else
        let did := js_string_of did in
        result <- addIgnoredUser did ;;
        userHandle <- resolveHandle did ;;
        reloadDIDsNow "manual" ;;
        ret (Success result))
    (fun error =>
       emit (console_error "Error adding ignored user") ;;
       ret (Failure 500 "Failed to add ignored user")).

(** [DELETE /api/admin/ignored-users/:did], behind [requireAdmin]. *)
Definition delete_admin_ignored_users (ADMIN_DID : string) (userDID : option string)
    (did : string) : M (APIResponse unit) :=
  if negb (requireAdmin ADMIN_DID userDID) then
    ret (Failure 403 "Unauthorized: Admin access required")
  else
    try_catch (
      removeIgnoredUser did ;;
      userHandle <- resolveHandle did ;;
      reloadDIDsNow "manual" ;;
      ret (Success tt))
    (fun error =>
       emit (console_error "Error removing ignored user") ;;
       ret (Failure 500 "Failed to remove ignored user")).

(** The snapshot that a stream holds for a DID ([profileData.get(did)]). *)
Definition cached_profile (owner : StreamRef) (did : string) (w : World)
  : option ProfileData :=
  match owner with
  | MainStream => profileData (main w) !! did
  | TempStream obj => heap w !! obj ≫= fun t => t_profileData t !! did
  end.

(** The database and the snapshots of the main stream are left as they
    are. *)
Definition keeps_db_and_snapshots (w w' : World) : Prop :=
  db w' = db w /\ profileData (main w') = profileData (main w).

(** Whether the table holds a row that matches the candidate in the
    duplicate check. *)
Definition stored (change : SubmitChangeRequest) (d : Db) : bool :=
  existsb (same_change change) (profile_changes d).

(** A profile commit of alice with the given display name and no avatar. *)
Definition profile_record (displayName : string) : CommitRecord :=
  {| cr_displayName := Some displayName; cr_avatar_link := None;
     cr_subject := None |}.

Definition profile_commit (displayName : string) : Commit :=
  {| c_operation := "update"; c_collection := "app.bsky.actor.profile";
     c_rkey := Some "self"; c_record := Some (profile_record displayName) |}.

Definition profile_event (displayName : string) : JetstreamEvent :=
  {| ev_kind := "commit"; ev_did := "did:plc:alice";
     ev_time_us := 1700000000000000;
     ev_commit := Some (profile_commit displayName); ev_identity := None |}.


(** * Properties *)

(** ** Running computations *)

Lemma bind_Ok_inv {A B} (m : M A) (k : A -> M B) w b w' :
  bind m k w = (Ok b, w') ->
  exists a w1, m w = (Ok a, w1) /\ k a w1 = (Ok b, w').
Proof.
  unfold bind. destruct (m w) as [[a|e] w1]; intros H; [eauto | discriminate].
Qed.

Lemma bind_Ok {A B} (m : M A) (k : A -> M B) w a w1 :
  m w = (Ok a, w1) -> bind m k w = k a w1.
Proof. unfold bind. intros ->. reflexivity. Qed.

Lemma bind_Throw {A B} (m : M A) (k : A -> M B) w e w1 :
  m w = (Throw e, w1) -> bind m k w = (Throw e, w1).
Proof. unfold bind. intros ->. reflexivity. Qed.

Lemma bind_gets {A B} (f : World -> A) (k : A -> M B) w :
  bind (gets f) k w = k (f w) w.
Proof. reflexivity. Qed.

Lemma bind_ret {A B} (a : A) (k : A -> M B) w : bind (ret a) k w = k a w.
Proof. reflexivity. Qed.

Lemma bind_modify {B} (f : World -> World) (k : unit -> M B) w :
  bind (modify f) k w = k tt (f w).
Proof. reflexivity. Qed.

Lemma bind_assoc {A B C} (m : M A) (f : A -> M B) (g : B -> M C) w :
  bind (bind m f) g w = bind m (fun a => bind (f a) g) w.
Proof. unfold bind. destruct (m w) as [[a|e] w1]; reflexivity. Qed.

Lemma set_faults_id w : set_faults (faults w) w = w.
Proof. destruct w; reflexivity. Qed.

(** A statement that the oracle lets through returns what it computes. *)
Lemma pool_query_Ok {A} (stmt : Db -> A * Db) w :
  faults w = [] ->
  pool_query stmt w = (Ok (stmt (db w)).1, set_db (stmt (db w)).2 w).
Proof.
  intros Hf. unfold pool_query. rewrite Hf. simpl.
  destruct (stmt (db w)) as [a d]. simpl.
  rewrite <- Hf, set_faults_id. reflexivity.
Qed.

(** A statement that returns has run on the database it was given. *)
Lemma pool_query_Ok_inv {A} (stmt : Db -> A * Db) w a w' :
  pool_query stmt w = (Ok a, w') ->
  a = (stmt (db w)).1 /\ w' = set_db (stmt (db w)).2 (set_faults (tail (faults w)) w).
Proof.
  unfold pool_query. destruct (stmt (db w)) as [a0 d].
  destruct (faults w) as [|[] fs]; simpl; intros H; inversion H; auto.
Qed.

(** ** Change type (db.ts, getChangeType) *)

Lemma truthy_spec o : truthy o = true <-> exists s, o = Some s /\ s <> "".
Proof.
  destruct o as [s|]; simpl.
  - rewrite negb_true_iff, bool_decide_eq_false. split.
    + intros H. exists s. auto.
    + intros (s' & [= <-] & H). exact H.
  - split; [discriminate | intros (s & [=] & _)].
Qed.

Lemma truthy_field_spec (x : JsString) :
  truthy x = true <-> exists s, x = js_string s /\ s <> "".
Proof.
  rewrite truthy_spec. destruct x as [| |s]; simpl; split.
  - intros (s & [=] & _).
  - intros (s & [=] & _).
  - intros (s & [=] & _).
  - intros (s & [=] & _).
  - intros (s' & [= <-] & H). eauto.
  - intros (s' & [= <-] & H). eauto.
Qed.

Lemma hasHandleChange_spec c :
  truthy (sc_old_handle c) && truthy (sc_new_handle c) = true <-> handle_transition c.
Proof.
  rewrite andb_true_iff, !truthy_field_spec. unfold handle_transition. split.
  - intros [(o & Ho & Hne) (n & Hn & Hnn)]. exists o, n. auto.
  - intros (o & n & Ho & Hn & Hne & Hnn). split; eauto.
Qed.

Lemma is_defined_spec (x : JsString) : is_defined x = true <-> x <> js_undefined.
Proof. destruct x; simpl; split; congruence. Qed.

Lemma hasProfileChange_spec c :
  is_defined (sc_old_display_name c) || is_defined (sc_new_display_name c)
  || is_defined (sc_old_avatar c) || is_defined (sc_new_avatar c) = true
  <-> profile_field_defined c.
Proof.
  rewrite !orb_true_iff, !is_defined_spec. unfold profile_field_defined. tauto.
Qed.

(** The classification computed by [getChangeType]. *)
Lemma getChangeType_spec c :
  (handle_transition c /\ profile_field_defined c -> getChangeType c = CT_combined)
  /\ (handle_transition c /\ ~ profile_field_defined c -> getChangeType c = CT_handle)
  /\ (~ handle_transition c -> getChangeType c = CT_profile).
Proof.
  unfold getChangeType.
  pose proof (hasHandleChange_spec c) as Hh.
  pose proof (hasProfileChange_spec c) as Hp.
  destruct (truthy (sc_old_handle c) && truthy (sc_new_handle c));
    destruct (is_defined (sc_old_display_name c)
              || is_defined (sc_new_display_name c)
              || is_defined (sc_old_avatar c) || is_defined (sc_new_avatar c));
    simpl; repeat split; intros; try reflexivity; exfalso; intuition congruence.
Qed.

(** A field that is not an explicit [null] is defined exactly when it holds
    a value. *)
Lemma defined_is_present (x : JsString) :
  x <> js_null -> (x <> js_undefined <-> is_Some (nullish x)).
Proof.
  destruct x as [| |s]; simpl; intros Hn; split; intros H;
    try congruence; try (destruct H as [y [=]]); eauto.
Qed.

Lemma profile_field_defined_without_null c :
  no_null_field c -> (profile_field_defined c <-> profile_transition c).
Proof.
  intros (H1 & H2 & H3 & H4). unfold profile_field_defined, profile_transition.
  rewrite (defined_is_present _ H1), (defined_is_present _ H2),
    (defined_is_present _ H3), (defined_is_present _ H4). tauto.
Qed.

(** When no stored row duplicates the candidate, the duplicate check finds
    nothing. *)
Lemma select_limit_1_none {A} (p : A -> bool) rows :
  (forall r, In r rows -> p r = false) -> select_limit_1 p rows = [].
Proof.
  intros H. unfold select_limit_1.
  destruct (List.filter p rows) as [|r rs] eqn:E; [reflexivity|].
  assert (Hin : In r (List.filter p rows)) by (rewrite E; left; reflexivity).
  apply filter_In in Hin as [Hin Hp]. rewrite (H r Hin) in Hp. discriminate.
Qed.

(** What a call of [insertChange] that stores a new row returns. *)
Lemma insertChange_inserted c lp w row w' :
  no_duplicate c (db w) ->
  insertChange c lp w = (Ok (Some row), w') ->
  row = new_change_row (profile_changes_seq (db w)) c (getChangeType c)
          (clock w)
  /\ profile_changes (db w') = (profile_changes (db w) ++ [row])%list.
Proof.
  intros Hnd H. unfold insertChange in H.
  apply bind_Ok_inv in H as (ign & w1 & Hq1 & H).
  apply pool_query_Ok_inv in Hq1 as [-> ->]. simpl in H.
  destruct (0 <? _); [inversion H|].
  apply bind_Ok_inv in H as (dup & w2 & Hq2 & H).
  apply pool_query_Ok_inv in Hq2 as [-> ->]. simpl in H.
  rewrite (select_limit_1_none _ _ Hnd) in H.
  apply bind_Ok_inv in H as (now & w3 & Hn & H).
  inversion Hn; subst now w3; clear Hn.
  apply bind_Ok_inv in H as (res & w4 & Hq3 & H).
  apply pool_query_Ok_inv in Hq3 as [-> ->]. simpl in H.
  inversion H; subst. simpl. auto.
Qed.

(** C7. Every non-duplicate change record that [insertChange] stores gets
    change type [combined] when the candidate has a handle transition (old
    and new handle non-empty) and a profile field that is not [undefined],
    [handle] when it has the handle transition and no such field, and
    [profile] otherwise; the four profile columns of the row are the fields
    with [?? null]. For a candidate without an explicit [null], a field is
    not [undefined] exactly when the row has a value in its column, and the
    type is the one that the specification names. For a candidate with a
    handle transition and an explicit [null] in a profile field, the code
    diverges: the row is stored as [combined] although none of its profile
    columns has a value. *)
Theorem insertChange_change_type c lp w row w' :
  no_duplicate c (db w) ->
  insertChange c lp w = (Ok (Some row), w') ->
  In row (profile_changes (db w'))
  /\ (handle_transition c /\ profile_field_defined c ->
      pc_change_type row = CT_combined)
  /\ (handle_transition c /\ ~ profile_field_defined c ->
      pc_change_type row = CT_handle)
  /\ (~ handle_transition c -> pc_change_type row = CT_profile)
  /\ (pc_old_display_name row = nullish (sc_old_display_name c)
      /\ pc_new_display_name row = nullish (sc_new_display_name c)
      /\ pc_old_avatar row = nullish (sc_old_avatar c)
      /\ pc_new_avatar row = nullish (sc_new_avatar c))
  /\ (no_null_field c -> (profile_field_defined c <-> profile_transition c)).
Proof.
  intros Hnd H.
  destruct (insertChange_inserted _ _ _ _ _ Hnd H) as [Hrow Hrows].
  split.
  - rewrite Hrows. apply in_or_app. right. left. reflexivity.
  - rewrite Hrow. simpl.
    destruct (getChangeType_spec c) as (H1 & H2 & H3).
    split; [exact H1|]. split; [exact H2|]. split; [exact H3|].
    split; [auto|]. apply profile_field_defined_without_null.
Qed.

(** ** Idempotent insert (db.ts, insertChange) *)

Lemma set_db_id w : set_db (db w) w = w.
Proof. destruct w; reflexivity. Qed.

Lemma same_change_key c r :
  same_change c r = true <-> change_key r = request_key c.
Proof.
  unfold same_change, change_key, request_key.
  rewrite !andb_true_iff, !bool_decide_eq_true. split.
  - intros [[[[[[-> ->] ->] ->] ->] ->] ->]. reflexivity.
  - intros [= -> -> -> -> -> -> ->]. repeat split.
Qed.

(** In a list without two elements of the same key, the elements of a given
    key selected by a filter are the one element that has it. *)
Lemma filter_unique_key {A K} (f : A -> K) (p : A -> bool) (l : list A) (x : A) :
  NoDup (map f l) -> In x l -> (forall r, p r = true <-> f r = f x) ->
  List.filter p l = [x].
Proof.
  intros Hnd Hin Hp. induction l as [|a l IH]; [destruct Hin|].
  simpl in Hnd. apply NoDup_cons in Hnd as [Hna Hnd]. simpl.
  rewrite list_elem_of_In in Hna.
  destruct Hin as [-> | Hin].
  - assert (Hx : p x = true) by (apply Hp; reflexivity). rewrite Hx. f_equal.
    destruct (List.filter p l) as [|b bs] eqn:E; [reflexivity|]. exfalso.
    assert (Hb : In b (List.filter p l)) by (rewrite E; left; reflexivity).
    apply filter_In in Hb as [Hb Hpb]. apply Hp in Hpb.
    apply Hna. rewrite <- Hpb. apply in_map. exact Hb.
  - destruct (p a) eqn:Ea.
    + exfalso. apply Hp in Ea. apply Hna. rewrite Ea. apply in_map. exact Hin.
    + apply IH; assumption.
Qed.

Lemma filter_none {A} (p : A -> bool) (l : list A) :
  (forall r, In r l -> p r = false) -> List.filter p l = [].
Proof.
  intros H. induction l as [|a l IH]; [reflexivity|]. simpl.
  rewrite (H a (or_introl eq_refl)). apply IH. intros r Hr. apply H. right. exact Hr.
Qed.

(** A DID that is not ignored passes the ignore check. *)
Lemma ignored_check_none did d :
  not_ignored did d ->
  select_limit_1 (fun u => bool_decide (iu_did u = did)) (ignored_users d) = [].
Proof.
  intros H. apply select_limit_1_none. intros u Hu.
  apply bool_decide_eq_false. apply H. exact Hu.
Qed.

(** A candidate that is stored is returned, and the call changes nothing. *)
Lemma insertChange_duplicate c lp w row :
  db_wf (db w) -> not_ignored (sc_did c) (db w) -> faults w = [] ->
  In row (profile_changes (db w)) -> same_change c row = true ->
  insertChange c lp w = (Ok (Some row), w).
Proof.
  intros (Hid & Hnid & Hnk) Hign Hf Hin Hsame.
  assert (Hdup : List.filter (same_change c) (profile_changes (db w)) = [row]).
  { apply (filter_unique_key change_key); [assumption..|].
    intros r. rewrite same_change_key. apply same_change_key in Hsame.
    rewrite Hsame. reflexivity. }
  assert (Hbyid : List.filter (fun r => bool_decide (pc_id r = pc_id row))
                    (profile_changes (db w)) = [row]).
  { apply (filter_unique_key pc_id); [assumption..|].
    intros r. apply bool_decide_eq_true. }
  unfold insertChange.
  rewrite (bind_Ok _ _ _ _ _ (pool_query_Ok _ w Hf)). simpl.
  rewrite set_db_id, (ignored_check_none _ _ Hign). simpl.
  rewrite (bind_Ok _ _ _ _ _ (pool_query_Ok _ w Hf)). simpl.
  rewrite set_db_id. unfold select_limit_1. rewrite Hdup. simpl.
  rewrite (bind_Ok _ _ _ _ _ (pool_query_Ok _ w Hf)). simpl.
  rewrite set_db_id, Hbyid. reflexivity.
Qed.

(** A candidate that is not stored is appended with the next id. *)
Lemma insertChange_fresh c lp w :
  not_ignored (sc_did c) (db w) -> faults w = [] -> no_duplicate c (db w) ->
  let row := new_change_row (profile_changes_seq (db w)) c (getChangeType c)
               (clock w) in
  insertChange c lp w
  = (Ok (Some row),
     set_db (set_profile_changes (profile_changes (db w) ++ [row])
               (profile_changes_seq (db w) + 1) (db w)) w).
Proof.
  intros Hign Hf Hnd row. unfold insertChange.
  rewrite (bind_Ok _ _ _ _ _ (pool_query_Ok _ w Hf)). simpl.
  rewrite set_db_id, (ignored_check_none _ _ Hign). simpl.
  rewrite (bind_Ok _ _ _ _ _ (pool_query_Ok _ w Hf)). simpl.
  rewrite set_db_id, (select_limit_1_none _ _ Hnd).
  unfold Date_now. rewrite bind_gets.
  rewrite (bind_Ok _ _ _ _ _ (pool_query_Ok _ w Hf)). reflexivity.
Qed.

Lemma same_change_new_row c id ct now :
  same_change c (new_change_row id c ct now) = true.
Proof. apply same_change_key. reflexivity. Qed.

(** Storing a candidate that has no duplicate keeps the table well formed. *)
Lemma db_wf_insert c ct now d :
  db_wf d -> no_duplicate c d ->
  db_wf (set_profile_changes
           (profile_changes d ++ [new_change_row (profile_changes_seq d) c ct now])
           (profile_changes_seq d + 1) d).
Proof.
  intros (Hid & Hnid & Hnk) Hnd. unfold db_wf. simpl. repeat split.
  - intros r Hr. apply in_app_or in Hr as [Hr | [<- | []]].
    + specialize (Hid r Hr). lia.
    + simpl. lia.
  - rewrite map_app. simpl. apply NoDup_app. repeat split.
    + exact Hnid.
    + intros x Hx Hx'. apply list_elem_of_In in Hx.
      apply list_elem_of_In in Hx'. destruct Hx' as [<- | []].
      apply in_map_iff in Hx as (r & Hrx & Hr).
      specialize (Hid r Hr). lia.
    + apply NoDup_singleton.
  - rewrite map_app. simpl. apply NoDup_app. repeat split.
    + exact Hnk.
    + intros x Hx Hx'. apply list_elem_of_In in Hx.
      apply list_elem_of_In in Hx'. destruct Hx' as [<- | []].
      apply in_map_iff in Hx as (r & Hrx & Hr).
      specialize (Hnd r Hr). apply not_true_iff_false in Hnd. apply Hnd.
      apply same_change_key. exact Hrx.
    + apply NoDup_singleton.
Qed.

Lemma db_wf_empty : db_wf empty_db.
Proof. unfold db_wf. simpl. repeat split; [intros r [] | constructor..]. Qed.

(** C2. [insertChange] is idempotent: for a candidate whose DID is not
    ignored, the first call returns a stored row, the table then holds exactly
    one row that matches the candidate on (did, old and new display name, old
    and new avatar, old and new handle) with two nulls matching, and a second
    call with the same candidate returns that same row and inserts nothing. *)
Theorem insertChange_idempotent c lp lp' w :
  db_wf (db w) -> not_ignored (sc_did c) (db w) -> faults w = [] ->
  exists row w1,
    insertChange c lp w = (Ok (Some row), w1)
    /\ List.filter (same_change c) (profile_changes (db w1)) = [row]
    /\ forall w2, db w2 = db w1 -> faults w2 = [] ->
         insertChange c lp' w2 = (Ok (Some row), w2).
Proof.
  intros Hwf Hign Hf.
  destruct (List.filter (same_change c) (profile_changes (db w))) as [|r0 rs] eqn:E.
  - (* no stored duplicate: the row is inserted *)
    assert (Hnd : no_duplicate c (db w)).
    { intros r Hr. destruct (same_change c r) eqn:Er; [|reflexivity].
      assert (Hin : In r (List.filter (same_change c) (profile_changes (db w))))
        by (apply filter_In; auto).
      rewrite E in Hin. destruct Hin. }
    pose proof (insertChange_fresh c lp w Hign Hf Hnd) as Hrun. simpl in Hrun.
    pose proof (db_wf_insert c (getChangeType c) (clock w) _ Hwf Hnd) as Hwf1.
    set (row := new_change_row _ c _ _) in *.
    eexists row, _. split; [exact Hrun|]. simpl.
    assert (Hin : In row (profile_changes (db w) ++ [row])%list)
      by (apply in_or_app; right; left; reflexivity).
    assert (Hsame : same_change c row = true) by apply same_change_new_row.
    split.
    + apply (filter_unique_key change_key); [apply Hwf1 | exact Hin |].
      intros r. rewrite same_change_key. apply same_change_key in Hsame.
      rewrite Hsame. reflexivity.
    + intros w2 Hdb Hf2. apply insertChange_duplicate; rewrite ?Hdb; simpl; auto.
  - (* a stored duplicate: it is returned *)
    assert (Hin : In r0 (profile_changes (db w)) /\ same_change c r0 = true).
    { apply filter_In. rewrite E. left. reflexivity. }
    destruct Hin as [Hin Hsame].
    exists r0, w. split; [apply insertChange_duplicate; assumption|]. split.
    + apply (filter_unique_key change_key); [apply Hwf | exact Hin |].
      intros r. rewrite same_change_key. apply same_change_key in Hsame.
      rewrite Hsame. reflexivity.
    + intros w2 Hdb Hf2. apply insertChange_duplicate; rewrite ?Hdb; auto.
Qed.

(** ** Frame rules *)

Section FrameRules.
Context (R : World -> World -> Prop) `{!Frame R}.

Lemma preserves_ret {A} (a : A) : preserves R (ret a).
Proof. intros w. apply frame_refl. Qed.

Lemma preserves_throw {A} e : preserves R (@throw A e).
Proof. intros w. apply frame_refl. Qed.

Lemma preserves_gets {A} (f : World -> A) : preserves R (gets f).
Proof. intros w. apply frame_refl. Qed.

Lemma preserves_modify f : (forall w, R w (f w)) -> preserves R (modify f).
Proof. intros H w. apply H. Qed.

Lemma preserves_bind {A B} (m : M A) (k : A -> M B) :
  preserves R m -> (forall a, preserves R (k a)) -> preserves R (bind m k).
Proof.
  intros Hm Hk w. unfold bind. specialize (Hm w).
  destruct (m w) as [[a|e] w1]; simpl in *; [|exact Hm].
  eapply frame_trans; [exact Hm | apply Hk].
Qed.

Lemma preserves_try_catch {A} (m : M A) (h : Error -> M A) :
  preserves R m -> (forall e, preserves R (h e)) -> preserves R (try_catch m h).
Proof.
  intros Hm Hh w. unfold try_catch. specialize (Hm w).
  destruct (m w) as [[a|e] w1]; simpl in *; [exact Hm|].
  eapply frame_trans; [exact Hm | apply Hh].
Qed.

Lemma preserves_when c (m : M unit) : preserves R m -> preserves R (when c m).
Proof. intros Hm. destruct c; [exact Hm | apply preserves_ret]. Qed.

Lemma preserves_for_each {A} (xs : list A) (body : A -> M unit) :
  (forall x, preserves R (body x)) -> preserves R (for_each xs body).
Proof.
  intros Hb. induction xs as [|x xs IH]; simpl.
  - apply preserves_ret.
  - apply preserves_bind; [apply Hb | intros _; exact IH].
Qed.

Lemma preserves_emit e : preserves R (emit e).
Proof. apply preserves_modify. intros w. apply frame_trace. Qed.

Lemma preserves_wait ms : preserves R (wait ms).
Proof. apply preserves_modify. intros w. apply frame_clock. Qed.

Lemma preserves_Date_now : preserves R Date_now.
Proof. apply preserves_gets. Qed.

Lemma preserves_pool_query {A} (stmt : Db -> A * Db) :
  (forall w, R w (set_db (stmt (db w)).2 w)) -> preserves R (pool_query stmt).
Proof.
  intros H w. unfold pool_query.
  destruct (faults w) as [|[] fs] eqn:E; simpl.
  - specialize (H (set_faults [] w)). simpl in H.
    destruct (stmt (db w)) as [a d]. simpl in *.
    eapply frame_trans; [apply (frame_faults w []) | exact H].
  - apply frame_faults.
  - specialize (H (set_faults fs w)). simpl in H.
    destruct (stmt (db w)) as [a d]. simpl in *.
    eapply frame_trans; [apply (frame_faults w fs) | exact H].
Qed.

Lemma preserves_transaction {A} (body : M A) :
  preserves R body -> preserves R (transaction body).
Proof.
  intros Hb w. unfold transaction. specialize (Hb w).
  destruct (body w) as [[a|e] w1]; simpl in *; [exact Hb|].
  apply frame_rollback. exact Hb.
Qed.

Lemma preserves_withDBRetry_loop {A} fuel attempt (operation : M A) context :
  preserves R operation ->
  preserves R (withDBRetry_loop fuel attempt operation context).
Proof.
  intros Hop. revert attempt. induction fuel as [|fuel IH]; intros attempt; simpl.
  - apply preserves_try_catch; [exact Hop|]. intros e.
    apply preserves_bind; [apply preserves_emit|]. intros _.
    destruct (_ <=? _); apply preserves_throw.
  - apply preserves_try_catch; [exact Hop|]. intros e.
    apply preserves_bind; [apply preserves_emit|]. intros _.
    destruct (_ <=? _); [apply preserves_throw|].
    apply preserves_bind; [apply preserves_wait|]. intros _. apply IH.
Qed.

Lemma preserves_withDBRetry {A} (operation : M A) context :
  preserves R operation -> preserves R (withDBRetry operation context).
Proof. apply preserves_withDBRetry_loop. Qed.

Lemma preserves_setCacheEntry did handle : preserves R (setCacheEntry did handle).
Proof.
  unfold setCacheEntry. apply preserves_bind; [apply preserves_gets|].
  intros cache. apply preserves_modify. intros w. apply frame_cache.
Qed.

Lemma preserves_resolveHandle did : preserves R (resolveHandle did).
Proof.
  unfold resolveHandle. apply preserves_bind; [apply preserves_gets|].
  intros cache. destruct (cache_get did cache); [apply preserves_ret|].
  apply preserves_bind; [apply preserves_gets|]. intros [handle|].
  - apply preserves_bind; [apply preserves_setCacheEntry|]. intros _.
    apply preserves_ret.
  - apply preserves_bind; [apply preserves_emit|]. intros _.
    apply preserves_bind; [apply preserves_setCacheEntry|]. intros _.
    apply preserves_ret.
Qed.

Lemma preserves_getPreviousHandleFromAuditLog did :
  preserves R (getPreviousHandleFromAuditLog did).
Proof.
  unfold getPreviousHandleFromAuditLog.
  destruct (negb _); [apply preserves_ret|].
  apply preserves_bind; [apply preserves_gets|]. intros [handle|].
  - apply preserves_ret.
  - apply preserves_bind; [apply preserves_emit|]. intros _. apply preserves_ret.
Qed.

Lemma preserves_triggerMonitoringStatusBroadcast :
  preserves R triggerMonitoringStatusBroadcast.
Proof. apply preserves_emit. Qed.

End FrameRules.

(** One step of frame reasoning on the head of a computation; [leaf] closes
    the conditions on single updates. *)
Ltac frame_step leaf :=
  lazymatch goal with
  | |- Frame _ => first [assumption | typeclasses eauto]
  | |- preserves _ (ret _) => apply preserves_ret
  | |- preserves _ (throw _) => apply preserves_throw
  | |- preserves _ (gets _) => apply preserves_gets
  | |- preserves _ (emit _) => apply preserves_emit
  | |- preserves _ (wait _) => apply preserves_wait
  | |- preserves _ Date_now => apply preserves_Date_now
  | |- preserves _ (resolveHandle _) => apply preserves_resolveHandle
  | |- preserves _ (getPreviousHandleFromAuditLog _) =>
      apply preserves_getPreviousHandleFromAuditLog
  | |- preserves _ triggerMonitoringStatusBroadcast =>
      apply preserves_triggerMonitoringStatusBroadcast
  | |- preserves _ (bind _ _) => apply preserves_bind
  | |- preserves _ (try_catch _ _) => apply preserves_try_catch
  | |- preserves _ (when _ _) => apply preserves_when
  | |- preserves _ (for_each _ _) => apply preserves_for_each
  | |- preserves _ (withDBRetry _ _) => apply preserves_withDBRetry
  | |- preserves _ (transaction _) => apply preserves_transaction
  | |- preserves _ (pool_query _) => apply preserves_pool_query
  | |- preserves _ (modify _) => apply preserves_modify
  | |- preserves _ (if ?x then _ else _) => destruct x
  | |- preserves _ (match ?x with _ => _ end) => destruct x
  | |- preserves _ _ => first [progress (cbv zeta) | assumption]
  | |- forall _, _ => intros ?
  | |- _ => solve [leaf]
  end.

Ltac frame_with leaf := repeat (frame_step leaf).

(** ** The ignore list shields the change table (db.ts) *)

#[local] Instance keeps_ignore_invariant_frame : Frame keeps_ignore_invariant.
Proof.
  split; unfold keeps_ignore_invariant; simpl; auto.
Qed.

Ltac ignore_leaf :=
  intros; unfold keeps_ignore_invariant, ignore_invariant; simpl;
  repeat match goal with |- context [if ?b then _ else _] => destruct b end;
  simpl; auto.

(** The two outcomes of a statement. *)
Lemma pool_query_cases {A} (stmt : Db -> A * Db) w :
  pool_query stmt w = (Throw DbError, set_faults (tail (faults w)) w)
  \/ pool_query stmt w
     = (Ok (stmt (db w)).1,
        set_db (stmt (db w)).2 (set_faults (tail (faults w)) w)).
Proof.
  unfold pool_query. destruct (stmt (db w)) as [a d].
  destruct (faults w) as [|[] fs]; simpl; auto.
Qed.

Lemma select_limit_1_nil_inv {A} (p : A -> bool) rows :
  select_limit_1 p rows = [] -> forall r, In r rows -> p r = false.
Proof.
  unfold select_limit_1. intros H r Hr.
  destruct (p r) eqn:E; [|reflexivity].
  assert (Hin : In r (List.filter p rows)) by (apply filter_In; auto).
  destruct (List.filter p rows); [destruct Hin | discriminate].
Qed.

(** What [insertChange] does to the database: nothing, or, for a DID that is
    not ignored and a candidate that is not stored, one appended row. *)
Lemma insertChange_db c lp w :
  db (insertChange c lp w).2 = db w
  \/ (not_ignored (sc_did c) (db w) /\ no_duplicate c (db w)
      /\ db (insertChange c lp w).2
         = set_profile_changes
             (profile_changes (db w) ++
              [new_change_row (profile_changes_seq (db w)) c (getChangeType c)
                 (clock w)])
             (profile_changes_seq (db w) + 1) (db w)).
Proof.
  unfold insertChange.
  match goal with |- context [bind (pool_query ?s) _] =>
    destruct (pool_query_cases s w) as [H|H] end.
  { rewrite (bind_Throw _ _ _ _ _ H). left. reflexivity. }
  rewrite (bind_Ok _ _ _ _ _ H). clear H. simpl.
  destruct (select_limit_1 _ (ignored_users (db w))) as [|u us] eqn:Eign; simpl;
    [|left; reflexivity].
  set (w1 := set_db (db w) (set_faults (tail (faults w)) w)).
  match goal with |- context [bind (pool_query ?s) _] =>
    destruct (pool_query_cases s w1) as [H|H] end.
  { rewrite (bind_Throw _ _ _ _ _ H). left. reflexivity. }
  rewrite (bind_Ok _ _ _ _ _ H). clear H. simpl.
  set (w2 := set_db (db w) (set_faults (tail (tail (faults w))) w1)).
  destruct (select_limit_1 (same_change c) _) as [|dup dups] eqn:Edup.
  - unfold Date_now. rewrite bind_gets.
    match goal with |- context [bind (pool_query ?s) _] =>
      destruct (pool_query_cases s w2) as [H|H] end.
    { rewrite (bind_Throw _ _ _ _ _ H). left. reflexivity. }
    rewrite (bind_Ok _ _ _ _ _ H). clear H. simpl. right. split; [|split].
    + intros u Hu. pose proof (select_limit_1_nil_inv _ _ Eign u Hu) as Hne.
      apply bool_decide_eq_false in Hne. exact Hne.
    + exact (select_limit_1_nil_inv _ _ Edup).
    + reflexivity.
  - match goal with |- context [bind (pool_query ?s) _] =>
      destruct (pool_query_cases s w2) as [H|H] end.
    { rewrite (bind_Throw _ _ _ _ _ H). left. reflexivity. }
    rewrite (bind_Ok _ _ _ _ _ H). left. reflexivity.
Qed.

Lemma preserves_insertChange c lp : preserves keeps_ignore_invariant (insertChange c lp).
Proof.
  intros w Hinv. destruct (insertChange_db c lp w) as [-> | (Hni & _ & ->)];
    [exact Hinv|].
  intros u r Hu Hr. simpl in Hu, Hr.
  apply in_app_or in Hr as [Hr | [<- | []]].
  - apply Hinv; assumption.
  - simpl. apply not_eq_sym. apply Hni. exact Hu.
Qed.

(** [addIgnoredUser] commits both statements or none. *)
Lemma addIgnoredUser_cases did w :
  (exists e, (addIgnoredUser did w).1 = Throw e /\ db (addIgnoredUser did w).2 = db w)
  \/ ((addIgnoredUser did w).1
        = Ok (did, Z.of_nat (length (List.filter (fun r => bool_decide (pc_did r = did))
                                       (profile_changes (db w)))))
      /\ db (addIgnoredUser did w).2
         = (delete_profile_changes did (insert_ignored_user did (clock w) (db w)).2).2).
Proof.
  unfold addIgnoredUser, transaction, Date_now. rewrite bind_gets.
  match goal with |- context [bind (pool_query ?s) _] =>
    destruct (pool_query_cases s w) as [H|H] end.
  { rewrite (bind_Throw _ _ _ _ _ H). left. eexists. split; reflexivity. }
  rewrite (bind_Ok _ _ _ _ _ H). clear H.
  set (w1 := set_db _ _).
  match goal with |- context [bind (pool_query ?s) _] =>
    destruct (pool_query_cases s w1) as [H|H] end.
  { rewrite (bind_Throw _ _ _ _ _ H). left. eexists. split; reflexivity. }
  rewrite (bind_Ok _ _ _ _ _ H). clear H. right. unfold insert_ignored_user.
  subst w1. simpl.
  destruct (existsb _ _); split; reflexivity.
Qed.

Lemma ignored_after_insert did now d :
  ignored did (insert_ignored_user did now d).2.
Proof.
  unfold insert_ignored_user, ignored. simpl.
  destruct (existsb _ _) eqn:E.
  - apply existsb_exists in E as (u & Hu & Hd).
    apply bool_decide_eq_true in Hd. eauto.
  - simpl. eexists. split; [apply in_or_app; right; left; reflexivity|]. reflexivity.
Qed.

Lemma preserves_addIgnoredUser did :
  preserves keeps_ignore_invariant (addIgnoredUser did).
Proof.
  intros w Hinv.
  destruct (addIgnoredUser_cases did w) as [(e & _ & ->) | [_ ->]]; [exact Hinv|].
  intros u r Hu Hr. simpl in Hu, Hr.
  apply filter_In in Hr as [Hr Hne].
  apply negb_true_iff, bool_decide_eq_false in Hne.
  unfold insert_ignored_user in Hu. simpl in Hu.
  destruct (existsb _ _).
  - apply Hinv; assumption.
  - simpl in Hu. apply in_app_or in Hu as [Hu | [<- | []]].
    + apply Hinv; assumption.
    + exact Hne.
Qed.

Lemma preserves_removeIgnoredUser did :
  preserves keeps_ignore_invariant (removeIgnoredUser did).
Proof.
  apply preserves_pool_query; [apply _|]. intros w Hinv u r Hu Hr. simpl in *.
  apply filter_In in Hu as [Hu _]. apply Hinv; assumption.
Qed.

(** Unfolding of the functions of the model, for frame reasoning. *)
Ltac frame_unfold :=
  progress unfold
    run, isDuplicateChange, getLastKnownHandle, addMonitoredFollows,
    getMonitoredFollows, getAllMonitoredDIDs, getMonitoringUsers,
    getMonitoringUserCount, hasMonitoringEnabled, removeMonitoredFollow,
    getFollowDIDByRkey, removeMonitoredFollowByRkey, markBackfillStarted,
    markBackfillCompleted, getIgnoredUsers, saveSetting, loadSetting,
    getCursor24hAgo, selectHost, buildJetstreamRequest,
    buildOptionsUpdateMessage, update_main, profileData_get, profileData_set,
    handleIdentityEvent, handleProfileCommit, reloadDIDsNow, reloadDIDs,
    handleFollowEvent, isRunningWithCursor, getCursorInfo,
    broadcastCursorUpdate, fetchFollowsFromBluesky, getMonitoredFollowsBatch,
    syncFollowsForAllUsers, connect, on_open, dispatch_event, processEvent,
    on_message, on_close, start, stop, getMainStreamStatus,
    Temp.buildOptionsUpdateMessage, Temp.this, Temp.update, Temp.method,
    Temp.connect, Temp.start, Temp.on_open, Temp.on_close, Temp.update_mgr,
    Temp.at_capacity, Temp.new_service, Temp.startStreamForUser,
    Temp.startForUser, Temp.processQueue, Temp.finalizeStream, Temp.stop,
    Temp.stopForUser, Temp.dispatch_event, Temp.processEvent, Temp.on_message.

Lemma preserves_fetchFollowsForUsers R `{!Frame R} users :
  preserves R (fetchFollowsForUsers users).
Proof.
  induction users as [|u us IH]; simpl.
  - apply preserves_ret; assumption.
  - apply preserves_bind; [assumption | apply preserves_gets; assumption |].
    intros ?. apply preserves_bind; [assumption | exact IH |].
    intros ?. apply preserves_ret; assumption.
Qed.

Create HintDb frame.
#[local] Hint Resolve preserves_insertChange preserves_addIgnoredUser
  preserves_removeIgnoredUser : frame.

(** Frame reasoning to the leaves: known facts first, then the structure of
    the computation, then the definitions of the model. *)
Ltac frame_all leaf :=
  repeat first
    [ solve [auto 1 with frame]
    | apply preserves_fetchFollowsForUsers
    | match goal with |- preserves _ (let '(_, _) := ?x in _) => destruct x end
    | frame_step leaf
    | frame_unfold
    | progress unfold insertChange, addIgnoredUser, removeIgnoredUser ].

(** Every action keeps the ignore list shielding the change table. *)
Lemma run_keeps_ignore_invariant a : preserves keeps_ignore_invariant (run a).
Proof. destruct a; unfold run; frame_all ignore_leaf. Qed.

Lemma exec_all_keeps_ignore_invariant w actions :
  ignore_invariant (db w) -> ignore_invariant (db (exec_all w actions)).
Proof.
  revert w. induction actions as [|a actions IH]; intros w Hinv; simpl.
  - exact Hinv.
  - apply IH. apply (run_keeps_ignore_invariant a w Hinv).
Qed.

(** For an ignored DID, [insertChange] stops at the ignore check. *)
Lemma insertChange_ignored c lp w :
  ignored (sc_did c) (db w) ->
  insertChange c lp w = (Throw DbError, set_faults (tail (faults w)) w)
  \/ insertChange c lp w
     = (Ok None, set_db (db w) (set_faults (tail (faults w)) w)).
Proof.
  intros (u & Hu & Hdid). unfold insertChange.
  match goal with |- context [bind (pool_query ?s) _] =>
    destruct (pool_query_cases s w) as [H|H] end.
  { rewrite (bind_Throw _ _ _ _ _ H). left. reflexivity. }
  rewrite (bind_Ok _ _ _ _ _ H). clear H. simpl. right.
  destruct (select_limit_1 _ (ignored_users (db w))) as [|u' us] eqn:E.
  - pose proof (select_limit_1_nil_inv _ _ E u Hu) as Hne.
    apply bool_decide_eq_false in Hne. contradiction.
  - reflexivity.
Qed.

(** X27. Calls that do not overlap keep the change table clear of ignored
    DIDs. From a state in which no stored change belongs to an ignored DID,
    every state reached by calls that run one after the other, each to its
    end, has that property. [addIgnoredUser] adds the DID to the ignore list
    and deletes all of its change rows in one transaction (when it fails,
    the database is as before), and an [insertChange] for an ignored DID
    that starts afterwards returns [null] (or fails on the ignore check)
    without inserting. *)
Theorem ignored_dids_have_no_changes w0 actions :
  ignore_invariant (db w0) ->
  let w := exec_all w0 actions in
  ignore_invariant (db w)
  /\ (forall did result w',
        addIgnoredUser did w = (Ok result, w') ->
        ignored did (db w')
        /\ (forall r, In r (profile_changes (db w')) -> pc_did r <> did))
  /\ (forall did e w', addIgnoredUser did w = (Throw e, w') -> db w' = db w)
  /\ (forall c lp,
        ignored (sc_did c) (db w) ->
        db (insertChange c lp w).2 = db w
        /\ (forall row, (insertChange c lp w).1 <> Ok (Some row))
        /\ (faults w = [] -> insertChange c lp w = (Ok None, w))).
Proof.
  intros Hinv w. split; [|split; [|split]].
  - apply exec_all_keeps_ignore_invariant. exact Hinv.
  - intros did result w' H.
    destruct (addIgnoredUser_cases did w) as [(e & He & _) | [_ Hdb]].
    { rewrite H in He. discriminate. }
    rewrite H in Hdb. simpl in Hdb. rewrite Hdb. split.
    + destruct (ignored_after_insert did (clock w) (db w)) as (u & Hu & Hd).
      exists u. split; [|exact Hd]. exact Hu.
    + intros r Hr. simpl in Hr. apply filter_In in Hr as [_ Hne].
      apply negb_true_iff, bool_decide_eq_false in Hne. exact Hne.
  - intros did e w' H.
    destruct (addIgnoredUser_cases did w) as [(e0 & _ & Hdb) | [Hok _]].
    + rewrite H in Hdb. exact Hdb.
    + rewrite H in Hok. discriminate.
  - intros c lp H. split; [|split].
    + destruct (insertChange_ignored c lp w H) as [-> | ->]; reflexivity.
    + intros row. destruct (insertChange_ignored c lp w H) as [-> | ->]; discriminate.
    + intros Hf. destruct H as (u & Hu & Hdid). unfold insertChange.
      rewrite (bind_Ok _ _ _ _ _ (pool_query_Ok _ w Hf)). simpl.
      rewrite set_db_id.
      destruct (select_limit_1 _ (ignored_users (db w))) as [|u' us] eqn:E.
      * pose proof (select_limit_1_nil_inv _ _ E u Hu) as Hne.
        apply bool_decide_eq_false in Hne. contradiction.
      * reflexivity.
Qed.

(** *** Instances on the example world *)

Lemma no_duplicate_empty c : no_duplicate c empty_db.
Proof. intros r []. Qed.

Lemma not_ignored_empty did : not_ignored did empty_db.
Proof. intros u []. Qed.

Lemma ignore_invariant_empty : ignore_invariant empty_db.
Proof. intros u r []. Qed.

(** Witness of C7: a handle change of alice whose body sets one profile
    field to [null]. It has a handle transition and no profile-field
    transition, and the row is stored as [combined] with no value in any of
    its profile columns. *)
Lemma insertChange_change_type_witness :
  exists row,
    (insertChange null_field_change None world0).1 = Ok (Some row)
    /\ In row (profile_changes (db (insertChange null_field_change None world0).2))
    /\ handle_transition null_field_change
    /\ ~ profile_transition null_field_change
    /\ pc_change_type row = CT_combined
    /\ pc_old_display_name row = None /\ pc_new_display_name row = None
    /\ pc_old_avatar row = None /\ pc_new_avatar row = None.
Proof.
  exists (new_change_row 1 null_field_change CT_combined 1700000000000).
  assert (Hrun : insertChange null_field_change None world0
                 = (Ok (Some (new_change_row 1 null_field_change CT_combined
                                1700000000000)),
                    (insertChange null_field_change None world0).2))
    by (vm_compute; reflexivity).
  assert (Hh : handle_transition null_field_change).
  { exists "old.alice.example", "new.alice.example". repeat split; discriminate. }
  destruct (insertChange_change_type null_field_change None world0 _ _
              (no_duplicate_empty _) Hrun) as (Hin & Hcomb & _ & _ & Hcols & _).
  split; [rewrite Hrun; reflexivity|]. split; [exact Hin|].
  split; [exact Hh|]. split.
  { intros [[x H] | [[x H] | [[x H] | [x H]]]]; discriminate. }
  split; [apply Hcomb; split; [exact Hh | left; discriminate]|].
  destruct Hcols as (H1 & H2 & H3 & H4). auto.
Defined.

(** Witness of C2: inserting the example change twice. *)
Lemma insertChange_idempotent_witness :
  exists row w1,
    insertChange example_change None world0 = (Ok (Some row), w1)
    /\ List.filter (same_change example_change) (profile_changes (db w1)) = [row]
    /\ forall w2, db w2 = db w1 -> faults w2 = [] ->
         insertChange example_change None w2 = (Ok (Some row), w2).
Proof.
  exact (insertChange_idempotent example_change None None world0
           db_wf_empty (not_ignored_empty _) eq_refl).
Defined.

(** Witness of X27: ignoring alice after one of her changes was stored,
    then receiving the change again. *)
Lemma ignored_dids_have_no_changes_witness :
  let w := exec_all world0
             [ApiInsertChange example_change;
              AdminAddIgnoredUser "did:plc:alice";
              ApiInsertChange example_change] in
  ignore_invariant (db w)
  /\ profile_changes (db w) = []
  /\ insertChange example_change None w = (Ok None, w).
Proof.
  pose proof (ignored_dids_have_no_changes world0
                [ApiInsertChange example_change;
                 AdminAddIgnoredUser "did:plc:alice";
                 ApiInsertChange example_change]
                ignore_invariant_empty) as (Hinv & _ & _ & Hins).
  split; [exact Hinv|]. split; [reflexivity|].
  refine (proj2 (proj2 (Hins example_change None _)) eq_refl).
  eexists. split; [left; reflexivity | reflexivity].
Defined.

(** *** An insert that an ignore-add overtakes *)

Lemma addIgnoredUser_run did w :
  faults w = [] ->
  addIgnoredUser did w
  = (Ok (did, (delete_profile_changes did
                 (insert_ignored_user did (clock w) (db w)).2).1),
     set_db (delete_profile_changes did
               (insert_ignored_user did (clock w) (db w)).2).2 w).
Proof.
  intros Hf. unfold addIgnoredUser, transaction, Date_now.
  rewrite bind_gets. cbv beta.
  rewrite (bind_Ok _ _ _ _ _ (pool_query_Ok _ w Hf)).
  rewrite (bind_Ok _ _ _ _ _ (pool_query_Ok _ (set_db _ w) Hf)).
  destruct w; reflexivity.
Qed.

(** The two parts into which [insertChange] is cut at the [await] of its
    INSERT make up the call. *)
Lemma insertChange_cut change lp w w1 :
  insertChange_checks change w = (Ok true, w1) ->
  insertChange change lp w = insertChange_insert change w1.
Proof.
  unfold insertChange_checks, insertChange. intros H.
  apply bind_Ok_inv in H as (ign & wa & Hq1 & H).
  rewrite (bind_Ok _ _ _ _ _ Hq1).
  destruct (0 <? Z.of_nat (length ign)); [inversion H|].
  apply bind_Ok_inv in H as (dup & wb & Hq2 & H).
  rewrite (bind_Ok _ _ _ _ _ Hq2).
  destruct dup as [|d ds]; inversion H; subst. reflexivity.
Qed.

Lemma insertChange_checks_pass change w :
  faults w = [] -> not_ignored (sc_did change) (db w) -> no_duplicate change (db w) ->
  insertChange_checks change w = (Ok true, w).
Proof.
  intros Hf Hign Hnd. unfold insertChange_checks.
  rewrite (bind_Ok _ _ _ _ _ (pool_query_Ok _ w Hf)). simpl.
  rewrite set_db_id, (ignored_check_none _ _ Hign). simpl.
  rewrite (bind_Ok _ _ _ _ _ (pool_query_Ok _ w Hf)). simpl.
  rewrite set_db_id, (select_limit_1_none _ _ Hnd). reflexivity.
Qed.

(** C3 (the code diverges). A call of [insertChange] for a DID that is not
    ignored passes its ignore check and its duplicate check; before its
    INSERT is executed, [addIgnoredUser] for the DID runs and commits. The
    INSERT then stores a row of the DID: after the commit of the ignore-add
    the change table holds a row of an ignored DID, and it stays until
    the DID is ignored once more. The checks and the INSERT are three
    statements of their own, not one transaction. *)
Theorem insert_overtaken_by_ignore change w :
  faults w = [] ->
  not_ignored (sc_did change) (db w) ->
  no_duplicate change (db w) ->
  let r := insertChange_overtaken_by_ignore change (sc_did change) w in
  (insertChange_checks change w = (Ok true, w)
   /\ insertChange change None w = insertChange_insert change w)
  /\ exists row,
       r.1 = Ok (Some row)
       /\ pc_did row = sc_did change
       /\ ignored (sc_did change) (db r.2)
       /\ In row (profile_changes (db r.2))
       /\ ~ ignore_invariant (db r.2).
Proof.
  intros Hf Hign Hnd r.
  pose proof (insertChange_checks_pass change w Hf Hign Hnd) as Hchecks.
  split; [split; [exact Hchecks | exact (insertChange_cut _ _ _ _ Hchecks)]|].
  subst r. unfold insertChange_overtaken_by_ignore.
  rewrite (bind_Ok _ _ _ _ _ Hchecks).
  rewrite (bind_Ok _ _ _ _ _ (addIgnoredUser_run (sc_did change) w Hf)).
  set (d1 := (delete_profile_changes (sc_did change)
                (insert_ignored_user (sc_did change) (clock w) (db w)).2).2).
  unfold insertChange_insert, Date_now. rewrite bind_gets. cbv beta.
  assert (Hf1 : faults (set_db d1 w) = []) by exact Hf.
  rewrite (bind_Ok _ _ _ _ _ (pool_query_Ok _ (set_db d1 w) Hf1)).
  cbn [fst snd db set_db insert_profile_change head ret].
  set (row := new_change_row _ change _ _).
  assert (Hin : In row (profile_changes d1 ++ [row])%list)
    by (apply in_or_app; right; left; reflexivity).
  assert (Hig : ignored (sc_did change) d1)
    by (destruct (ignored_after_insert (sc_did change) (clock w) (db w))
          as (u & Hu & Hd); exists u; auto).
  exists row. split; [reflexivity|]. split; [reflexivity|].
  split; [exact Hig|]. split; [exact Hin|].
  intros Hinv. destruct Hig as (u & Hu & Hd).
  apply (Hinv u row Hu Hin). rewrite Hd. reflexivity.
Qed.

(** Witness of C3: the example change of alice is being inserted when alice
    is put on the ignore list. *)
Lemma insert_overtaken_by_ignore_witness :
  let r := insertChange_overtaken_by_ignore example_change "did:plc:alice" world0 in
  exists row,
    r.1 = Ok (Some row)
    /\ pc_did row = "did:plc:alice"
    /\ ignored "did:plc:alice" (db r.2)
    /\ In row (profile_changes (db r.2))
    /\ ~ ignore_invariant (db r.2).
Proof.
  exact (proj2 (insert_overtaken_by_ignore example_change world0 eq_refl
                  (not_ignored_empty _) (no_duplicate_empty _))).
Defined.

(** ** Follow events whose subject does not resolve (handleFollowEvent) *)

(** Case analysis on the next database statement of a computation. *)
Ltac step_query :=
  match goal with
  | |- context [bind (pool_query ?s) ?k ?w] =>
      let H := fresh "Hq" in
      destruct (pool_query_cases s w) as [H|H];
      [ rewrite (bind_Throw _ _ _ _ _ H) | rewrite (bind_Ok _ _ _ _ _ H) ];
      clear H
  end.

(** *** The handle resolver (utils/handle-resolver.ts) *)

(** Two worlds with the same parts are the same world. *)
Lemma world_ext w1 w2 :
  db w1 = db w2 -> faults w1 = faults w2 -> clock w1 = clock w2 ->
  trace w1 = trace w2 -> net_resolveHandle w1 = net_resolveHandle w2 ->
  net_auditLog w1 = net_auditLog w2 -> net_follows w1 = net_follows w2 ->
  hosts w1 = hosts w2 -> random_index w1 = random_index w2 ->
  maxConcurrentTempStreams w1 = maxConcurrentTempStreams w2 ->
  main w1 = main w2 -> heap w1 = heap w2 -> mgr w1 = mgr w2 ->
  handleCache w1 = handleCache w2 -> w1 = w2.
Proof. destruct w1, w2. simpl. intros. subst. reflexivity. Qed.

(** The parts of a world that was built by field updates. *)
Ltac world_parts :=
  lazy beta iota zeta delta
    [db faults clock trace net_resolveHandle net_auditLog net_follows hosts
     random_index maxConcurrentTempStreams main heap mgr handleCache
     set_db set_faults set_clock set_trace set_main set_heap set_mgr
     set_handleCache].

Lemma set_trace_nil w : set_trace (trace w ++ []) w = w.
Proof. destruct w. unfold set_trace. simpl. rewrite app_nil_r. reflexivity. Qed.

Lemma set_handleCache_id w : set_handleCache (handleCache w) w = w.
Proof. destruct w; reflexivity. Qed.

Lemma In_tail {A} (x : A) l : In x (tail l) -> In x l.
Proof. destruct l; simpl; auto. Qed.

Lemma cache_get_In did cache handle :
  cache_get did cache = Some handle -> In (did, handle) cache.
Proof.
  unfold cache_get. intros H.
  destruct (List.filter _ cache) as [|[k v] l] eqn:E; [discriminate|].
  simpl in H. injection H as ->.
  assert (Hin : In (k, handle) (List.filter (fun kv => bool_decide (kv.1 = did)) cache))
    by (rewrite E; left; reflexivity).
  apply filter_In in Hin as [Hin Hk]. apply bool_decide_eq_true in Hk.
  simpl in Hk. subst k. exact Hin.
Qed.

Lemma In_cache_set did handle cache k v :
  In (k, v) (cache_set did handle cache) ->
  In (k, v) cache \/ (k = did /\ v = handle).
Proof.
  induction cache as [|[k0 v0] cache IH]; simpl.
  - intros [[= <- <-] | []]. auto.
  - destruct (bool_decide (k0 = did)); simpl.
    + intros [[= <- <-] | Hin]; auto.
    + intros [Hin | Hin]; [auto|]. destruct (IH Hin); auto.
Qed.

(** What a call of the resolver does: it returns, it leaves nothing but its
    cache and at most a warning, and the handle it returns is the cached one
    or the answer of the directory. *)
Lemma resolveHandle_run did w :
  exists handle warnings cache,
    resolveHandle did w
    = (Ok handle, set_handleCache cache (set_trace (trace w ++ warnings) w))
    /\ warnings_only warnings
    /\ (forall k v, In (k, v) cache ->
                    In (k, v) (handleCache w) \/ (k = did /\ v = handle))
    /\ (In (did, handle) (handleCache w)
        \/ net_resolveHandle w did = answered handle
        \/ (net_resolveHandle w did = lookup_throws /\ handle = None)).
Proof.
  unfold resolveHandle. rewrite bind_gets. cbv beta.
  destruct (cache_get did (handleCache w)) as [handle|] eqn:Eget.
  - exists handle, [], (handleCache w).
    rewrite set_trace_nil, set_handleCache_id.
    split; [reflexivity|]. split; [intros e []|]. split; [auto|].
    left. apply cache_get_In. exact Eget.
  - rewrite bind_gets. cbv beta.
    destruct (net_resolveHandle w did) as [handle|] eqn:Enet.
    + eexists handle, [], _. rewrite set_trace_nil.
      split; [reflexivity|]. split; [intros e []|]. split; [|auto].
      intros k v Hin. apply In_cache_set in Hin as [Hin | Hin]; [|auto].
      left. destruct (_ <=? _); [apply In_tail|]; exact Hin.
    + eexists None, [_], _.
      split; [reflexivity|]. split; [intros e [<- | []]; eauto|]. split; [|auto].
      intros k v Hin. simpl in Hin.
      apply In_cache_set in Hin as [Hin | Hin]; [|auto].
      left. destruct (_ <=? _); [apply In_tail|]; exact Hin.
Qed.

(** A DID whose handle cannot be resolved gets no handle from the
    resolver. *)
Lemma resolveHandle_unresolvable did w handle w' :
  unresolvable did w -> resolveHandle did w = (Ok handle, w') ->
  truthy handle = false.
Proof.
  intros [Hcache Hnet] Hrun.
  destruct (resolveHandle_run did w) as (h & ws & c & Hr & _ & _ & Hfrom).
  rewrite Hr in Hrun. injection Hrun as -> _.
  destruct Hfrom as [Hin | [He | [_ ->]]]; [auto | | reflexivity].
  rewrite He in Hnet. exact Hnet.
Qed.

(** C10. A follow-commit [create] event whose subject's handle cannot be
    resolved (neither the cache of the resolver nor the directory has a
    handle for it) changes no state: the database, the main service (hence
    its DID set), the temporary streams and the manager are as before, and
    all that the handler adds to the trace are warnings, so that no DID
    reload is requested. (The resolver may note in its cache what it looked
    up.) When the follower is a monitoring user, the statement succeeds and
    the event is not suppressed by backfill mode, the handler returns, and
    the last of the warnings is that the follow is skipped; the ones before
    it are the resolver's own, for lookups that threw. *)
Theorem handleFollowEvent_unresolved_subject
    event commit record subject lp inBackfill w :
  ev_kind event = "commit" ->
  ev_commit event = Some commit ->
  c_collection commit = "app.bsky.graph.follow" ->
  c_operation commit = "create" ->
  c_record commit = Some record ->
  cr_subject record = Some subject ->
  unresolvable subject w ->
  let warning :=
    console_warn ("Could not resolve handle for " +:+ subject
                  +:+ ", skipping auto-add") in
  let r := handleFollowEvent event lp inBackfill w in
  db r.2 = db w /\ main r.2 = main w /\ heap r.2 = heap w /\ mgr r.2 = mgr w
  /\ (exists effects,
        trace r.2 = (trace w ++ effects)%list /\ warnings_only effects)
  /\ (faults w = [] ->
      List.filter (fun r => bool_decide (mf_user_did r = ev_did event))
        (monitored_follows (db w)) <> [] ->
      inBackfill && negb (truthy lp) = false ->
      subject <> "" ->
      r.1 = Ok tt
      /\ exists warnings,
           trace r.2 = (trace w ++ warnings ++ [warning])%list
           /\ warnings_only warnings).
Proof.
  intros Hkind Hcommit Hcoll Hop Hrec Hsubj Hun warning r.
  assert (Hcases :
    exists res fs cache effects,
      r = (res, set_handleCache cache
                  (set_trace (trace w ++ effects) (set_faults fs w)))
      /\ warnings_only effects).
  { assert (Hdone : forall (res : Res unit) fs,
              exists res0 fs0 cache effects,
                (res, set_faults fs w)
                = (res0, set_handleCache cache
                           (set_trace (trace w ++ effects) (set_faults fs0 w)))
                /\ warnings_only effects).
    { intros res fs. exists res, fs, (handleCache w), [].
      split; [|intros e []]. f_equal.
      apply world_ext; world_parts; rewrite ?app_nil_r; reflexivity. }
    subst r. unfold handleFollowEvent.
    rewrite Hkind, Hcommit, Hcoll, Hop, Hrec. simpl. rewrite Hsubj.
    unfold hasMonitoringEnabled. rewrite bind_assoc.
    step_query; [apply Hdone|]. rewrite bind_ret.
    set (w1 := set_db (db w) (set_faults (tail (faults w)) w)).
    destruct (0 <? _); simpl; [|apply (Hdone (Ok tt))].
    destruct (inBackfill && negb (truthy lp)); simpl; [apply (Hdone (Ok tt))|].
    destruct (resolveHandle_run (ev_did event) w1)
      as (h2 & ws2 & c2 & Hr2 & Hws2 & Hc2 & Hfrom2).
    rewrite (bind_Ok _ _ _ _ _ Hr2).
    set (w2 := set_handleCache c2 (set_trace (trace w1 ++ ws2) w1)) in *.
    destruct (bool_decide (subject = "")); simpl.
    { exists (Ok tt), (tail (faults w)), c2, ws2. split; [reflexivity | exact Hws2]. }
    destruct (resolveHandle_run subject w2)
      as (h3 & ws3 & c3 & Hr3 & Hws3 & Hc3 & Hfrom3).
    rewrite (bind_Ok _ _ _ _ _ Hr3).
    assert (Hun2 : unresolvable subject w2).
    { destruct Hun as [Hcache Hnet]. split; [|exact Hnet].
      intros handle Hin. apply Hc2 in Hin as [Hin | [Heq ->]]; [auto|].
      destruct Hfrom2 as [Hin | [He | [_ ->]]]; [| |reflexivity].
      - rewrite <- Heq in Hin. auto.
      - rewrite <- Heq in He. change (net_resolveHandle w1 subject)
          with (net_resolveHandle w subject) in He.
        rewrite He in Hnet. exact Hnet. }
    rewrite (resolveHandle_unresolvable subject w2 h3 _ Hun2 Hr3). simpl.
    exists (Ok tt), (tail (faults w)), c3, (ws2 ++ ws3 ++ [warning])%list.
    split.
    - unfold emit, modify. cbn [fst snd]. f_equal. subst w2 w1.
      apply world_ext; world_parts; rewrite <- ?app_assoc; reflexivity.
    - intros e He. apply in_app_or in He as [He | He]; [auto|].
      apply in_app_or in He as [He | [<- | []]]; [auto|]. eexists. reflexivity. }
  split; [|split; [|split; [|split; [|split]]]].
  1-4: destruct Hcases as (res & fs & c & ef & -> & _); reflexivity.
  - destruct Hcases as (res & fs & c & ef & -> & Hw). exists ef. auto.
  - intros Hf Hmon Hsup Hne. subst r. unfold handleFollowEvent.
    rewrite Hkind, Hcommit, Hcoll, Hop, Hrec. simpl. rewrite Hsubj.
    unfold hasMonitoringEnabled. rewrite bind_assoc.
    rewrite (bind_Ok _ _ _ _ _ (pool_query_Ok _ w Hf)). simpl.
    rewrite set_db_id, bind_ret.
    destruct (List.filter _ (monitored_follows (db w))) as [|r rs]; [congruence|].
    simpl length. replace (0 <? Z.of_nat (S (length rs))) with true
      by (symmetry; apply Z.ltb_lt; lia).
    simpl. rewrite Hsup.
    destruct (resolveHandle_run (ev_did event) w)
      as (h2 & ws2 & c2 & Hr2 & Hws2 & Hc2 & Hfrom2).
    rewrite (bind_Ok _ _ _ _ _ Hr2).
    set (w2 := set_handleCache c2 (set_trace (trace w ++ ws2) w)) in *.
    rewrite (bool_decide_eq_false_2 _ Hne).
    destruct (resolveHandle_run subject w2)
      as (h3 & ws3 & c3 & Hr3 & Hws3 & Hc3 & Hfrom3).
    rewrite (bind_Ok _ _ _ _ _ Hr3).
    assert (Hun2 : unresolvable subject w2).
    { destruct Hun as [Hcache Hnet]. split; [|exact Hnet].
      intros handle Hin. apply Hc2 in Hin as [Hin | [Heq ->]]; [auto|].
      destruct Hfrom2 as [Hin | [He | [_ ->]]]; [| |reflexivity].
      - rewrite <- Heq in Hin. auto.
      - rewrite <- Heq in He. rewrite He in Hnet. exact Hnet. }
    rewrite (resolveHandle_unresolvable subject w2 h3 _ Hun2 Hr3). simpl.
    split; [reflexivity|]. exists (ws2 ++ ws3)%list. split.
    + rewrite <- !app_assoc. reflexivity.
    + intros e He. apply in_app_or in He as [He | He]; auto.
Qed.

(** Witness of C10: the example user follows an account that does not
    resolve; the handler returns after the warning and nothing else. *)
Lemma handleFollowEvent_unresolved_subject_witness :
  let r := handleFollowEvent follow_stranger_event None false world_monitoring in
  r.1 = Ok tt
  /\ db r.2 = db world_monitoring /\ main r.2 = main world_monitoring
  /\ trace r.2
     = (trace world_monitoring ++
        [console_warn
           "Could not resolve handle for did:plc:stranger, skipping auto-add"])%list.
Proof.
  intros r.
  assert (Hun : unresolvable "did:plc:stranger" world_monitoring).
  { split; [intros handle [] | reflexivity]. }
  destruct (handleFollowEvent_unresolved_subject follow_stranger_event
              follow_stranger_commit
              {| cr_displayName := None; cr_avatar_link := None;
                 cr_subject := Some "did:plc:stranger" |}
              "did:plc:stranger" None false world_monitoring
              eq_refl eq_refl eq_refl eq_refl eq_refl eq_refl Hun)
    as (Hdb & Hmain & _ & _ & _ & Hrun).
  destruct Hrun as [Hok _]; [reflexivity | vm_compute; discriminate | reflexivity
                            | discriminate |].
  split; [exact Hok|]. split; [exact Hdb|]. split; [exact Hmain|].
  vm_compute. reflexivity.
Defined.

(** ** Status of the main stream after a disconnect *)

(** The ["close"] handler leaves the socket reference, the run flag, the DID
    set, the cursor and the start time of the main service as they are. *)
Lemma on_close_main w :
  let s' := main (on_close w).2 in
  ws s' = ws (main w) /\ shouldRun s' = shouldRun (main w)
  /\ currentDIDs s' = currentDIDs (main w)
  /\ lastCursor s' = lastCursor (main w)
  /\ startTime s' = startTime (main w)
  /\ clock (on_close w).2 = clock w.
Proof.
  unfold on_close, update_main, triggerMonitoringStatusBroadcast, emit.
  rewrite bind_gets. destruct (shouldRun (main w)) eqn:Erun; simpl.
  - rewrite bind_assoc, bind_gets.
    destruct (bool_decide (reconnectAttempts (main w) = 0)); simpl;
      repeat split; auto.
  - repeat split; auto.
Qed.

(** C9 (what the code does). After the main socket disconnects while the
    service is meant to run and monitors some DID, the status snapshot still
    reports [isRunning = true], and it reports [hasValidCursor = true] whenever
    a cursor is held and the service started more than 30 s ago: the close
    handler does not drop the socket reference that [getMainStreamStatus]
    tests. *)
Theorem status_after_disconnect w started :
  shouldRun (main w) = true ->
  ws (main w) <> None ->
  currentDIDs (main w) <> [] ->
  lastCursor (main w) <> None ->
  startTime (main w) = Some started ->
  30000 < clock w - started ->
  exists w',
    getMainStreamStatus (on_close w).2
    = (Ok {| isRunning := true;
             monitoredDIDs := Z.of_nat (length (currentDIDs (main w)));
             hasValidCursor := true |}, w').
Proof.
  intros Hrun Hws Hdids Hcur Hstart Hup.
  destruct (on_close_main w) as (Ews & Erun & Edids & Ecur & Est & Eclock).
  unfold getMainStreamStatus, isRunningWithCursor, Date_now.
  rewrite bind_gets. simpl.
  rewrite Ews, Erun, Edids, Hrun.
  rewrite (bool_decide_eq_false_2 _ Hws).
  destruct (currentDIDs (main w)) as [|d ds] eqn:Ed; [congruence|].
  simpl length.
  replace (0 <? Z.of_nat (S (length ds))) with true
    by (symmetry; apply Z.ltb_lt; lia).
  cbn [andb negb]. rewrite bind_assoc, bind_gets, bind_assoc, bind_gets, !bind_ret.
  rewrite Ecur, Est, Eclock, Hstart, (bool_decide_eq_false_2 _ Hcur).
  replace (30000 <? clock w - started) with true
    by (symmetry; apply Z.ltb_lt; lia).
  simpl. eexists. reflexivity.
Qed.

(** The failing input of C9: the connected example stream disconnects. *)
Lemma status_after_disconnect_witness :
  exists w',
    getMainStreamStatus (exec world_connected MainClose)
    = (Ok {| isRunning := true; monitoredDIDs := 2; hasValidCursor := true |}, w').
Proof.
  exact (status_after_disconnect world_connected 1699999940000
           eq_refl ltac:(discriminate) ltac:(discriminate) ltac:(discriminate)
           eq_refl ltac:(reflexivity)).
Defined.

(** ** Options message: the cap on wanted DIDs *)

(** What the main stream's [buildOptionsUpdateMessage] returns. *)
Lemma buildOptionsUpdateMessage_run dids w :
  buildOptionsUpdateMessage dids w
  = (Ok {| om_type := "options_update";
           om_wantedCollections := wantedCollections;
           om_wantedDids := firstn (Z.to_nat MAX_WANTED_DIDS) dids;
           om_maxMessageSizeBytes := 0 |},
     if MAX_WANTED_DIDS <? Z.of_nat (length dids)
     then set_trace
            (trace w ++
             [console_warn "WARNING: more DIDs to monitor than the Jetstream limit"]) w
     else w).
Proof.
  unfold buildOptionsUpdateMessage.
  assert (Hfirst :
    firstn (Z.to_nat (Z.min (Z.of_nat (length dids)) MAX_WANTED_DIDS)) dids
    = firstn (Z.to_nat MAX_WANTED_DIDS) dids).
  { destruct (Z.le_ge_cases (Z.of_nat (length dids)) MAX_WANTED_DIDS) as [H|H].
    - rewrite Z.min_l by exact H. rewrite Nat2Z.id.
      rewrite firstn_all. symmetry. apply firstn_all2. lia.
    - rewrite Z.min_r by lia. reflexivity. }
  rewrite Hfirst.
  destruct (MAX_WANTED_DIDS <? Z.of_nat (length dids)); reflexivity.
Qed.

Lemma sent_app t1 t2 : sent (t1 ++ t2) = (sent t1 ++ sent t2)%list.
Proof.
  induction t1 as [|e t1 IH]; [reflexivity|].
  destruct e; simpl; rewrite ?IH; reflexivity.
Qed.

(** What the main stream sends when its socket opens: one message, with the
    first 10 000 of its current DIDs. *)
Lemma on_open_sent w :
  ws (main w) <> None ->
  sent (trace (on_open w).2)
  = (sent (trace w) ++
     [(MainStream,
       {| om_type := "options_update";
          om_wantedCollections := wantedCollections;
          om_wantedDids := firstn (Z.to_nat MAX_WANTED_DIDS) (currentDIDs (main w));
          om_maxMessageSizeBytes := 0 |})])%list.
Proof.
  intros Hws. unfold on_open, update_main.
  rewrite bind_modify, bind_gets. simpl.
  rewrite (bind_Ok _ _ _ _ _ (buildOptionsUpdateMessage_run _ _)).
  rewrite bind_gets.
  set (w1 := if MAX_WANTED_DIDS <? _ then _ else _).
  assert (Hmain : main w1 = set_reconnectAttempts 0 (main w))
    by (subst w1; destruct (MAX_WANTED_DIDS <? _); reflexivity).
  assert (Hsent : sent (trace w1) = sent (trace w)).
  { subst w1. destruct (MAX_WANTED_DIDS <? _); [|reflexivity]. simpl.
    rewrite sent_app. simpl. apply app_nil_r. }
  rewrite Hmain. simpl.
  destruct (ws (main w)) as [sock|] eqn:E; [|congruence].
  unfold when at 1. simpl. unfold emit at 1. rewrite bind_modify, bind_gets.
  unfold broadcastCursorUpdate, getCursorInfo, triggerMonitoringStatusBroadcast, emit.
  simpl.
  destruct (match lastCursor (main w1) with Some c => _ | None => false end);
    simpl; rewrite !sent_app, Hsent; simpl; rewrite ?app_nil_r; reflexivity.
Qed.

(** What a temporary stream sends when its socket opens: one message, with
    all of its follow DIDs. *)
Lemma temp_on_open_sent obj t w :
  heap w !! obj = Some t -> t_ws t <> None ->
  sent (trace (Temp.on_open obj w).2)
  = (sent (trace w) ++
     [(TempStream obj,
       {| om_type := "options_update";
          om_wantedCollections := wantedCollections;
          om_wantedDids := t_follows t;
          om_maxMessageSizeBytes := 0 |})])%list.
Proof.
  intros Hobj Hws. unfold Temp.on_open, Temp.method, Temp.this.
  rewrite bind_gets, Hobj. unfold Temp.update, Temp.buildOptionsUpdateMessage.
  rewrite bind_modify.
  destruct (t_ws t) as [sock|] eqn:E; [|congruence].
  destruct (t_reconnectTimeout t); simpl; rewrite ?sent_app; simpl;
    rewrite ?app_nil_r; reflexivity.
Qed.

(** C5 (as the code has it). The message of the main stream lists the first
    10 000 of the supplied DIDs, hence at most 10 000, with a warning exactly
    when more were supplied, and that is the message the main stream sends
    when its socket opens; the message of a temporary stream lists every
    supplied DID, with no cap and no warning, and that is what a temporary
    stream sends for its follow list. *)
Theorem options_message_wanted_dids dids w :
  (exists msg w',
     buildOptionsUpdateMessage dids w = (Ok msg, w')
     /\ om_wantedDids msg = firstn (Z.to_nat 10000) dids
     /\ Z.of_nat (length (om_wantedDids msg)) <= 10000
     /\ (Z.of_nat (length dids) <= 10000 -> om_wantedDids msg = dids /\ w' = w)
     /\ (10000 < Z.of_nat (length dids) ->
         exists warning, trace w' = (trace w ++ [console_warn warning])%list))
  /\ (exists msg,
        Temp.buildOptionsUpdateMessage dids w = (Ok msg, w)
        /\ om_wantedDids msg = dids)
  /\ (ws (main w) <> None ->
      exists msg,
        sent (trace (on_open w).2) = (sent (trace w) ++ [(MainStream, msg)])%list
        /\ om_wantedDids msg = firstn (Z.to_nat 10000) (currentDIDs (main w)))
  /\ (forall obj t,
        heap w !! obj = Some t -> t_ws t <> None ->
        exists msg,
          sent (trace (Temp.on_open obj w).2)
          = (sent (trace w) ++ [(TempStream obj, msg)])%list
          /\ om_wantedDids msg = t_follows t).
Proof.
  change 10000 with MAX_WANTED_DIDS. split; [|split; [|split]].
  - eexists _, _. split; [apply buildOptionsUpdateMessage_run|]. simpl.
    split; [reflexivity|]. split.
    { pose proof (firstn_le_length (Z.to_nat MAX_WANTED_DIDS) dids).
      unfold MAX_WANTED_DIDS in *. lia. }
    split.
    + intros Hle. split; [apply firstn_all2; lia|].
      replace (MAX_WANTED_DIDS <? Z.of_nat (length dids)) with false; [reflexivity|].
      symmetry. apply Z.ltb_ge. lia.
    + intros Hlt.
      replace (MAX_WANTED_DIDS <? Z.of_nat (length dids)) with true.
      * simpl. eexists. reflexivity.
      * symmetry. apply Z.ltb_lt. lia.
  - eexists. split; reflexivity.
  - intros Hws. eexists. split; [apply on_open_sent; exact Hws | reflexivity].
  - intros obj t Hobj Hws. eexists.
    split; [apply (temp_on_open_sent obj t); assumption | reflexivity].
Qed.

(** Witness of C5: the message that the connected main stream sends when its
    socket opens. *)
Lemma options_message_wanted_dids_witness :
  exists msg,
    sent (trace (on_open world_connected).2)
    = (sent (trace world_connected) ++ [(MainStream, msg)])%list
    /\ om_wantedDids msg
       = firstn (Z.to_nat 10000) (currentDIDs (main world_connected)).
Proof.
  apply (proj1 (proj2 (proj2 (options_message_wanted_dids [] world_connected)))).
  discriminate.
Defined.

(** *** The change table stays well formed *)

#[local] Instance keeps_db_wf_frame : Frame keeps_db_wf.
Proof. split; unfold keeps_db_wf; simpl; auto. Qed.

Lemma NoDup_map_filter {A K} (f : A -> K) (p : A -> bool) (l : list A) :
  NoDup (map f l) -> NoDup (map f (List.filter p l)).
Proof.
  induction l as [|a l IH]; simpl; [auto|]. intros Hnd.
  apply NoDup_cons in Hnd as [Hna Hnd]. destruct (p a); simpl; [|auto].
  apply NoDup_cons. split; [|auto].
  intros Hin. apply Hna. apply list_elem_of_In in Hin.
  apply in_map_iff in Hin as (x & Hx & Hin). apply filter_In in Hin as [Hin _].
  apply list_elem_of_In. rewrite <- Hx. apply in_map. exact Hin.
Qed.

Lemma db_wf_delete did d : db_wf d -> db_wf (delete_profile_changes did d).2.
Proof.
  intros (Hid & Hnid & Hnk). unfold db_wf. simpl. repeat split.
  - intros r Hr. apply filter_In in Hr as [Hr _]. exact (Hid r Hr).
  - apply NoDup_map_filter. exact Hnid.
  - apply NoDup_map_filter. exact Hnk.
Qed.

Lemma preserves_db_wf_insertChange c lp : preserves keeps_db_wf (insertChange c lp).
Proof.
  intros w Hwf. destruct (insertChange_db c lp w) as [-> | (_ & Hnd & ->)];
    [exact Hwf|].
  apply db_wf_insert; assumption.
Qed.

Lemma preserves_db_wf_addIgnoredUser did : preserves keeps_db_wf (addIgnoredUser did).
Proof.
  intros w Hwf.
  destruct (addIgnoredUser_cases did w) as [(e & _ & ->) | [_ ->]]; [exact Hwf|].
  apply db_wf_delete. unfold insert_ignored_user. simpl.
  destruct (existsb _ _); exact Hwf.
Qed.

#[local] Hint Resolve preserves_db_wf_insertChange preserves_db_wf_addIgnoredUser
  : frame.

Ltac db_wf_leaf :=
  intros; unfold keeps_db_wf, db_wf; simpl;
  repeat match goal with |- context [if ?b then _ else _] => destruct b end;
  simpl; auto.

(** Every action keeps the change table well formed; in particular the table
    is well formed in every state reached from the empty database. *)
Lemma run_keeps_db_wf a : preserves keeps_db_wf (run a).
Proof. destruct a; unfold run; frame_all db_wf_leaf. Qed.

Lemma exec_all_keeps_db_wf w actions :
  db_wf (db w) -> db_wf (db (exec_all w actions)).
Proof.
  revert w. induction actions as [|a actions IH]; intros w Hwf; simpl.
  - exact Hwf.
  - apply IH. apply (run_keeps_db_wf a w Hwf).
Qed.

(** C5, counterexample: a temporary stream started for a user with 10 001
    follow DIDs sends an options message that lists all 10 001. *)
Lemma temp_options_message_exceeds_cap :
  let w := exec_all world0
             [TempStartForUser "did:plc:user" many_dids; TempOpen 0%nat] in
  exists msg,
    sent (trace w) = [(TempStream 0, msg)]
    /\ Z.of_nat (length (om_wantedDids msg)) = 10001
    /\ ~ Z.of_nat (length (om_wantedDids msg)) <= 10000.
Proof.
  eexists. split; [vm_compute; reflexivity|]. split; [vm_compute; reflexivity|].
  vm_compute. intros H. apply H. reflexivity.
Qed.

(** ** Backfill detection at start (JetstreamService.start) *)

#[local] Instance keeps_cursor_frame : Frame keeps_cursor.
Proof.
  split; unfold keeps_cursor; simpl; auto.
  intros w1 w2 w3 (H1 & H2 & H3) (H4 & H5 & H6). repeat split; congruence.
Qed.

Ltac cursor_leaf :=
  intros; unfold keeps_cursor; simpl;
  repeat match goal with |- context [match ?b with _ => _ end] => destruct b end;
  simpl; auto.

Lemma syncFollowsForAllUsers_keeps_cursor :
  preserves keeps_cursor syncFollowsForAllUsers.
Proof. frame_all cursor_leaf. Qed.

Lemma reloadDIDs_keeps_cursor : preserves keeps_cursor reloadDIDs.
Proof. frame_all cursor_leaf. Qed.

(** [connect] keeps the backfill flag when it resumes from a cursor. *)
Lemma connect_keeps_cursor w c :
  lastCursor (main w) = Some c -> c <> 0 -> keeps_cursor w (connect w).2.
Proof.
  intros Hc Hne. unfold connect, update_main.
  rewrite bind_modify, bind_gets. simpl.
  destruct (bool_decide (length (currentDIDs (main w)) = 0%nat)).
  - cursor_leaf.
  - rewrite bind_gets. simpl. rewrite Hc, (bool_decide_eq_false_2 _ Hne).
    rewrite (bool_decide_eq_false_2 (Some c = None)) by discriminate.
    cursor_leaf.
Qed.

(** The flag that the cursor branch of [start] computes survives the rest of
    [start]. *)
Lemma start_flag cursor w :
  cursor <> 0 ->
  isInActualBackfill (main (start (Some cursor) w).2)
  = Qltb (inject_Z 60000) (inject_Z (clock w) - (cursor # 1000)).
Proof.
  intros Hne. unfold start, update_main, Date_now.
  rewrite bind_modify, bind_gets, bind_modify.
  rewrite !bind_assoc, bind_modify, bind_assoc, bind_gets.
  rewrite bind_assoc, bind_modify, bind_assoc, bind_gets. simpl.
  set (flag := Qltb _ _).
  match goal with |- context [bind (when flag ?m) ?k ?x] =>
    set (k0 := k); set (w1 := x);
    assert (Hw2 : exists w2, when flag m w1 = (Ok tt, w2)
                   /\ lastCursor (main w2) = Some cursor
                   /\ isInActualBackfill (main w2) = flag)
      by (destruct flag eqn:E; eexists; (split; [reflexivity|]); simpl; auto)
  end.
  destruct Hw2 as (w2 & Hrun & Hcur & Hflag).
  rewrite (bind_Ok _ _ _ _ _ Hrun). subst k0. cbv beta.
  pose proof (syncFollowsForAllUsers_keeps_cursor w2) as (S1 & S2 & _).
  unfold bind at 1. destruct (syncFollowsForAllUsers w2) as [[[]|e] w3]; simpl in *;
    [|congruence].
  pose proof (reloadDIDs_keeps_cursor w3) as (R1 & R2 & _).
  unfold bind at 1. destruct (reloadDIDs w3) as [[[]|e] w4]; simpl in *;
    [|congruence].
  assert (Hc4 : lastCursor (main w4) = Some cursor) by congruence.
  destruct (connect_keeps_cursor w4 cursor Hc4 Hne) as (_ & C2 & _). congruence.
Qed.

Lemma Qltb_lt a b : Qltb a b = true <-> (a < b)%Q.
Proof.
  unfold Qltb. rewrite negb_true_iff. split.
  - intros H. apply Qnot_le_lt. intros Hle. apply Qle_bool_iff in Hle. congruence.
  - intros H. destruct (Qle_bool b a) eqn:E; [|reflexivity].
    apply Qle_bool_iff in E. exfalso. exact (Qlt_not_le _ _ H E).
Qed.

(** C4 (as the code has it). After [start(cursor)] with a cursor that is not
    0, [inBackfill] is true exactly when [now - cursor / 1000] is greater than
    60 000 ms; for a cursor exactly 60 s in the past it is false. *)
Theorem start_backfill_strict cursor w :
  cursor <> 0 ->
  let timeDiff := (inject_Z (clock w) - (cursor # 1000))%Q in
  (isInActualBackfill (main (start (Some cursor) w).2) = true
   <-> (inject_Z 60000 < timeDiff)%Q)
  /\ ((timeDiff == inject_Z 60000)%Q ->
      isInActualBackfill (main (start (Some cursor) w).2) = false).
Proof.
  intros Hne timeDiff. rewrite (start_flag cursor w Hne). fold timeDiff. split.
  - apply Qltb_lt.
  - intros Heq. destruct (Qltb (inject_Z 60000) timeDiff) eqn:E; [|reflexivity].
    apply Qltb_lt in E. rewrite Heq in E. exfalso. exact (Qlt_irrefl _ E).
Qed.

(** Witness of C4: a start ten minutes behind the clock is a backfill. *)
Lemma start_backfill_strict_witness :
  isInActualBackfill (main (start (Some 1699999400000000) world0).2) = true.
Proof.
  apply (start_backfill_strict 1699999400000000 world0 ltac:(discriminate)).
  reflexivity.
Defined.

(** C4, counterexample: a start with a cursor exactly 60 s in the past does
    not set [inBackfill]. *)
Lemma start_at_60s_not_backfill :
  (inject_Z (clock world0) - (1699999940000000 # 1000) == inject_Z 60000)%Q
  /\ isInActualBackfill
       (main (exec world0 (MainStart (Some 1699999940000000)))) = false.
Proof. split; [reflexivity | vm_compute; reflexivity]. Qed.

(** ** Cursor advance (processEvent of both streams) *)

#[local] Instance keeps_lastCursor_frame : Frame keeps_lastCursor.
Proof.
  split; unfold keeps_lastCursor; simpl; auto. intros; congruence.
Qed.

Ltac lastCursor_leaf :=
  intros; unfold keeps_lastCursor; simpl;
  repeat match goal with |- context [match ?b with _ => _ end] => destruct b end;
  simpl; auto.

Lemma dispatch_event_keeps_cursor event :
  preserves keeps_cursor (dispatch_event event).
Proof. frame_all cursor_leaf. Qed.

Lemma isRunningWithCursor_run w :
  exists b, isRunningWithCursor w = (Ok b, w).
Proof. eexists. reflexivity. Qed.

(** The main stream: the cursor moves to the time of the event when the
    handlers return, and stays when they throw. *)
Lemma processEvent_cursor event w :
  match (dispatch_event event w).1 with
  | Ok _ => lastCursor (main (processEvent event w).2) = Some (ev_time_us event)
  | Throw _ => lastCursor (main (processEvent event w).2) = lastCursor (main w)
  end.
Proof.
  unfold processEvent, try_catch.
  destruct (isRunningWithCursor_run w) as [had Hhad].
  rewrite (bind_Ok _ _ _ _ _ Hhad).
  pose proof (dispatch_event_keeps_cursor event w) as (Hkeep & _).
  destruct (dispatch_event event w) as [[[]|err] w1] eqn:E; simpl.
  - rewrite (bind_Ok _ _ _ _ _ E).
    unfold update_main at 1. rewrite bind_modify.
    match goal with |- context [match ?m ?x with _ => _ end] =>
      assert (Hrest : preserves keeps_lastCursor m) by frame_all lastCursor_leaf;
      specialize (Hrest x); destruct (m x) as [[[]|err] w2]
    end; simpl in *; exact Hrest.
  - rewrite (bind_Throw _ _ _ _ _ E). simpl in *. exact Hkeep.
Qed.

#[local] Instance keeps_temp_cursor_frame obj : Frame (keeps_temp_cursor obj).
Proof.
  split; unfold keeps_temp_cursor; simpl; eauto.
  intros w1 w2 w3 H12 H23 t Ht.
  destruct (H12 t Ht) as (t2 & Ht2 & E2).
  destruct (H23 t2 Ht2) as (t3 & Ht3 & E3).
  exists t3. split; [exact Ht3 | congruence].
Qed.

(** Updates of an object other than [obj], and updates of [obj] that leave
    its cursor alone. *)
Ltac temp_cursor_leaf :=
  intros; unfold keeps_temp_cursor; simpl;
  repeat match goal with |- context [match ?b with _ => _ end] => destruct b end;
  simpl; eauto;
  let t := fresh "t" in let Ht := fresh "Ht" in
  intros t Ht;
  first
    [ rewrite lookup_alter; case_decide;
      [ subst; first [contradiction | rewrite Ht; simpl; eexists; split; reflexivity]
      | eauto ]
    | eauto ].

Lemma temp_start_keeps_cursor obj service :
  service <> obj -> preserves (keeps_temp_cursor obj) (Temp.start service).
Proof. intros Hne. frame_all temp_cursor_leaf. Qed.

Lemma new_service_run userDID userHandle follows w :
  Temp.new_service userDID userHandle follows w
  = (Ok (fresh (dom (heap w))),
     set_heap
       (<[fresh (dom (heap w)) :=
            {| t_userDID := userDID; t_userHandle := userHandle;
               t_follows := follows; t_ws := None; t_profileData := ∅;
               t_startTime := clock w; t_reconnectAttempts := 0;
               t_reconnectTimeout := None; t_shouldRun := true;
               t_lastCursor := None; t_initialCursor := None;
               t_lastHost := None; t_hasStopped := false |}]> (heap w)) w).
Proof. reflexivity. Qed.

(** A new object never takes the address of an existing one. *)
Lemma fresh_address_ne (h : gmap nat TemporaryJetstreamService) obj t :
  h !! obj = Some t -> fresh (dom h) <> obj.
Proof.
  intros Hobj Heq. apply (is_fresh (dom h)). rewrite Heq.
  apply elem_of_dom. eauto.
Qed.

#[local] Hint Resolve temp_start_keeps_cursor : frame.

(** Starting a stream for a user leaves the existing stream objects alone. *)
Lemma temp_startStreamForUser_keeps_cursor obj userDID follows :
  preserves (keeps_temp_cursor obj) (Temp.startStreamForUser userDID follows).
Proof.
  unfold Temp.startStreamForUser.
  apply preserves_bind; [apply _ | frame_all temp_cursor_leaf |]. intros userHandle.
  apply preserves_bind; [apply _ | frame_all temp_cursor_leaf |]. intros ignoredRows.
  cbv zeta. destruct (bool_decide _); [frame_all temp_cursor_leaf|].
  intros w t Ht.
  rewrite (bind_Ok _ _ _ _ _ (new_service_run _ _ _ _)).
  pose proof (fresh_address_ne _ _ _ Ht) as Hne.
  set (service := fresh (dom (heap w))) in *.
  match goal with |- context [(?rest ?w1).2] =>
    assert (Hrest : preserves (keeps_temp_cursor obj) rest)
      by frame_all temp_cursor_leaf;
    apply (Hrest w1)
  end.
  simpl. rewrite lookup_insert_ne by exact Hne. exact Ht.
Qed.

#[local] Hint Resolve temp_startStreamForUser_keeps_cursor : frame.

Lemma temp_stop_keeps_cursor obj obj' triggeredByManager :
  preserves (keeps_temp_cursor obj) (Temp.stop obj' triggeredByManager).
Proof. frame_all temp_cursor_leaf. Qed.

Lemma temp_dispatch_event_keeps_cursor obj obj' t event :
  preserves (keeps_temp_cursor obj) (Temp.dispatch_event obj' t event).
Proof. frame_all temp_cursor_leaf. Qed.

(** A temporary stream: the cursor moves to the time of the event (when that
    is not 0) before anything else happens, and whatever happens next, be it
    the stop of the stream, handlers that return or handlers that throw,
    leaves it there. *)
Lemma temp_processEvent_cursor obj t event w :
  heap w !! obj = Some t ->
  exists t',
    heap (Temp.processEvent obj event w).2 !! obj = Some t'
    /\ t_lastCursor t'
       = if bool_decide (ev_time_us event = 0) then t_lastCursor t
         else Some (ev_time_us event).
Proof.
  intros Ht. unfold Temp.processEvent, Temp.method, Temp.this.
  rewrite bind_gets, Ht.
  match goal with |- context [try_catch (bind ?m ?k) ?h] =>
    assert (Hk : forall u, preserves (keeps_temp_cursor obj) (k u))
      by (intros u; destruct (_ && _);
          [apply temp_stop_keeps_cursor | apply temp_dispatch_event_keeps_cursor]);
    assert (Hh : forall e, preserves (keeps_temp_cursor obj) (h e))
      by (intros e; apply preserves_emit; apply _);
    set (k0 := k) in *; set (h0 := h) in *
  end.
  assert (Hfirst : exists w1 t1,
    when (negb (bool_decide (ev_time_us event = 0)))
      (Temp.update obj (set_t_lastCursor (Some (ev_time_us event)))) w = (Ok tt, w1)
    /\ heap w1 !! obj = Some t1
    /\ t_lastCursor t1
       = if bool_decide (ev_time_us event = 0) then t_lastCursor t
         else Some (ev_time_us event)).
  { destruct (bool_decide (ev_time_us event = 0)); simpl.
    - exists w, t. auto.
    - eexists _, _. split; [reflexivity|]. simpl.
      rewrite lookup_alter, decide_True by reflexivity. rewrite Ht. simpl. auto. }
  destruct Hfirst as (w1 & t1 & Hrun & Ht1 & Hcur).
  unfold try_catch. rewrite (bind_Ok _ _ _ _ _ Hrun).
  pose proof (Hk tt w1 t1 Ht1) as (t2 & Ht2 & E2).
  destruct (k0 tt w1) as [[[]|err] w2]; simpl in *.
  - exists t2. split; [exact Ht2 | congruence].
  - destruct (Hh err w2 t2 Ht2) as (t3 & Ht3 & E3).
    exists t3. split; [exact Ht3 | congruence].
Qed.

(** A reconnect of the main stream asks the upstream to resume from the
    cursor the stream holds. *)
Lemma connect_resumes_from_cursor w c :
  currentDIDs (main w) <> [] -> lastCursor (main w) = Some c -> c <> 0 ->
  ws_cursor <$> ws (main (connect w).2) = Some (Some c).
Proof.
  intros Hdids Hc Hne. unfold connect, update_main.
  rewrite bind_modify, bind_gets. simpl.
  destruct (currentDIDs (main w)) as [|d ds]; [congruence|].
  rewrite bool_decide_eq_false_2 by discriminate.
  rewrite bind_gets. simpl. rewrite Hc, (bool_decide_eq_false_2 _ Hne).
  rewrite (bool_decide_eq_false_2 (Some c = None)) by discriminate.
  simpl. rewrite (bool_decide_eq_false_2 _ Hne). reflexivity.
Qed.




(** ** The cursor over a sequence of events *)

Lemma cursor_le_refl c : cursor_le c c.
Proof. destruct c; simpl; [lia | exact I]. Qed.

Lemma cursor_le_trans a b c : cursor_le a b -> cursor_le b c -> cursor_le a c.
Proof. destruct a, b, c; simpl; try tauto; lia. Qed.

Lemma ascending_weaken lo lo' ts :
  cursor_le lo' lo -> ascending lo ts -> ascending lo' ts.
Proof.
  destruct ts as [|t ts]; simpl; [auto|]. intros Hle [Hlo Hts].
  split; [exact (cursor_le_trans _ _ _ Hle Hlo) | exact Hts].
Qed.

(** After one event the main stream holds the cursor it had or the time of
    the event. *)
Lemma processEvent_cursor_cases event w :
  lastCursor (main (processEvent event w).2) = Some (ev_time_us event)
  \/ lastCursor (main (processEvent event w).2) = lastCursor (main w).
Proof.
  pose proof (processEvent_cursor event w) as H.
  destruct ((dispatch_event event w).1); auto.
Qed.

Lemma main_cursors_nondecreasing events w :
  ascending (lastCursor (main w)) (map ev_time_us events) ->
  nondecreasing (lastCursor (main w) :: main_cursors w events).
Proof.
  revert w. induction events as [|e es IH]; intros w Hasc; [exact I|].
  simpl in Hasc. destruct Hasc as [Hlo Hrest].
  change (cursor_le (lastCursor (main w)) (lastCursor (main (processEvent e w).2))
          /\ nondecreasing (lastCursor (main (processEvent e w).2)
                            :: main_cursors (processEvent e w).2 es)).
  destruct (processEvent_cursor_cases e w) as [E | E].
  - split; [rewrite E; exact Hlo|]. apply IH. rewrite E. exact Hrest.
  - split; [rewrite E; apply cursor_le_refl|]. apply IH. rewrite E.
    exact (ascending_weaken _ _ _ Hlo Hrest).
Qed.

Lemma temp_cursors_nondecreasing obj events w t :
  heap w !! obj = Some t ->
  ascending (t_lastCursor t) (map ev_time_us events) ->
  nondecreasing (t_lastCursor t :: temp_cursors obj w events).
Proof.
  revert w t. induction events as [|e es IH]; intros w t Ht Hasc; [exact I|].
  simpl in Hasc. destruct Hasc as [Hlo Hrest].
  destruct (temp_processEvent_cursor obj t e w Ht) as (t' & Ht' & Hcur).
  change (cursor_le (t_lastCursor t)
            (heap (Temp.processEvent obj e w).2 !! obj ≫= t_lastCursor)
          /\ nondecreasing ((heap (Temp.processEvent obj e w).2 !! obj ≫= t_lastCursor)
                            :: temp_cursors obj (Temp.processEvent obj e w).2 es)).
  rewrite Ht'. simpl.
  destruct (bool_decide (ev_time_us e = 0)).
  - split; [rewrite Hcur; apply cursor_le_refl|]. apply (IH _ _ Ht').
    rewrite Hcur. exact (ascending_weaken _ _ _ Hlo Hrest).
  - split; [rewrite Hcur; exact Hlo|]. apply (IH _ _ Ht'). rewrite Hcur.
    exact Hrest.
Qed.

(** X28. Calls of [processEvent] that do not overlap: when the events of a
    stream are processed one after the other, each call to its end, and
    arrive with ascending [time_us], none below the cursor the stream holds,
    the cursor of the stream is non-decreasing over the sequence, for the
    main stream and for every temporary stream. *)
Theorem lastCursor_nondecreasing events w :
  (ascending (lastCursor (main w)) (map ev_time_us events) ->
   nondecreasing (lastCursor (main w) :: main_cursors w events))
  /\ (forall obj t,
        heap w !! obj = Some t ->
        ascending (t_lastCursor t) (map ev_time_us events) ->
        nondecreasing (t_lastCursor t :: temp_cursors obj w events)).
Proof.
  split.
  - apply main_cursors_nondecreasing.
  - intros obj t. apply temp_cursors_nondecreasing.
Qed.

(** Witness of X28: two events in order on the connected main stream. *)
Lemma lastCursor_nondecreasing_witness :
  nondecreasing
    (lastCursor (main world_connected)
     :: main_cursors world_connected
          [identity_event 1700000000000000; other_event 1700000000000005]).
Proof.
  apply (proj1 (lastCursor_nondecreasing
                  [identity_event 1700000000000000; other_event 1700000000000005]
                  world_connected)).
  simpl. lia.
Defined.

(** Two events that arrive out of order move the cursor of the main stream
    back: the cursor is assigned, not compared. *)
Lemma main_cursor_decreases :
  main_cursors world_connected
    [other_event 1700000000000010; other_event 1700000000000005]
  = [Some 1700000000000010; Some 1700000000000005]
  /\ ~ nondecreasing
         (main_cursors world_connected
            [other_event 1700000000000010; other_event 1700000000000005]).
Proof.
  assert (E : main_cursors world_connected
                [other_event 1700000000000010; other_event 1700000000000005]
              = [Some 1700000000000010; Some 1700000000000005])
    by (vm_compute; reflexivity).
  split; [exact E|]. rewrite E. simpl. lia.
Qed.

(** *** Frames whose calls overlap *)

(** [processEvent] is its first statement and the rest of the call. *)
Lemma processEvent_cut event w :
  processEvent event w
  = (hadValidCursor <- isRunningWithCursor ;;
     processEvent_resumed event hadValidCursor) w.
Proof. reflexivity. Qed.

(** The rest of the call assigns the cursor like the whole call. *)
Lemma processEvent_resumed_cursor event had w :
  match (dispatch_event event w).1 with
  | Ok _ =>
      lastCursor (main (processEvent_resumed event had w).2)
      = Some (ev_time_us event)
  | Throw _ =>
      lastCursor (main (processEvent_resumed event had w).2) = lastCursor (main w)
  end.
Proof.
  unfold processEvent_resumed, try_catch. cbv zeta.
  pose proof (dispatch_event_keeps_cursor event w) as (Hkeep & _).
  destruct (dispatch_event event w) as [[[]|err] w1] eqn:E; simpl.
  - rewrite (bind_Ok _ _ _ _ _ E).
    unfold update_main at 1. rewrite bind_modify.
    match goal with |- context [match ?m ?x with _ => _ end] =>
      assert (Hrest : preserves keeps_lastCursor m) by frame_all lastCursor_leaf;
      specialize (Hrest x); destruct (m x) as [[[]|err] w2]
    end; simpl in *; exact Hrest.
  - rewrite (bind_Throw _ _ _ _ _ E). simpl in *. exact Hkeep.
Qed.

(** An event of a kind that no handler takes has no handler to wait for. *)
Lemma dispatch_event_other_kind event w :
  ev_kind event <> "identity" -> ev_kind event <> "commit" ->
  dispatch_event event w = (Ok tt, w).
Proof.
  intros Hi Hc. unfold dispatch_event.
  rewrite (bool_decide_eq_false_2 _ Hi), (bool_decide_eq_false_2 _ Hc).
  reflexivity.
Qed.

(** C8 (the code diverges). Two frames arrive one after the other, the
    earlier event first. The call of [processEvent] for the first frame is
    waiting for its handlers when the second frame arrives, whose event is of
    a kind that no handler takes: the second call sets the cursor to the
    time of the second event at once, and the first call, when its handlers
    have returned, sets it to the time of the first event. The cursor of the
    main stream has moved back although the events arrived in order. *)
Theorem main_cursor_moves_back first second w :
  ev_kind second <> "identity" -> ev_kind second <> "commit" ->
  ev_time_us first < ev_time_us second ->
  let w1 := (on_message (Some second) w).2 in
  (dispatch_event first w1).1 = Ok tt ->
  let w2 := (two_frames_overlap first second w).2 in
  lastCursor (main w1) = Some (ev_time_us second)
  /\ lastCursor (main w2) = Some (ev_time_us first)
  /\ ~ cursor_le (lastCursor (main w1)) (lastCursor (main w2)).
Proof.
  intros Hi Hc Hlt w1 Hret w2.
  assert (H1 : lastCursor (main w1) = Some (ev_time_us second)).
  { subst w1. simpl.
    pose proof (processEvent_cursor second w) as H.
    rewrite (dispatch_event_other_kind second w Hi Hc) in H. exact H. }
  assert (H2 : lastCursor (main w2) = Some (ev_time_us first)).
  { subst w2. unfold two_frames_overlap.
    destruct (isRunningWithCursor_run w) as [had Hhad].
    rewrite (bind_Ok _ _ _ _ _ Hhad).
    assert (Hmsg : exists res, on_message (Some second) w = (res, w1))
      by (eexists; apply surjective_pairing).
    destruct Hmsg as [res Hmsg].
    assert (Hres : res = Ok tt).
    { pose proof (f_equal fst Hmsg) as Hfst. simpl in Hfst. rewrite <- Hfst.
      unfold processEvent, try_catch.
      match goal with |- context [match ?m ?x with _ => _ end] =>
        destruct (m x) as [[[]|err] wx]
      end; reflexivity. }
    subst res. rewrite (bind_Ok _ _ _ _ _ Hmsg).
    pose proof (processEvent_resumed_cursor first had w1) as H.
    rewrite Hret in H. exact H. }
  split; [exact H1|]. split; [exact H2|]. rewrite H1, H2. simpl. lia.
Qed.

(** Witness of C8: on the connected main stream an identity event of alice,
    whose handler waits for the database, and one microsecond-stamped event
    of another kind that arrives behind it. *)
Lemma main_cursor_moves_back_witness :
  let first := identity_event 1700000000000000 in
  let second := other_event 1700000000000005 in
  lastCursor (main (on_message (Some second) world_connected).2)
  = Some 1700000000000005
  /\ lastCursor (main (two_frames_overlap first second world_connected).2)
     = Some 1700000000000000.
Proof.
  intros first second.
  destruct (main_cursor_moves_back first second world_connected)
    as (H1 & H2 & _);
    [discriminate | discriminate | reflexivity | vm_compute; reflexivity |].
  split; [exact H1 | exact H2].
Defined.

(** ** The pool of temporary streams (TemporaryJetstreamManager) *)

(** C6 (what the code does). With the pool full (50 of 50) and two requests
    waiting, the first of which has only an ignored DID to follow, stopping
    one stream promotes that first request, which starts no stream; the
    manager is then left with 49 active streams, below the maximum of 50,
    and a request still waiting in the queue. *)
Theorem queue_waits_below_capacity :
  let w := exec_all world0 pool_full_two_waiting in
  let w' := exec w (TempStopForUser (user_did 0)) in
  (active_count w = 50 /\ map q_userDID (queue (mgr w)) = [user_did 50; user_did 51])
  /\ maxConcurrentTempStreams w' = 50
  /\ active_count w' = 49
  /\ map q_userDID (queue (mgr w')) = [user_did 51]
  /\ ~ queue_only_when_full w'.
Proof.
  intros w w'.
  assert (E0 : active_count w = 50) by (vm_compute; reflexivity).
  assert (Q0 : map q_userDID (queue (mgr w)) = [user_did 50; user_did 51])
    by (vm_compute; reflexivity).
  assert (E1 : active_count w' = 49) by (vm_compute; reflexivity).
  assert (E2 : maxConcurrentTempStreams w' = 50) by (vm_compute; reflexivity).
  assert (E3 : map q_userDID (queue (mgr w')) = [user_did 51])
    by (vm_compute; reflexivity).
  clearbody w w'.
  split; [split; assumption|]. split; [exact E2|]. split; [exact E1|].
  split; [exact E3|].
  unfold queue_only_when_full. intros H.
  assert (Hq : queue (mgr w') <> []).
  { intros Hnil. rewrite Hnil in E3. discriminate. }
  specialize (H Hq). rewrite E1, E2 in H. discriminate.
Qed.

(** *** The pool never exceeds its capacity *)

#[local] Instance pool_shrinks_frame : Frame pool_shrinks.
Proof.
  split; unfold pool_shrinks, active_count; simpl; try (intros; split; [reflexivity | lia]).
  - intros w1 w2 w3 [H1 H2] [H3 H4]. split; [congruence | lia].
  - intros w w' [H1 H2]. split; assumption.
Qed.

#[local] Instance keeps_within_capacity_frame : Frame keeps_within_capacity.
Proof.
  split; unfold keeps_within_capacity, within_capacity, active_count; simpl;
    try (intros; split; [reflexivity | tauto]).
  - intros w1 w2 w3 [H1 H2] [H3 H4]. split; [congruence | tauto].
  - intros w w' [H1 H2]. split; assumption.
Qed.

Lemma size_delete_le (m : gmap string nat) k :
  Z.of_nat (size (delete k m)) <= Z.of_nat (size m).
Proof. rewrite map_size_delete. destruct (m !! k); simpl; lia. Qed.

Lemma size_insert_le (m : gmap string nat) k v :
  Z.of_nat (size (<[k := v]> m)) <= Z.of_nat (size m) + 1.
Proof. rewrite map_size_insert. destruct (m !! k); simpl; lia. Qed.

Ltac shrinks_leaf :=
  intros; unfold pool_shrinks, active_count; simpl;
  repeat match goal with |- context [match ?b with _ => _ end] => destruct b end;
  simpl; split; first [reflexivity | apply size_delete_le | lia].

Lemma pool_shrinks_grows w w' : pool_shrinks w w' -> pool_grows_by_one w w'.
Proof. intros [H1 H2]. split; [exact H1 | lia]. Qed.

Lemma pool_shrinks_keeps w w' : pool_shrinks w w' -> keeps_within_capacity w w'.
Proof.
  intros [H1 H2]. split; [exact H1|]. unfold within_capacity. rewrite H1. lia.
Qed.

Lemma bind_shrinks_then_grows {A B} (m : M A) (k : A -> M B) :
  preserves pool_shrinks m -> (forall a, preserves pool_grows_by_one (k a)) ->
  preserves pool_grows_by_one (bind m k).
Proof.
  intros Hm Hk w. unfold bind. specialize (Hm w).
  destruct (m w) as [[a|e] w1]; simpl in *.
  - destruct Hm as [H1 H2]. destruct (Hk a w1) as [H3 H4].
    split; [congruence | lia].
  - apply pool_shrinks_grows. exact Hm.
Qed.

Lemma bind_grows_then_shrinks {A B} (m : M A) (k : A -> M B) :
  preserves pool_grows_by_one m -> (forall a, preserves pool_shrinks (k a)) ->
  preserves pool_grows_by_one (bind m k).
Proof.
  intros Hm Hk w. unfold bind. specialize (Hm w).
  destruct (m w) as [[a|e] w1]; simpl in *; [|exact Hm].
  destruct Hm as [H1 H2]. destruct (Hk a w1) as [H3 H4].
  split; [congruence | lia].
Qed.

(** [startStreamForUser] adds at most one stream to the pool. *)
Lemma startStreamForUser_grows_by_one userDID follows :
  preserves pool_grows_by_one (Temp.startStreamForUser userDID follows).
Proof.
  unfold Temp.startStreamForUser.
  apply bind_shrinks_then_grows; [frame_all shrinks_leaf|]. intros userHandle.
  apply bind_shrinks_then_grows; [frame_all shrinks_leaf|]. intros ignoredRows.
  cbv zeta. destruct (bool_decide _).
  - intros w. apply pool_shrinks_grows. revert w.
    change (preserves pool_shrinks
              (withDBRetry (markBackfillStarted userDID) "Marking backfill started" ;;
               withDBRetry (markBackfillCompleted userDID) "Marking backfill completed" ;;
               triggerMonitoringStatusBroadcast)).
    frame_all shrinks_leaf.
  - apply bind_shrinks_then_grows; [frame_all shrinks_leaf|]. intros service.
    apply bind_grows_then_shrinks.
    + intros w. unfold Temp.update_mgr, modify, pool_grows_by_one, active_count.
      simpl. split; [reflexivity | apply size_insert_le].
    + intros _. frame_all shrinks_leaf.
Qed.

Lemma at_capacity_run w :
  Temp.at_capacity w
  = (Ok (maxConcurrentTempStreams w <=? active_count w), w).
Proof. reflexivity. Qed.

(** Below capacity, one more stream still fits. *)
Lemma grows_below_capacity w w' :
  (maxConcurrentTempStreams w <=? active_count w) = false ->
  pool_grows_by_one w w' -> keeps_within_capacity w w'.
Proof.
  intros Hfull [H1 H2]. apply Z.leb_gt in Hfull.
  split; [exact H1|]. unfold within_capacity. rewrite H1. lia.
Qed.

Lemma startForUser_keeps_within_capacity userDID follows :
  preserves keeps_within_capacity (Temp.startForUser userDID follows).
Proof.
  intros w. unfold Temp.startForUser. rewrite bind_gets.
  destruct (bool_decide _); [apply frame_refl|].
  rewrite (bind_Ok _ _ _ _ _ (at_capacity_run w)).
  destruct (maxConcurrentTempStreams w <=? active_count w) eqn:Hfull.
  - apply pool_shrinks_keeps. revert w Hfull. intros w _.
    match goal with |- pool_shrinks w (?m w).2 =>
      assert (H : preserves pool_shrinks m) by frame_all shrinks_leaf; apply H
    end.
  - apply (grows_below_capacity _ _ Hfull).
    pose proof (startStreamForUser_grows_by_one userDID follows w) as H.
    unfold bind. destruct (Temp.startStreamForUser userDID follows w) as [[[]|e] w1];
      exact H.
Qed.

Lemma processQueue_keeps_within_capacity :
  preserves keeps_within_capacity Temp.processQueue.
Proof.
  intros w. unfold Temp.processQueue. rewrite bind_gets.
  destruct (bool_decide _); [apply frame_refl|].
  rewrite (bind_Ok _ _ _ _ _ (at_capacity_run w)).
  destruct (maxConcurrentTempStreams w <=? active_count w) eqn:Hfull;
    [apply frame_refl|].
  destruct (queue (mgr w)) as [|next rest]; [apply frame_refl|].
  apply (grows_below_capacity _ _ Hfull).
  match goal with |- pool_grows_by_one w (?m w).2 =>
    assert (H : preserves pool_grows_by_one m); [|apply H]
  end.
  apply bind_shrinks_then_grows; [frame_all shrinks_leaf|]. intros _.
  apply bind_shrinks_then_grows; [frame_all shrinks_leaf|]. intros _.
  intros w0. unfold try_catch.
  pose proof (startStreamForUser_grows_by_one (q_userDID next) (q_follows next)
                w0) as H.
  unfold bind.
  destruct (Temp.startStreamForUser (q_userDID next) (q_follows next) w0)
    as [[[]|e] w1]; simpl in *; exact H.
Qed.

#[local] Hint Resolve startForUser_keeps_within_capacity
  processQueue_keeps_within_capacity : frame.

Ltac capacity_leaf :=
  intros; unfold keeps_within_capacity, within_capacity, active_count; simpl;
  repeat match goal with |- context [match ?b with _ => _ end] => destruct b end;
  simpl; split; first [reflexivity | tauto |
    intros; eapply Z.le_trans; [apply size_delete_le | assumption]].

(** Every action keeps the pool within its capacity. *)
Lemma run_keeps_within_capacity a : preserves keeps_within_capacity (run a).
Proof. destruct a; unfold run; frame_all capacity_leaf. Qed.

(** In every state reached from one in which the pool is within its
    capacity, the number of active temporary streams is at most the
    configured maximum. *)
Lemma active_streams_within_capacity w actions :
  within_capacity w ->
  within_capacity (exec_all w actions)
  /\ maxConcurrentTempStreams (exec_all w actions) = maxConcurrentTempStreams w.
Proof.
  revert w. induction actions as [|a actions IH]; intros w Hw; simpl; [auto|].
  destruct (run_keeps_within_capacity a w) as [Hmax Hcap].
  destruct (IH (exec w a) (Hcap Hw)) as [H1 H2].
  split; [exact H1 | unfold exec in *; congruence].
Qed.

(** ** Scenarios S1 and S2 of the specification

    A handle change of a followed account arrives on the live main stream:
    one change row of type [handle] is stored, with the old handle taken from
    the resolver chain; replaying the frame stores nothing more. *)
Example scenario_handle_change_then_replay :
  let frame := MainMessage (Some (identity_event 1700000000000000)) in
  profile_changes (db (exec_all world_connected [frame]))
  = [ {| pc_id := 1; pc_did := "did:plc:alice";
         pc_handle := Some "new.alice.example";
         pc_old_handle := Some "alice.example";
         pc_new_handle := Some "new.alice.example";
         pc_old_display_name := None; pc_new_display_name := None;
         pc_old_avatar := None; pc_new_avatar := None;
         pc_change_type := CT_handle; pc_changed_at := 1700000000000;
         pc_created_at := 1700000000000 |} ]
  /\ profile_changes (db (exec_all world_connected [frame; frame]))
     = profile_changes (db (exec_all world_connected [frame])).
Proof. split; vm_compute; reflexivity. Qed.


(** ** Settings (db.ts, saveSetting and loadSetting) *)

Lemma setting_after_save key value key' rows :
  snd <$> head (List.filter (fun kv : string * Setting => bool_decide (kv.1 = key'))
                  (if existsb (fun kv => bool_decide (kv.1 = key)) rows
                   then map (fun kv => if bool_decide (kv.1 = key)
                                       then (key, value) else kv) rows
                   else rows ++ [(key, value)]))
  = if bool_decide (key' = key) then Some value
    else snd <$> head (List.filter (fun kv => bool_decide (kv.1 = key')) rows).
Proof.
  assert (Hmap : forall rows : list (string * Setting),
    snd <$> head (List.filter (fun kv => bool_decide (kv.1 = key'))
                    (map (fun kv => if bool_decide (kv.1 = key)
                                    then (key, value) else kv) rows))
    = if bool_decide (key' = key)
      then (if existsb (fun kv => bool_decide (kv.1 = key)) rows
            then Some value else None)
      else snd <$> head (List.filter (fun kv => bool_decide (kv.1 = key')) rows)).
  { clear rows. induction rows as [|[k v] rows IH]; simpl.
    - destruct (bool_decide (key' = key)); reflexivity.
    - repeat case_bool_decide; simpl in *; subst; try congruence;
        repeat case_bool_decide; simpl; try congruence.
      all: rewrite IH; repeat case_bool_decide; try congruence; reflexivity. }
  assert (Happ : forall rows : list (string * Setting),
    existsb (fun kv => bool_decide (kv.1 = key)) rows = false ->
    snd <$> head (List.filter (fun kv => bool_decide (kv.1 = key'))
                    (rows ++ [(key, value)]))
    = if bool_decide (key' = key) then Some value
      else snd <$> head (List.filter (fun kv => bool_decide (kv.1 = key')) rows)).
  { clear rows Hmap. induction rows as [|[k v] rows IH]; simpl; intros Hex.
    - repeat case_bool_decide; simpl; congruence.
    - apply orb_false_iff in Hex as [Hk Hex]. specialize (IH Hex).
      repeat case_bool_decide; simpl in *; subst; try congruence. }
  destruct (existsb _ rows) eqn:Ex.
  - rewrite Hmap, Ex. reflexivity.
  - apply Happ. exact Ex.
Qed.

Lemma loadSetting_run key w :
  faults w = [] ->
  loadSetting key w
  = (Ok (snd <$> head (List.filter (fun kv => bool_decide (kv.1 = key))
                         (system_settings (db w)))), w).
Proof.
  intros Hf. unfold loadSetting.
  rewrite (bind_Ok _ _ _ _ _ (pool_query_Ok _ w Hf)). simpl.
  rewrite set_db_id. reflexivity.
Qed.

(** X1. When the database answers, [saveSetting] returns, a following
    [loadSetting] of the same key returns the value that was saved (whether
    the key was new or already stored), and the value of every other key is
    what it was before. *)
Theorem saveSetting_then_loadSetting key value w :
  faults w = [] ->
  let w1 := (saveSetting key value w).2 in
  (saveSetting key value w).1 = Ok tt
  /\ loadSetting key w1 = (Ok (Some value), w1)
  /\ forall key', key' <> key -> (loadSetting key' w1).1 = (loadSetting key' w).1.
Proof.
  intros Hf w1.
  assert (Hrun : saveSetting key value w
                 = (Ok tt,
                    set_db (set_system_settings
                              (if existsb (fun kv => bool_decide (kv.1 = key))
                                    (system_settings (db w))
                               then map (fun kv => if bool_decide (kv.1 = key)
                                                   then (key, value) else kv)
                                      (system_settings (db w))
                               else system_settings (db w) ++ [(key, value)])
                              (db w)) w)).
  { unfold saveSetting. rewrite (pool_query_Ok _ w Hf). reflexivity. }
  subst w1. rewrite Hrun. simpl. split; [reflexivity|]. split.
  - rewrite loadSetting_run by exact Hf. simpl.
    rewrite setting_after_save, bool_decide_eq_true_2 by reflexivity. reflexivity.
  - intros key' Hne. rewrite !loadSetting_run by exact Hf. simpl.
    rewrite setting_after_save, bool_decide_eq_false_2 by exact Hne. reflexivity.
Qed.

Lemma saveSetting_then_loadSetting_witness :
  loadSetting "jetstream_stop_cursor"
    (saveSetting "jetstream_stop_cursor" (SettingNum 1699999999000000) world0).2
  = (Ok (Some (SettingNum 1699999999000000)),
     (saveSetting "jetstream_stop_cursor" (SettingNum 1699999999000000) world0).2).
Proof.
  exact (proj1 (proj2 (saveSetting_then_loadSetting "jetstream_stop_cursor"
                         (SettingNum 1699999999000000) world0 eq_refl))).
Defined.

(** ** Backfill markers (db.ts) *)

Lemma getBackfillState_run userDID w :
  faults w = [] ->
  getBackfillState userDID w
  = (Ok (head (List.filter (fun r => bool_decide (bs_user_did r = userDID))
                 (monitoring_backfill_state (db w)))), w).
Proof.
  intros Hf. unfold getBackfillState.
  rewrite (bind_Ok _ _ _ _ _ (pool_query_Ok _ w Hf)). simpl.
  rewrite set_db_id. reflexivity.
Qed.

(** The row of a user after an upsert that rewrites the rows of [userDID]
    with [f] and adds [fresh] when there is none. *)
Lemma backfill_state_after_upsert userDID u (f : BackfillStateRow -> BackfillStateRow)
    fresh rows :
  (forall r, bs_user_did (f r) = userDID) -> bs_user_did fresh = userDID ->
  head (List.filter (fun r => bool_decide (bs_user_did r = u))
          (if existsb (fun r => bool_decide (bs_user_did r = userDID)) rows
           then map (fun r => if bool_decide (bs_user_did r = userDID)
                              then f r else r) rows
           else rows ++ [fresh]))
  = if bool_decide (u = userDID)
    then match head (List.filter (fun r => bool_decide (bs_user_did r = userDID)) rows)
         with
         | Some r => Some (f r)
         | None => Some fresh
         end
    else head (List.filter (fun r => bool_decide (bs_user_did r = u)) rows).
Proof.
  intros Hf Hfresh.
  assert (Hmap : forall rows : list BackfillStateRow,
    head (List.filter (fun r => bool_decide (bs_user_did r = u))
            (map (fun r => if bool_decide (bs_user_did r = userDID)
                           then f r else r) rows))
    = if bool_decide (u = userDID)
      then f <$> head (List.filter (fun r => bool_decide (bs_user_did r = userDID)) rows)
      else head (List.filter (fun r => bool_decide (bs_user_did r = u)) rows)).
  { clear rows. induction rows as [|r rows IH]; simpl.
    - destruct (bool_decide (u = userDID)); reflexivity.
    - pose proof (Hf r) as Hfr.
      repeat case_bool_decide; simpl in *; subst; try congruence;
        repeat case_bool_decide; simpl; try congruence. }
  assert (Hnone : forall rows : list BackfillStateRow,
    existsb (fun r => bool_decide (bs_user_did r = userDID)) rows = false ->
    List.filter (fun r => bool_decide (bs_user_did r = userDID)) rows = []).
  { clear. induction rows as [|r rows IH]; simpl; intros Hex; [reflexivity|].
    apply orb_false_iff in Hex as [-> Hex]. auto. }
  assert (Hsome : forall rows : list BackfillStateRow,
    existsb (fun r => bool_decide (bs_user_did r = userDID)) rows = true ->
    exists r, head (List.filter (fun r => bool_decide (bs_user_did r = userDID)) rows)
              = Some r).
  { clear. induction rows as [|r rows IH]; simpl; intros Hex; [discriminate|].
    destruct (bool_decide (bs_user_did r = userDID)); simpl in *; eauto. }
  destruct (existsb _ rows) eqn:Ex.
  - rewrite Hmap. destruct (bool_decide (u = userDID)); [|reflexivity].
    destruct (Hsome rows Ex) as [r ->]. reflexivity.
  - rewrite List.filter_app. simpl. rewrite Hfresh.
    destruct (bool_decide_reflect (u = userDID)) as [->|Hu].
    + rewrite (Hnone rows Ex), bool_decide_eq_true_2 by reflexivity. reflexivity.
    + rewrite bool_decide_eq_false_2 by congruence.
      rewrite app_nil_r. reflexivity.
Qed.

(** X2. When the database answers, [markBackfillStarted] leaves the user with
    a state row whose start is the current time and whose completion is
    cleared, and [markBackfillCompleted] leaves the user with a row whose
    completion is the current time and whose start is the one stored before
    (none for a user that had no row). Neither changes what
    [getBackfillState] answers for another user. *)
Theorem backfill_markers_round_trip userDID w :
  faults w = [] ->
  let w1 := (markBackfillStarted userDID w).2 in
  let w2 := (markBackfillCompleted userDID w).2 in
  (exists row,
     getBackfillState userDID w1 = (Ok (Some row), w1)
     /\ bs_last_started_at row = Some (clock w)
     /\ bs_last_completed_at row = None)
  /\ (exists row old,
        getBackfillState userDID w2 = (Ok (Some row), w2)
        /\ getBackfillState userDID w = (Ok old, w)
        /\ bs_last_completed_at row = Some (clock w)
        /\ bs_last_started_at row = old ≫= bs_last_started_at)
  /\ (forall u, u <> userDID ->
        (getBackfillState u w1).1 = (getBackfillState u w).1
        /\ (getBackfillState u w2).1 = (getBackfillState u w).1).
Proof.
  intros Hf w1 w2.
  assert (Hf1 : faults w1 = []).
  { subst w1. unfold markBackfillStarted, Date_now.
    rewrite bind_gets, (pool_query_Ok _ w Hf). exact Hf. }
  assert (Hf2 : faults w2 = []).
  { subst w2. unfold markBackfillCompleted, Date_now.
    rewrite bind_gets, (pool_query_Ok _ w Hf). exact Hf. }
  assert (Hs : forall u,
    head (List.filter (fun r => bool_decide (bs_user_did r = u))
            (monitoring_backfill_state (db w1)))
    = if bool_decide (u = userDID)
      then Some {| bs_user_did := userDID; bs_last_started_at := Some (clock w);
                   bs_last_completed_at := None; bs_updated_at := clock w |}
      else head (List.filter (fun r => bool_decide (bs_user_did r = u))
                   (monitoring_backfill_state (db w)))).
  { intros u. subst w1. unfold markBackfillStarted, Date_now.
    rewrite bind_gets, (pool_query_Ok _ w Hf). simpl.
    rewrite (backfill_state_after_upsert userDID u (fun _ => _)) by reflexivity.
    destruct (head _); reflexivity. }
  assert (Hc : forall u,
    head (List.filter (fun r => bool_decide (bs_user_did r = u))
            (monitoring_backfill_state (db w2)))
    = if bool_decide (u = userDID)
      then Some {| bs_user_did := userDID;
                   bs_last_started_at :=
                     head (List.filter (fun r => bool_decide (bs_user_did r = userDID))
                             (monitoring_backfill_state (db w)))
                     ≫= bs_last_started_at;
                   bs_last_completed_at := Some (clock w);
                   bs_updated_at := clock w |}
      else head (List.filter (fun r => bool_decide (bs_user_did r = u))
                   (monitoring_backfill_state (db w)))).
  { intros u. subst w2. unfold markBackfillCompleted, Date_now.
    rewrite bind_gets, (pool_query_Ok _ w Hf). simpl.
    rewrite (backfill_state_after_upsert userDID u
               (fun r => {| bs_user_did := userDID;
                            bs_last_started_at := bs_last_started_at r;
                            bs_last_completed_at := Some (clock w);
                            bs_updated_at := clock w |})) by reflexivity.
    destruct (head _); reflexivity. }
  split; [|split].
  - eexists. rewrite (getBackfillState_run _ _ Hf1), Hs.
    rewrite bool_decide_eq_true_2 by reflexivity. repeat split.
  - eexists _, _. rewrite (getBackfillState_run _ _ Hf2), Hc.
    rewrite bool_decide_eq_true_2 by reflexivity.
    rewrite (getBackfillState_run _ _ Hf). repeat split.
  - intros u Hu.
    rewrite (getBackfillState_run _ _ Hf1), (getBackfillState_run _ _ Hf2),
      (getBackfillState_run _ _ Hf), Hs, Hc.
    rewrite bool_decide_eq_false_2 by exact Hu. split; reflexivity.
Qed.

Lemma backfill_markers_round_trip_witness :
  exists row,
    getBackfillState "did:plc:user" (markBackfillStarted "did:plc:user" world0).2
    = (Ok (Some row), (markBackfillStarted "did:plc:user" world0).2)
    /\ bs_last_started_at row = Some 1700000000000
    /\ bs_last_completed_at row = None.
Proof.
  exact (proj1 (backfill_markers_round_trip "did:plc:user" world0 eq_refl)).
Defined.

(** ** The bulk upsert of monitored follows (db.ts, addMonitoredFollows) *)


Lemma find_in_upsert userDID follow now rows u did :
  find_in (upsert_follow userDID follow now rows) u did
  = if bool_decide (u = userDID) && bool_decide (did = f_did follow)
    then Some (upserted_row userDID follow now (find_in rows userDID (f_did follow)))
    else find_in rows u did.
Proof.
  unfold find_in, upserted_row. induction rows as [|r rows IH]; simpl.
  - destruct (or_undefined (f_rkey follow));
      repeat case_bool_decide; simpl; subst; try congruence; reflexivity.
  - destruct (bool_decide_reflect (mf_user_did r = userDID)) as [Hu|Hu];
      destruct (bool_decide_reflect (mf_follow_did r = f_did follow)) as [Hd|Hd];
      destruct (bool_decide_reflect (u = userDID)) as [Hu'|Hu'];
      destruct (bool_decide_reflect (did = f_did follow)) as [Hd'|Hd'];
      simpl; subst; simpl in *;
      repeat first
        [ rewrite bool_decide_eq_true_2 by congruence
        | rewrite bool_decide_eq_false_2 by congruence
        | rewrite IH
        | progress simpl ];
      try reflexivity; try congruence.
  all: repeat (match goal with
               | |- context [bool_decide ?P] => destruct (bool_decide_reflect P)
               end; simpl);
    repeat first
      [ rewrite bool_decide_eq_true_2 by congruence
      | rewrite bool_decide_eq_false_2 by congruence
      | rewrite IH
      | progress simpl ];
    try reflexivity; try congruence.
Qed.

Lemma find_in_bulk_upsert userDID now follows : forall rows,
  NoDup (map f_did follows) ->
  (forall f, In f follows ->
     find_in (fold_left (fun rows f => upsert_follow userDID f now rows) follows rows)
       userDID (f_did f)
     = Some (upserted_row userDID f now (find_in rows userDID (f_did f))))
  /\ (forall u did, u <> userDID \/ did ∉ map f_did follows ->
        find_in (fold_left (fun rows f => upsert_follow userDID f now rows) follows rows)
          u did
        = find_in rows u did).
Proof.
  induction follows as [|f0 fs IH]; intros rows Hnd; simpl.
  - split; [intros f [] | reflexivity].
  - simpl in Hnd. apply NoDup_cons in Hnd as [Hf0 Hnd].
    destruct (IH (upsert_follow userDID f0 now rows) Hnd) as [IH1 IH2]. split.
    + intros f [<- | Hf].
      * rewrite IH2 by (right; exact Hf0).
        rewrite find_in_upsert, !bool_decide_eq_true_2 by reflexivity. reflexivity.
      * rewrite (IH1 f Hf). f_equal. f_equal.
        rewrite find_in_upsert.
        rewrite (bool_decide_eq_false_2 (f_did f = f_did f0)).
        { rewrite andb_false_r. reflexivity. }
        intros Heq. apply Hf0. rewrite <- Heq.
        apply list_elem_of_In. apply in_map. exact Hf.
    + intros u did Hcond. rewrite IH2.
      * rewrite find_in_upsert.
        destruct (bool_decide_reflect (u = userDID)) as [->|Hu]; [|reflexivity].
        rewrite bool_decide_eq_false_2; [reflexivity|].
        intros ->. destruct Hcond as [Hc|Hc]; [congruence|].
        apply Hc. left.
      * destruct Hcond as [Hc|Hc]; [left; exact Hc|].
        right. intros Hin. apply Hc. right. exact Hin.
Qed.

(** X3. When the database answers and the list names no DID twice,
    [addMonitoredFollows] returns and stores each follow of the list for the
    user: the row for it carries the handle of the list, the rkey of the list
    when it has a non-empty one and otherwise the rkey that was stored for
    the pair, and the time the pair was first added. The row of every other
    pair of user and followed DID is what it was. *)
Theorem addMonitoredFollows_upsert userDID follows w :
  faults w = [] -> NoDup (map f_did follows) ->
  let w1 := (addMonitoredFollows userDID follows w).2 in
  (addMonitoredFollows userDID follows w).1 = Ok tt
  /\ (forall f, In f follows ->
        find_follow (db w1) userDID (f_did f)
        = Some {| mf_user_did := userDID; mf_follow_did := f_did f;
                  mf_follow_handle := Some (f_handle f);
                  mf_rkey := match or_undefined (f_rkey f) with
                             | Some k => Some k
                             | None => find_follow (db w) userDID (f_did f) ≫= mf_rkey
                             end;
                  mf_added_at := match find_follow (db w) userDID (f_did f) with
                                 | Some r => mf_added_at r
                                 | None => clock w
                                 end |})
  /\ (forall u did, u <> userDID \/ did ∉ map f_did follows ->
        find_follow (db w1) u did = find_follow (db w) u did).
Proof.
  intros Hf Hnd w1.
  destruct follows as [|f0 fs].
  { subst w1. split; [reflexivity|]. split; [intros f [] | reflexivity]. }
  assert (Hrun : addMonitoredFollows userDID (f0 :: fs) w
                 = (Ok tt,
                    set_db (set_monitored_follows
                              (fold_left (fun rows f => upsert_follow userDID f (clock w) rows)
                                 (f0 :: fs) (monitored_follows (db w))) (db w)) w)).
  { unfold addMonitoredFollows, transaction, when, Date_now.
    replace (0 <? Z.of_nat (length (f0 :: fs))) with true
      by (symmetry; apply Z.ltb_lt; simpl; lia).
    rewrite bind_gets. cbv beta.
    rewrite (bool_decide_eq_true_2 _ Hnd), (pool_query_Ok _ w Hf).
    reflexivity. }
  subst w1. rewrite Hrun. simpl fst. simpl snd.
  destruct (find_in_bulk_upsert userDID (clock w) (f0 :: fs)
              (monitored_follows (db w)) Hnd) as [H1 H2].
  split; [reflexivity|]. split.
  - intros f Hin. exact (H1 f Hin).
  - intros u did Hc. exact (H2 u did Hc).
Qed.

Lemma addMonitoredFollows_upsert_witness :
  find_follow
    (db (addMonitoredFollows "did:plc:user"
           [ {| f_did := "did:plc:alice"; f_handle := "alice.renamed.example";
                f_rkey := None |} ] world_monitoring).2)
    "did:plc:user" "did:plc:alice"
  = Some {| mf_user_did := "did:plc:user"; mf_follow_did := "did:plc:alice";
            mf_follow_handle := Some "alice.renamed.example";
            mf_rkey := Some "k0"; mf_added_at := 1699999000000 |}.
Proof.
  exact (proj1 (proj2 (addMonitoredFollows_upsert "did:plc:user"
                         [ {| f_did := "did:plc:alice";
                              f_handle := "alice.renamed.example";
                              f_rkey := None |} ]
                         world_monitoring eq_refl (NoDup_singleton _)))
           _ (or_introl eq_refl)).
Defined.

(** ** Removal of a follow by its record key (db.ts) *)

Lemma filter_filter_neg {A} (p : A -> bool) (l : list A) :
  List.filter p (List.filter (fun x => negb (p x)) l) = [].
Proof.
  induction l as [|a l IH]; [reflexivity|]. simpl.
  destruct (p a) eqn:E; simpl; [|rewrite E]; exact IH.
Qed.

(** X4. When the database answers, [removeMonitoredFollowByRkey] returns the
    DID that [getFollowDIDByRkey] finds for the user and the record key,
    removes exactly the rows of the user that carry the key, and a following
    lookup of the key finds nothing. *)
Theorem removeMonitoredFollowByRkey_removes userDID rkey w :
  faults w = [] ->
  let w1 := (removeMonitoredFollowByRkey userDID rkey w).2 in
  (removeMonitoredFollowByRkey userDID rkey w).1 = (getFollowDIDByRkey userDID rkey w).1
  /\ getFollowDIDByRkey userDID rkey w1 = (Ok None, w1)
  /\ (forall r, In r (monitored_follows (db w1))
                <-> In r (monitored_follows (db w))
                    /\ ~ (mf_user_did r = userDID /\ mf_rkey r = Some rkey)).
Proof.
  intros Hf w1.
  assert (Hrun : removeMonitoredFollowByRkey userDID rkey w
                 = (Ok (mf_follow_did <$>
                        head (List.filter (by_rkey userDID rkey)
                                (monitored_follows (db w)))),
                    set_db (set_monitored_follows
                              (List.filter (fun r => negb (by_rkey userDID rkey r))
                                 (monitored_follows (db w))) (db w)) w)).
  { unfold removeMonitoredFollowByRkey.
    rewrite (bind_Ok _ _ _ _ _ (pool_query_Ok _ w Hf)). reflexivity. }
  assert (Hget : forall w0, faults w0 = [] ->
            getFollowDIDByRkey userDID rkey w0
            = (Ok (mf_follow_did <$>
                   head (List.filter (by_rkey userDID rkey)
                           (monitored_follows (db w0)))), w0)).
  { intros w0 Hf0. unfold getFollowDIDByRkey.
    rewrite (bind_Ok _ _ _ _ _ (pool_query_Ok _ w0 Hf0)). simpl.
    rewrite set_db_id. reflexivity. }
  subst w1. rewrite Hrun. simpl fst. simpl snd. split; [|split].
  - rewrite (Hget w Hf). reflexivity.
  - rewrite Hget by exact Hf. simpl. rewrite filter_filter_neg. reflexivity.
  - intros r. simpl. rewrite filter_In. unfold by_rkey.
    rewrite negb_true_iff, andb_false_iff, !bool_decide_eq_false. split.
    + intros [Hin [Hn|Hn]]; (split; [exact Hin | intros [? ?]; contradiction]).
    + intros [Hin Hn]. split; [exact Hin|].
      destruct (decide (mf_user_did r = userDID)) as [Hu|Hu];
        [right; intros Hk; apply Hn; auto | left; exact Hu].
Qed.

Lemma removeMonitoredFollowByRkey_removes_witness :
  (removeMonitoredFollowByRkey "did:plc:user" "k0" world_monitoring).1
  = Ok (Some "did:plc:alice")
  /\ monitored_follows
       (db (removeMonitoredFollowByRkey "did:plc:user" "k0" world_monitoring).2) = [].
Proof.
  pose proof (removeMonitoredFollowByRkey_removes "did:plc:user" "k0"
                world_monitoring eq_refl) as (H1 & _ & _).
  split; [exact H1 | reflexivity].
Defined.

(** ** Ignoring a DID twice (db.ts, addIgnoredUser) *)

Lemma filter_idempotent {A} (p : A -> bool) (l : list A) :
  List.filter p (List.filter p l) = List.filter p l.
Proof.
  induction l as [|a l IH]; [reflexivity|]. simpl.
  destruct (p a) eqn:E; simpl; [rewrite E, IH|]; auto.
Qed.

Lemma existsb_after_insert did now d :
  existsb (fun u => bool_decide (iu_did u = did))
    (ignored_users (insert_ignored_user did now d).2) = true.
Proof.
  unfold insert_ignored_user. simpl.
  destruct (existsb _ (ignored_users d)) eqn:E; [exact E|]. simpl.
  rewrite existsb_app. simpl.
  rewrite bool_decide_eq_true_2 by reflexivity. apply orb_true_r.
Qed.

Lemma ignore_twice_db did t1 t2 d :
  let d1 := (delete_profile_changes did (insert_ignored_user did t1 d).2).2 in
  delete_profile_changes did (insert_ignored_user did t2 d1).2 = (0, d1).
Proof.
  intros d1.
  assert (Hins : (insert_ignored_user did t2 d1).2 = d1).
  { unfold insert_ignored_user at 1. cbn [snd].
    replace (existsb _ (ignored_users d1)) with true; [reflexivity|].
    symmetry. subst d1. apply (existsb_after_insert did t1 d). }
  rewrite Hins. subst d1. unfold delete_profile_changes. cbn [snd].
  cbn [profile_changes profile_changes_seq set_profile_changes].
  rewrite filter_filter_neg, filter_idempotent. reflexivity.
Qed.

(** X5. When the database answers, ignoring a DID a second time changes
    nothing: the second [addIgnoredUser] returns with [deletedChanges = 0]
    and leaves the world as the first call left it (the ignore list keeps the
    entry of the first call, with its time). *)
Theorem addIgnoredUser_twice did w :
  faults w = [] ->
  let w1 := (addIgnoredUser did w).2 in
  (addIgnoredUser did w).1
  = Ok (did, Z.of_nat (length (List.filter (fun r => bool_decide (pc_did r = did))
                                 (profile_changes (db w)))))
  /\ forall now, addIgnoredUser did (set_clock now w1) = (Ok (did, 0), set_clock now w1).
Proof.
  intros Hf w1.
  assert (Hrun : forall w0, faults w0 = [] ->
            addIgnoredUser did w0
            = (Ok (did, (delete_profile_changes did
                           (insert_ignored_user did (clock w0) (db w0)).2).1),
               set_db (delete_profile_changes did
                         (insert_ignored_user did (clock w0) (db w0)).2).2 w0)).
  { intros w0 Hf0. unfold addIgnoredUser, transaction, Date_now.
    rewrite bind_gets. cbv beta.
    rewrite (bind_Ok _ _ _ _ _ (pool_query_Ok _ w0 Hf0)).
    rewrite (bind_Ok _ _ _ _ _ (pool_query_Ok _ (set_db _ w0) Hf0)).
    destruct w0; reflexivity. }
  assert (Hw1 : w1 = set_db (delete_profile_changes did
                               (insert_ignored_user did (clock w) (db w)).2).2 w).
  { subst w1. rewrite (Hrun w Hf). reflexivity. }
  clearbody w1. subst w1. split.
  - rewrite (Hrun w Hf). unfold insert_ignored_user. simpl.
    destruct (existsb _ _); reflexivity.
  - intros now. rewrite Hrun by exact Hf.
    cbn [db clock set_clock set_db].
    rewrite ignore_twice_db. cbn [fst snd]. destruct w; reflexivity.
Qed.

Lemma addIgnoredUser_twice_witness :
  addIgnoredUser "did:plc:alice"
    (set_clock 1700000005000 (addIgnoredUser "did:plc:alice" world0).2)
  = (Ok ("did:plc:alice", 0),
     set_clock 1700000005000 (addIgnoredUser "did:plc:alice" world0).2).
Proof.
  exact (proj2 (addIgnoredUser_twice "did:plc:alice" world0 eq_refl) 1700000005000).
Defined.

(** ** Listings of the change table (db.ts) *)

Lemma In_insert_by_changed_at x r rows :
  In x (insert_by_changed_at r rows) <-> x = r \/ In x rows.
Proof.
  induction rows as [|r' rows IH]; simpl.
  - intuition.
  - destruct (_ <=? _); simpl; [intuition|]. rewrite IH. intuition.
Qed.

Lemma In_order_by_changed_at_desc x rows :
  In x (order_by_changed_at_desc rows) <-> In x rows.
Proof.
  induction rows as [|r rows IH]; simpl; [reflexivity|].
  rewrite In_insert_by_changed_at, IH. intuition.
Qed.

Lemma newest_first_insert r rows :
  newest_first rows -> newest_first (insert_by_changed_at r rows).
Proof.
  induction rows as [|r' rows IH]; simpl; intros H.
  - split; [intros r0 [] | exact I].
  - destruct H as [Hle Hrest]. destruct (Z.leb_spec (pc_changed_at r') (pc_changed_at r)).
    + simpl. split; [|split; assumption].
      intros x [<- | Hx]; [assumption|]. specialize (Hle x Hx). lia.
    + simpl. split; [|apply IH; exact Hrest].
      intros x Hx. apply In_insert_by_changed_at in Hx as [-> | Hx]; [lia | auto].
Qed.

Lemma newest_first_order rows : newest_first (order_by_changed_at_desc rows).
Proof.
  induction rows as [|r rows IH]; simpl; [exact I|].
  apply newest_first_insert. exact IH.
Qed.

Lemma not_in_ignored_users_spec d r :
  not_in_ignored_users d r = true <-> ~ ignored (pc_did r) d.
Proof.
  unfold not_in_ignored_users, ignored. rewrite negb_true_iff. split.
  - intros H (u & Hu & Hd).
    assert (Hex : existsb (fun iu => bool_decide (iu_did iu = pc_did r))
                    (ignored_users d) = true).
    { apply existsb_exists. exists u. split; [exact Hu|].
      apply bool_decide_eq_true. exact Hd. }
    congruence.
  - intros H. destruct (existsb _ _) eqn:E; [|reflexivity]. exfalso. apply H.
    apply existsb_exists in E as (u & Hu & Hd).
    apply bool_decide_eq_true in Hd. eauto.
Qed.

(** X6. The listings of the change table hide ignored DIDs. Whenever
    [getAllChanges], [getChangesByDIDs] or [getChangesForUser] returns, the
    database is untouched, the rows are listed newest first, and a row is
    listed exactly when it is stored, its DID is not on the ignore list, and
    (for [getChangesByDIDs]) its DID is one of those asked for or (for
    [getChangesForUser]) its DID is followed by the user. When the database
    answers, the three of them return. *)
Theorem listings_hide_ignored w :
  (forall rows w',
      getAllChanges w = (Ok rows, w') ->
      db w' = db w /\ newest_first rows
      /\ forall r, In r rows
                   <-> In r (profile_changes (db w)) /\ ~ ignored (pc_did r) (db w))
  /\ (forall dids rows w',
        getChangesByDIDs dids w = (Ok rows, w') ->
        db w' = db w /\ newest_first rows
        /\ forall r, In r rows
                     <-> In r (profile_changes (db w)) /\ pc_did r ∈ dids
                         /\ ~ ignored (pc_did r) (db w))
  /\ (forall userDID rows w',
        getChangesForUser userDID w = (Ok rows, w') ->
        db w' = db w /\ newest_first rows
        /\ forall r, In r rows
                     <-> In r (profile_changes (db w))
                         /\ (exists mf, In mf (monitored_follows (db w))
                                        /\ mf_user_did mf = userDID
                                        /\ mf_follow_did mf = pc_did r)
                         /\ ~ ignored (pc_did r) (db w))
  /\ (faults w = [] ->
      (exists rows, getAllChanges w = (Ok rows, w))
      /\ (forall dids, exists rows, getChangesByDIDs dids w = (Ok rows, w))
      /\ (forall userDID, exists rows, getChangesForUser userDID w = (Ok rows, w))).
Proof.
  split; [|split; [|split]].
  - intros rows w' H. apply pool_query_Ok_inv in H as [-> ->]. simpl.
    split; [reflexivity|]. split; [apply newest_first_order|].
    intros r. rewrite In_order_by_changed_at_desc, filter_In,
      not_in_ignored_users_spec. reflexivity.
  - intros dids rows w' H. apply pool_query_Ok_inv in H as [-> ->]. simpl.
    split; [reflexivity|]. split; [apply newest_first_order|].
    intros r. rewrite In_order_by_changed_at_desc, filter_In, andb_true_iff,
      bool_decide_eq_true, not_in_ignored_users_spec. reflexivity.
  - intros userDID rows w' H. apply pool_query_Ok_inv in H as [-> ->]. simpl.
    split; [reflexivity|]. split; [apply newest_first_order|].
    intros r. rewrite In_order_by_changed_at_desc, filter_In,
      not_in_ignored_users_spec, in_flat_map. split.
    + intros [(pc & Hpc & Hin) Hign]. apply in_map_iff in Hin as (mf & <- & Hmf).
      apply filter_In in Hmf as [Hmf Hc].
      apply andb_true_iff in Hc as [Hd Hu].
      apply bool_decide_eq_true in Hd, Hu. split; [exact Hpc|]. split; [|exact Hign].
      exists mf. auto.
    + intros (Hr & (mf & Hmf & Hu & Hd) & Hign). split; [|exact Hign].
      exists r. split; [exact Hr|]. apply in_map_iff. exists mf. split; [reflexivity|].
      apply filter_In. split; [exact Hmf|].
      apply andb_true_iff. split; apply bool_decide_eq_true; auto.
  - intros Hf. split; [|split]; intros; eexists;
      unfold getAllChanges, getChangesByDIDs, getChangesForUser;
      rewrite (pool_query_Ok _ w Hf); simpl; rewrite set_db_id; reflexivity.
Qed.


(** ** The retry wrapper (jetstream-service.ts, withDBRetry) *)

(** An operation that returns at once is not retried. *)
Lemma withDBRetry_Ok {A} (operation : M A) context w a w' :
  operation w = (Ok a, w') -> withDBRetry operation context w = (Ok a, w').
Proof.
  intros H. unfold withDBRetry, DB_RETRY_ATTEMPTS. simpl. unfold try_catch.
  rewrite H. reflexivity.
Qed.

(** One round of the loop of [withDBRetry] whose operation throws. *)
Lemma withDBRetry_loop_Throw {A} fuel attempt (operation : M A) context w e w1 :
  operation w = (Throw e, w1) ->
  withDBRetry_loop (S fuel) attempt operation context w
  = let w2 := set_trace (trace w1 ++ [console_error (context +:+ " failed")]) w1 in
    if DB_RETRY_ATTEMPTS <=? attempt + 1 then (Throw e, w2)
    else withDBRetry_loop fuel (attempt + 1) operation context
           (set_clock (clock w2 + DB_RETRY_BASE_DELAY_MS * 2 ^ (attempt + 1 - 1)) w2).
Proof.
  intros H. cbn [withDBRetry_loop]. unfold try_catch at 1. rewrite H.
  unfold emit. rewrite bind_modify. cbv zeta.
  destruct (DB_RETRY_ATTEMPTS <=? attempt + 1); [reflexivity|].
  unfold wait. rewrite bind_modify. reflexivity.
Qed.

Lemma withDBRetry_loop_Ok {A} fuel attempt (operation : M A) context w a w1 :
  operation w = (Ok a, w1) ->
  withDBRetry_loop fuel attempt operation context w = (Ok a, w1).
Proof.
  intros H. destruct fuel; cbn [withDBRetry_loop]; unfold try_catch; rewrite H;
    reflexivity.
Qed.

Lemma pool_query_fails {A} (stmt : Db -> A * Db) fs w :
  faults w = true :: fs -> pool_query stmt w = (Throw DbError, set_faults fs w).
Proof. intros H. unfold pool_query. rewrite H. reflexivity. Qed.

Lemma pool_query_answers {A} (stmt : Db -> A * Db) fs w :
  faults w = fs -> hd false fs = false ->
  pool_query stmt w
  = (Ok (stmt (db w)).1, set_db (stmt (db w)).2 (set_faults (tail fs) w)).
Proof.
  intros H Hfs. unfold pool_query. rewrite H.
  destruct fs as [|[] fs]; [|discriminate|]; destruct (stmt (db w)); reflexivity.
Qed.

(** X7. The backoff of [withDBRetry] around one database statement. When the
    statement fails [k] times in a row before the database answers again, the
    wrapper logs one error for each failed attempt, at most three; with fewer
    than three failures it returns what the statement computes, having run it
    once on the database and having waited 200 ms after the first failure and
    400 ms after the second; with three or more failures it throws the
    database error after the third attempt, having waited 600 ms in all, and
    the database is untouched. *)
Theorem withDBRetry_backoff {A} (stmt : Db -> A * Db) context (k : nat) fs w :
  faults w = (repeat true k ++ fs)%list -> hd false fs = false ->
  let r := withDBRetry (pool_query stmt) context w in
  trace r.2
  = (trace w ++ repeat (console_error (context +:+ " failed")) (Nat.min k 3))%list
  /\ ((k < 3)%nat ->
      r.1 = Ok (stmt (db w)).1 /\ db r.2 = (stmt (db w)).2
      /\ clock r.2 = clock w + 200 * (2 ^ Z.of_nat k - 1)
      /\ faults r.2 = tail fs)
  /\ ((3 <= k)%nat ->
      r.1 = Throw DbError /\ db r.2 = db w
      /\ clock r.2 = clock w + 600
      /\ faults r.2 = (repeat true (k - 3) ++ fs)%list).
Proof.
  intros Hf Hfs r. subst r. unfold withDBRetry.
  change (Z.to_nat DB_RETRY_ATTEMPTS) with 3%nat.
  destruct w as [d f c t r1 r2 r3 h ri mx mn hp mg]. simpl in Hf. subst f.
  destruct k as [|k].
  { erewrite withDBRetry_loop_Ok
      by (apply (pool_query_answers stmt fs); [reflexivity | exact Hfs]).
    simpl. rewrite app_nil_r.
    split; [reflexivity|]. split; [|lia]. intros _.
    split; [reflexivity|]. split; [reflexivity|]. split; [lia | reflexivity]. }
  erewrite withDBRetry_loop_Throw by (apply pool_query_fails; reflexivity).
  cbv zeta. change (DB_RETRY_ATTEMPTS <=? 0 + 1) with false. cbv iota.
  unfold DB_RETRY_BASE_DELAY_MS.
  cbn [set_trace set_clock set_faults set_db db faults clock trace net_resolveHandle
       net_auditLog net_follows hosts random_index maxConcurrentTempStreams main
       heap mgr].
  destruct k as [|k].
  { erewrite withDBRetry_loop_Ok
      by (apply (pool_query_answers stmt fs); [reflexivity | exact Hfs]).
    simpl.
    split; [reflexivity|]. split; [|lia]. intros _.
    split; [reflexivity|]. split; [reflexivity|]. split; [lia | reflexivity]. }
  erewrite withDBRetry_loop_Throw by (apply pool_query_fails; reflexivity).
  cbv zeta. change (DB_RETRY_ATTEMPTS <=? 0 + 1 + 1) with false. cbv iota.
  unfold DB_RETRY_BASE_DELAY_MS.
  cbn [set_trace set_clock set_faults set_db db faults clock trace net_resolveHandle
       net_auditLog net_follows hosts random_index maxConcurrentTempStreams main
       heap mgr].
  destruct k as [|k].
  { erewrite withDBRetry_loop_Ok
      by (apply (pool_query_answers stmt fs); [reflexivity | exact Hfs]).
    simpl. rewrite <- app_assoc.
    split; [reflexivity|]. split; [|lia]. intros _.
    split; [reflexivity|]. split; [reflexivity|]. split; [lia | reflexivity]. }
  erewrite withDBRetry_loop_Throw by (apply pool_query_fails; reflexivity).
  cbv zeta. change (DB_RETRY_ATTEMPTS <=? 0 + 1 + 1 + 1) with true. cbv iota.
  simpl. rewrite <- !app_assoc, Nat.sub_0_r, Nat.min_0_r.
  split; [reflexivity|]. split; [lia|]. intros _.
  split; [reflexivity|]. split; [reflexivity|]. split; [lia | reflexivity].
Qed.

Lemma withDBRetry_backoff_witness :
  let r := withDBRetry getAllMonitoredDIDs "Loading monitored DIDs"
             (set_faults [true; true] world_monitoring) in
  r.1 = Ok ["did:plc:alice"] /\ clock r.2 = 1700000000600.
Proof.
  destruct (withDBRetry_backoff
              (fun d => (remove_dups (map mf_follow_did (monitored_follows d)), d))
              "Loading monitored DIDs" 2 []
              (set_faults [true; true] world_monitoring) eq_refl eq_refl)
    as (_ & H & _).
  destruct (H (le_n 3)) as (H1 & _ & H3 & _).
  split; [exact H1 | exact H3].
Defined.

(** ** Reconnects of the main stream (jetstream-service.ts) *)

#[local] Instance keeps_no_backoff_frame : Frame keeps_no_backoff.
Proof. split; unfold keeps_no_backoff; simpl; auto. Qed.

Ltac no_backoff_leaf :=
  intros; unfold keeps_no_backoff; simpl; auto.

(** The close handler of a stream whose counter is zero: the reconnect is
    immediate and the counter stays. *)
Lemma on_close_no_backoff w :
  reconnectAttempts (main w) = 0 ->
  on_close w
  = (Ok tt,
     if shouldRun (main w)
     then set_trace (trace w ++ [set_timeout MainStream 0; status_broadcast])
            (set_main (set_reconnectTimeout (Some 0) (main w)) w)
     else set_trace (trace w ++ [status_broadcast]) w).
Proof.
  intros H0. unfold on_close, update_main, triggerMonitoringStatusBroadcast, when,
    emit, modify, bind, gets, ret. simpl.
  destruct (shouldRun (main w)) eqn:Erun; simpl.
  - rewrite H0. simpl. rewrite <- app_assoc. reflexivity.
  - reflexivity.
Qed.

Lemma run_keeps_no_backoff a : preserves keeps_no_backoff (run a).
Proof.
  destruct a; unfold run;
    try (intros w H0; rewrite (on_close_no_backoff w H0);
         destruct (shouldRun (main w)); simpl; exact H0);
    frame_all no_backoff_leaf.
Qed.

(** X8. The counter of reconnect attempts of the main stream is zero in the
    service as constructed and stays zero whatever happens: the open handler
    and a DID reload reset it, and the close handler increments it only when
    it is not zero. In every state reached, the close handler therefore
    schedules the reconnect with delay 0 when the stream should run (and
    schedules nothing when it was stopped): the exponential backoff of the
    close handler is never taken. *)
Theorem main_stream_reconnects_at_once w0 actions :
  reconnectAttempts (main w0) = 0 ->
  let w := exec_all w0 actions in
  reconnectAttempts (main w) = 0
  /\ (on_close w).1 = Ok tt
  /\ trace (on_close w).2
     = (trace w ++ (if shouldRun (main w)
                    then [set_timeout MainStream 0; status_broadcast]
                    else [status_broadcast]))%list
  /\ reconnectAttempts (main (on_close w).2) = 0.
Proof.
  intros H0 w.
  assert (Hw : reconnectAttempts (main w) = 0).
  { subst w. revert w0 H0. induction actions as [|a actions IH]; intros w0 H0; simpl.
    - exact H0.
    - apply IH. apply (run_keeps_no_backoff a w0 H0). }
  split; [exact Hw|]. rewrite (on_close_no_backoff w Hw).
  destruct (shouldRun (main w)); simpl; auto.
Qed.

Lemma main_stream_reconnects_at_once_witness :
  let w := exec_all world_connected [MainClose; MainTimer; MainClose] in
  reconnectAttempts (main w) = 0
  /\ trace (on_close w).2
     = (trace w ++ [set_timeout MainStream 0; status_broadcast])%list.
Proof.
  destruct (main_stream_reconnects_at_once world_connected
              [MainClose; MainTimer; MainClose] eq_refl) as (H1 & _ & H3 & _).
  split; [exact H1 | exact H3].
Defined.

(** ** The DID set of the main stream (jetstream-service.ts, reloadDIDs) *)

Lemma In_insert_ignored x r rows :
  In x (insert_ignored r rows) <-> x = r \/ In x rows.
Proof.
  induction rows as [|r' rows IH]; simpl.
  - intuition.
  - destruct (_ <? _); simpl; [intuition|]. rewrite IH. intuition.
Qed.

Lemma In_sorted_ignored x rows :
  In x (fold_right insert_ignored [] rows) <-> In x rows.
Proof.
  induction rows as [|r rows IH]; simpl; [reflexivity|].
  rewrite In_insert_ignored, IH. intuition.
Qed.

Lemma ignored_set_spec d did :
  did ∈ map iu_did (fold_right insert_ignored [] (ignored_users d)) <-> ignored did d.
Proof.
  rewrite list_elem_of_In, in_map_iff. unfold ignored. split.
  - intros (u & Hd & Hu). apply (proj1 (In_sorted_ignored _ _)) in Hu. eauto.
  - intros (u & Hu & Hd). exists u. split; [exact Hd|].
    apply In_sorted_ignored. exact Hu.
Qed.

Lemma NoDup_List_filter {A} (p : A -> bool) (l : list A) :
  NoDup l -> NoDup (List.filter p l).
Proof.
  rewrite !NoDup_ListNoDup. apply List.NoDup_filter.
Qed.

Lemma getAllMonitoredDIDs_run w :
  faults w = [] ->
  getAllMonitoredDIDs w
  = (Ok (remove_dups (map mf_follow_did (monitored_follows (db w)))), w).
Proof.
  intros Hf. unfold getAllMonitoredDIDs. rewrite (pool_query_Ok _ w Hf). simpl.
  rewrite set_db_id. reflexivity.
Qed.

Lemma getMonitoringUsers_run w :
  faults w = [] ->
  getMonitoringUsers w
  = (Ok (remove_dups (map mf_user_did (monitored_follows (db w)))), w).
Proof.
  intros Hf. unfold getMonitoringUsers. rewrite (pool_query_Ok _ w Hf). simpl.
  rewrite set_db_id. reflexivity.
Qed.

Lemma getIgnoredUsers_run w :
  faults w = [] ->
  getIgnoredUsers w = (Ok (fold_right insert_ignored [] (ignored_users (db w))), w).
Proof.
  intros Hf. unfold getIgnoredUsers. rewrite (pool_query_Ok _ w Hf). simpl.
  rewrite set_db_id. reflexivity.
Qed.

Lemma getMonitoringUserCount_run w :
  faults w = [] ->
  getMonitoringUserCount w
  = (Ok (Z.of_nat (length (remove_dups (map mf_user_did (monitored_follows (db w)))))),
     w).
Proof.
  intros Hf. unfold getMonitoringUserCount. rewrite (pool_query_Ok _ w Hf). simpl.
  rewrite set_db_id. reflexivity.
Qed.

(** What [reloadDIDs] does when the database answers. *)
Lemma reloadDIDs_run w :
  faults w = [] ->
  reloadDIDs w
  = (Ok tt,
     let dids := reload_dids (db w) in
     let current := currentDIDs (main w) in
     if bool_decide (dids = current) then
       (if bool_decide (length dids = 0%nat)
        then set_main (set_currentDIDs [] (main w)) w
        else w)
     else if bool_decide (length dids = 0%nat) then
       set_trace (trace w ++ (if bool_decide (is_Some (ws (main w)))
                              then [ws_close MainStream] else [])
                          ++ [status_broadcast])
         (set_main (set_currentDIDs []
                      (if bool_decide (is_Some (ws (main w)))
                       then set_ws None (main w) else main w)) w)
     else
       set_trace (trace w ++ (if bool_decide (is_Some (ws (main w)))
                              then [ws_close MainStream] else [])
                          ++ [status_broadcast])
         (set_main (if bool_decide (is_Some (ws (main w)))
                    then set_reconnectAttempts 0 (set_currentDIDs dids (main w))
                    else set_currentDIDs dids (main w)) w)).
Proof.
  intros Hf. unfold reloadDIDs, try_catch.
  rewrite (bind_Ok _ _ _ _ _ (withDBRetry_Ok _ _ _ _ _ (getAllMonitoredDIDs_run w Hf))).
  rewrite (bind_Ok _ _ _ _ _ (withDBRetry_Ok _ _ _ _ _ (getMonitoringUsers_run w Hf))).
  rewrite (bind_Ok _ _ _ _ _ (withDBRetry_Ok _ _ _ _ _ (getIgnoredUsers_run w Hf))).
  cbv zeta. fold (reload_users (db w)). fold (reload_dids (db w)).
  set (dids := reload_dids (db w)).
  destruct (bool_decide_reflect (length dids = 0%nat)) as [Hlen|Hlen].
  - rewrite bind_gets. cbv beta.
    destruct (bool_decide_reflect (dids = currentDIDs (main w))) as [Heq|Hne].
    + rewrite <- Heq. rewrite Hlen. simpl.
      unfold update_main, when, bind, modify, ret. simpl. reflexivity.
    + assert (Hcur : (0 <? Z.of_nat (length (currentDIDs (main w)))) = true).
      { apply Z.ltb_lt. destruct (currentDIDs (main w)) as [|x l] eqn:E.
        - exfalso. apply Hne. destruct dids; [reflexivity | discriminate].
        - simpl. lia. }
      rewrite Hcur.
      unfold update_main, triggerMonitoringStatusBroadcast, when, emit, bind,
        modify, gets, ret. simpl.
      destruct (bool_decide (is_Some (ws (main w)))); simpl;
        rewrite <- ?app_assoc; reflexivity.
  - rewrite bind_gets. cbv beta.
    destruct (bool_decide_reflect (dids = currentDIDs (main w))) as [Heq|Hne]; simpl.
    + unfold when, bind, ret. reflexivity.
    + unfold when at 1.
      rewrite bind_assoc.
      rewrite (bind_Ok _ _ _ _ _
                 (withDBRetry_Ok _ _ _ _ _ (getMonitoringUserCount_run w Hf))).
      unfold update_main, triggerMonitoringStatusBroadcast, when, emit, bind,
        modify, gets, ret. simpl.
      destruct (bool_decide (is_Some (ws (main w)))); simpl;
        rewrite <- ?app_assoc; reflexivity.
Qed.

Lemma elem_of_List_filter {A} (p : A -> bool) (l : list A) x :
  x ∈ List.filter p l <-> x ∈ l /\ p x = true.
Proof. rewrite !list_elem_of_In. apply filter_In. Qed.

Lemma reload_users_spec d did :
  did ∈ reload_users d <-> monitoring_user d did /\ ~ ignored did d.
Proof.
  unfold reload_users. rewrite elem_of_List_filter, elem_of_remove_dups,
    negb_true_iff, bool_decide_eq_false, ignored_set_spec.
  rewrite list_elem_of_In, in_map_iff. unfold monitoring_user.
  split; intros [(mf & H1 & H2) H3]; (split; [exists mf; auto | exact H3]).
Qed.

Lemma reload_dids_spec d did :
  did ∈ reload_dids d
  <-> (monitoring_user d did \/ followed_did d did) /\ ~ ignored did d.
Proof.
  unfold reload_dids. rewrite elem_of_app, !elem_of_List_filter,
    elem_of_remove_dups, !negb_true_iff, !bool_decide_eq_false, ignored_set_spec,
    reload_users_spec.
  rewrite list_elem_of_In, in_map_iff. unfold followed_did. split.
  - intros [[Hu Hi] | [[(mf & H1 & H2) Hi] _]].
    + split; [left; exact Hu | exact Hi].
    + split; [right; exists mf; auto | exact Hi].
  - intros [[Hu | (mf & H1 & H2)] Hi].
    + left. split; assumption.
    + destruct (decide (did ∈ reload_users d)) as [Hin|Hnin].
      * left. apply reload_users_spec. exact Hin.
      * right. split; [split; [exists mf; auto | exact Hi]|].
        intros H. apply Hnin. apply reload_users_spec. exact H.
Qed.

Lemma reload_dids_NoDup d : NoDup (reload_dids d).
Proof.
  unfold reload_dids. apply NoDup_app. split; [|split].
  - apply NoDup_List_filter, NoDup_remove_dups.
  - intros x Hx Hx'. apply elem_of_List_filter in Hx' as [_ Hn].
    apply negb_true_iff, bool_decide_eq_false in Hn. contradiction.
  - apply NoDup_List_filter, NoDup_List_filter, NoDup_remove_dups.
Qed.

(** After a reload that the database answers, the main stream holds the DID
    list computed from the database. *)
Lemma reloadDIDs_currentDIDs w :
  faults w = [] -> currentDIDs (main (reloadDIDs w).2) = reload_dids (db w).
Proof.
  intros Hf. rewrite (reloadDIDs_run w Hf). cbv zeta. simpl snd.
  repeat case_bool_decide; simpl; try reflexivity; try congruence.
  all: destruct (reload_dids (db w)); [reflexivity | discriminate].
Qed.

(** X9. A reload of the DID set that the database answers. [reloadDIDs]
    returns and leaves the database as it is; afterwards the DID set of the
    main stream holds no DID twice, and it holds a DID exactly when the DID
    is a monitoring user or is followed by one and is not on the ignore
    list, with the monitoring users first. When the set differs from the one
    held before, an open socket is closed and the status is broadcast; when
    it is the same, nothing is announced. *)
Theorem reloadDIDs_settles_the_DID_set w :
  faults w = [] ->
  let w' := (reloadDIDs w).2 in
  let dids := currentDIDs (main w') in
  (reloadDIDs w).1 = Ok tt /\ db w' = db w
  /\ NoDup dids
  /\ (forall did, did ∈ dids
                  <-> (monitoring_user (db w) did \/ followed_did (db w) did)
                      /\ ~ ignored did (db w))
  /\ (exists users follows,
        dids = (users ++ follows)%list
        /\ forall did, did ∈ users
                       <-> monitoring_user (db w) did /\ ~ ignored did (db w))
  /\ trace w'
     = (trace w ++
        if bool_decide (dids = currentDIDs (main w)) then []
        else (if bool_decide (is_Some (ws (main w)))
              then [ws_close MainStream] else []) ++ [status_broadcast])%list.
Proof.
  intros Hf w' dids.
  assert (Hrun := reloadDIDs_run w Hf).
  assert (Hdids : dids = reload_dids (db w))
    by (subst dids w'; apply reloadDIDs_currentDIDs; exact Hf).
  assert (Hdb : db w' = db w).
  { subst w'. rewrite Hrun. cbv zeta. simpl snd.
    repeat case_bool_decide; reflexivity. }
  assert (Htrace : trace w'
     = (trace w ++
        if bool_decide (reload_dids (db w) = currentDIDs (main w)) then []
        else (if bool_decide (is_Some (ws (main w)))
              then [ws_close MainStream] else []) ++ [status_broadcast])%list).
  { subst w'. rewrite Hrun. cbv zeta. simpl snd.
    repeat case_bool_decide; simpl; rewrite ?app_nil_r; reflexivity. }
  split; [rewrite Hrun; reflexivity|]. split; [exact Hdb|].
  rewrite Hdids. split; [apply reload_dids_NoDup|].
  split; [intros did; apply reload_dids_spec|]. split.
  - eexists (reload_users (db w)), _. split; [reflexivity|].
    intros did. apply reload_users_spec.
  - exact Htrace.
Qed.

Lemma reloadDIDs_settles_the_DID_set_witness :
  let w := exec world_monitoring (AdminAddIgnoredUser "did:plc:alice") in
  (reloadDIDs w).1 = Ok tt
  /\ currentDIDs (main w) = ["did:plc:user"; "did:plc:alice"]
  /\ "did:plc:alice" ∉ currentDIDs (main (reloadDIDs w).2).
Proof.
  intros w.
  destruct (reloadDIDs_settles_the_DID_set w eq_refl) as (H1 & _ & _ & H4 & _).
  split; [exact H1|]. split; [reflexivity|].
  intros Hin. apply H4 in Hin as [_ Hign]. apply Hign.
  eexists. split; [left; reflexivity | reflexivity].
Defined.

(** ** Stopping the main stream (jetstream-service.ts, stop) *)

(** X10. [stop] marks the main stream as stopped before anything else. When
    it returns, the socket is dropped (after it was closed, if there was
    one), the cursor, the start time and the backfill flag are cleared, and
    the cursor and the time of the stop are kept in memory. When it throws,
    which only saving the cursor to the settings can make it do, the stream
    is marked as stopped but keeps its socket, its cursor and its start time,
    and nothing is closed. It returns whenever the database answers. *)
Theorem stop_outcomes w :
  let r := stop w in
  shouldRun (main r.2) = false
  /\ cursorAtStop (main r.2) = lastCursor (main w)
  /\ stoppedAt (main r.2) = Some (clock w)
  /\ (r.1 = Ok tt ->
      ws (main r.2) = None /\ lastCursor (main r.2) = None
      /\ startTime (main r.2) = None /\ isInActualBackfill (main r.2) = false
      /\ trace r.2
         = (trace w
            ++ (if bool_decide (is_Some (reconnectTimeout (main w)))
                then [clear_timeout MainStream] else [])
            ++ (if bool_decide (is_Some (ws (main w)))
                then [ws_close MainStream] else [])
            ++ [status_broadcast])%list)
  /\ (forall e, r.1 = Throw e ->
      e = DbError /\ truthy_number (lastCursor (main w)) = true
      /\ ws (main r.2) = ws (main w) /\ lastCursor (main r.2) = lastCursor (main w)
      /\ startTime (main r.2) = startTime (main w) /\ trace r.2 = trace w)
  /\ (faults w = [] -> r.1 = Ok tt).
Proof.
  destruct w as [d f c t r1 r2 r3 h ri mx mn hp mg].
  destruct mn as [sock pd ra sr rt cd lc stt bf lag lh sa cs].
  cbv zeta.
  unfold stop, saveSetting, Date_now, update_main, triggerMonitoringStatusBroadcast,
    when, emit, pool_query, bind, modify, gets, ret, truthy_number.
  destruct lc as [c0|]; [destruct (bool_decide_reflect (c0 = 0)) as [Hc|Hc]|];
    [|destruct f as [|[] [|[] f]]|]; destruct rt as [rt0|]; destruct sock as [sock0|];
    simpl;
    rewrite ?(bool_decide_eq_true_2 _ Hc), ?(bool_decide_eq_false_2 _ Hc); simpl;
    rewrite <- ?app_assoc; simpl;
    repeat match goal with
           | |- _ /\ _ => split
           | |- _ -> _ => intro
           | |- forall _, _ => intro
           end;
    try reflexivity; try discriminate;
    match goal with H : Throw _ = Throw _ |- _ => inversion H; reflexivity end.
Qed.

(** ** The recommended start cursor (jetstream-service.ts) *)


(** What a stop that saves a cursor leaves behind. *)
Lemma stop_saves w c :
  faults w = [] -> lastCursor (main w) = Some c -> c <> 0 ->
  cursorAtStop (main (stop w).2) = Some c
  /\ stoppedAt (main (stop w).2) = Some (clock w)
  /\ stored_setting (db (stop w).2) "jetstream_stop_cursor" = Some (SettingNum c)
  /\ stored_setting (db (stop w).2) "jetstream_stop_time"
     = Some (SettingNum (clock w)).
Proof.
  intros Hf Hlc Hc.
  destruct w as [d f c0 t r1 r2 r3 h ri mx mn hp mg].
  destruct mn as [sock pd ra sr rt cd lc stt bf lag lh sa cs].
  simpl in Hf, Hlc. subst f lc.
  unfold stop, saveSetting, Date_now, update_main, triggerMonitoringStatusBroadcast,
    when, emit, pool_query, bind, modify, gets, ret, stored_setting.
  simpl. rewrite (bool_decide_eq_false_2 _ Hc). simpl.
  destruct rt as [rt0|]; destruct sock as [sock0|]; simpl;
    (split; [reflexivity|]; split; [reflexivity|]; split;
     [ rewrite (setting_after_save "jetstream_stop_time" _ "jetstream_stop_cursor");
       simpl; rewrite (setting_after_save "jetstream_stop_cursor" _
                         "jetstream_stop_cursor"); reflexivity
     | rewrite (setting_after_save "jetstream_stop_time" _ "jetstream_stop_time");
       reflexivity ]).
Qed.

(** X11. After a stop that the database answers and that held a cursor, the
    recommended start cursor is that cursor while the stop is less than 24
    hours old, and the current time, in microseconds, from then on. This
    holds in the process that stopped the stream and in a process started
    afterwards on the same database, which reads the cursor and the time of
    the stop back from the settings. *)
Theorem recommended_cursor_after_stop w c w2 :
  faults w = [] -> lastCursor (main w) = Some c -> c <> 0 ->
  faults w2 = [] -> db w2 = db (stop w).2 ->
  main w2 = main (stop w).2 \/ main w2 = new_JetstreamService ->
  (getRecommendedStartCursor w2).1
  = Ok (if clock w2 - clock w <? 24 * 60 * 60 * 1000 then c else clock w2 * 1000).
Proof.
  intros Hf Hlc Hc Hf2 Hdb Hmain.
  destruct (stop_saves w c Hf Hlc Hc) as (Hcs & Hst & Hsc & Hstt).
  unfold stored_setting in Hsc, Hstt. rewrite <- Hdb in Hsc, Hstt.
  unfold getRecommendedStartCursor. rewrite !bind_gets. cbv beta.
  destruct Hmain as [Hm | Hm]; rewrite Hm.
  - rewrite Hcs, Hst. cbn [truthy_number].
    rewrite (bool_decide_eq_false_2 _ Hc). simpl.
    unfold Date_now, bind, gets, ret. simpl.
    rewrite (bool_decide_eq_false_2 _ Hc). simpl.
    destruct (_ <? _); reflexivity.
  - cbn [cursorAtStop stoppedAt new_JetstreamService truthy_number negb orb].
    rewrite bind_assoc.
    rewrite (bind_Ok _ _ _ _ _ (loadSetting_run _ w2 Hf2)). rewrite Hsc.
    rewrite bind_assoc.
    rewrite (bind_Ok _ _ _ _ _ (loadSetting_run _ w2 Hf2)). rewrite Hstt.
    cbn [number_setting truthy_number].
    rewrite (bool_decide_eq_false_2 _ Hc).
    unfold update_main, when, Date_now, bind, modify, gets, ret. simpl.
    rewrite (bool_decide_eq_false_2 _ Hc). simpl.
    destruct (_ <? _); reflexivity.
Qed.

Lemma recommended_cursor_after_stop_witness :
  (getRecommendedStartCursor
     (set_clock 1700003600000 (stop world_connected).2)).1
  = Ok 1699999999000000.
Proof.
  exact (recommended_cursor_after_stop world_connected 1699999999000000
           (set_clock 1700003600000 (stop world_connected).2)
           eq_refl eq_refl ltac:(discriminate) eq_refl eq_refl (or_introl eq_refl)).
Defined.

(** ** What the main stream requests after a reload *)

(** X12. After a reload of the DID set that the database answers, the
    options message that the main stream sends when its socket opens asks
    only for monitoring users and followed DIDs that are not on the ignore
    list; and as long as there are at most 10 000 monitoring users that are
    not ignored, it asks for every one of them (the cap of the message cuts
    followed DIDs first). *)
Theorem main_stream_requests_after_reload w :
  faults w = [] ->
  let w1 := (reloadDIDs w).2 in
  ws (main w1) <> None ->
  exists msg,
    sent (trace (on_open w1).2) = (sent (trace w1) ++ [(MainStream, msg)])%list
    /\ (forall did, In did (om_wantedDids msg) ->
          (monitoring_user (db w) did \/ followed_did (db w) did)
          /\ ~ ignored did (db w))
    /\ (Z.of_nat (length (reload_users (db w))) <= MAX_WANTED_DIDS ->
        forall did, monitoring_user (db w) did -> ~ ignored did (db w) ->
                    In did (om_wantedDids msg)).
Proof.
  intros Hf w1 Hws. eexists. split; [apply (on_open_sent w1 Hws)|]. simpl.
  subst w1. rewrite (reloadDIDs_currentDIDs w Hf). split.
  - intros did Hin. apply reload_dids_spec. apply list_elem_of_In.
    rewrite <- (firstn_skipn (Z.to_nat MAX_WANTED_DIDS) (reload_dids (db w))).
    apply in_or_app. left. exact Hin.
  - intros Hlen did Hu Hi. unfold reload_dids.
    rewrite firstn_app. apply in_or_app. left.
    rewrite firstn_all2 by lia.
    apply list_elem_of_In. apply reload_users_spec. auto.
Qed.

Lemma main_stream_requests_after_reload_witness :
  exists msg,
    sent (trace (on_open (reloadDIDs world_monitoring).2).2)
    = (sent (trace (reloadDIDs world_monitoring).2) ++ [(MainStream, msg)])%list
    /\ (forall did, In did (om_wantedDids msg) ->
          (monitoring_user (db world_monitoring) did
           \/ followed_did (db world_monitoring) did)
          /\ ~ ignored did (db world_monitoring))
    /\ (Z.of_nat (length (reload_users (db world_monitoring))) <= MAX_WANTED_DIDS ->
        forall did, monitoring_user (db world_monitoring) did ->
                    ~ ignored did (db world_monitoring) ->
                    In did (om_wantedDids msg)).
Proof.
  exact (main_stream_requests_after_reload world_monitoring eq_refl
           ltac:(vm_compute; discriminate)).
Defined.


(** ** The capacity check of the manager (jetstream-temp.ts, canStartStream) *)


(** ** Stopping a temporary stream (jetstream-temp.ts, stop) *)

#[local] Instance keeps_object_frame obj : Frame (keeps_object obj).
Proof. split; unfold keeps_object; simpl; eauto. Qed.

(** Updates of an object other than [obj]. *)
Ltac object_leaf :=
  intros; unfold keeps_object; simpl;
  repeat match goal with |- context [match ?b with _ => _ end] => destruct b end;
  simpl; eauto;
  let t := fresh "t" in let Ht := fresh "Ht" in
  intros t Ht;
  first
    [ rewrite lookup_alter_ne by congruence; exact Ht
    | eauto ].

Lemma temp_start_keeps_object obj service :
  service <> obj -> preserves (keeps_object obj) (Temp.start service).
Proof. intros Hne. frame_all object_leaf. Qed.

Lemma temp_startStreamForUser_keeps_object obj userDID follows :
  preserves (keeps_object obj) (Temp.startStreamForUser userDID follows).
Proof.
  unfold Temp.startStreamForUser.
  apply preserves_bind; [apply _ | frame_all object_leaf |]. intros userHandle.
  apply preserves_bind; [apply _ | frame_all object_leaf |]. intros ignoredRows.
  cbv zeta. destruct (bool_decide _); [frame_all object_leaf|].
  intros w t Ht.
  rewrite (bind_Ok _ _ _ _ _ (new_service_run _ _ _ _)).
  pose proof (fresh_address_ne _ _ _ Ht) as Hne.
  set (service := fresh (dom (heap w))) in *.
  match goal with |- context [(?rest ?w1).2] =>
    assert (Hrest : preserves (keeps_object obj) rest)
      by (pose proof (temp_start_keeps_object obj service Hne);
          frame_all object_leaf);
    apply (Hrest w1)
  end.
  simpl. rewrite lookup_insert_ne by exact Hne. exact Ht.
Qed.

Lemma temp_finalizeStream_keeps_object obj userDID triggeredByManager :
  preserves (keeps_object obj) (Temp.finalizeStream userDID triggeredByManager).
Proof.
  pose proof (temp_startStreamForUser_keeps_object obj) as Hstart.
  frame_all object_leaf.
Qed.

Lemma set_heap_id w : set_heap (heap w) w = w.
Proof. destruct w; reflexivity. Qed.

(** An update that does not change the object is no update. *)
Lemma temp_update_id obj f t w :
  heap w !! obj = Some t -> f t = t -> Temp.update obj f w = (Ok tt, w).
Proof.
  intros Ht Hf. unfold Temp.update, modify.
  rewrite alter_id, set_heap_id; [reflexivity|].
  intros x Hx. rewrite Ht in Hx. injection Hx as <-. exact Hf.
Qed.

(** Stopping a stopped service does nothing. *)
Lemma temp_stop_stopped obj b t w :
  heap w !! obj = Some t -> stopped_service t -> Temp.stop obj b w = (Ok tt, w).
Proof.
  intros Ht (Hrun & Htimer & Hatt & Hws & Hstopped).
  unfold Temp.stop, Temp.method, Temp.this. rewrite bind_gets, Ht.
  rewrite Htimer, Hws, Hstopped.
  rewrite !bool_decide_eq_false_2 by apply is_Some_None. cbn [when].
  assert (H1 : set_t_shouldRun false t = t)
    by (destruct t; simpl in *; subst; reflexivity).
  assert (H2 : set_t_reconnectAttempts 0 t = t)
    by (destruct t; simpl in *; subst; reflexivity).
  rewrite (bind_Ok _ _ _ _ _ (temp_update_id _ _ _ _ Ht H1)).
  rewrite bind_ret.
  rewrite (bind_Ok _ _ _ _ _ (temp_update_id _ _ _ _ Ht H2)).
  rewrite bind_ret. reflexivity.
Qed.

Lemma bind_update {B} obj f (k : unit -> M B) w :
  bind (Temp.update obj f) k w = k tt (set_heap (alter f obj (heap w)) w).
Proof. reflexivity. Qed.

Lemma bind_regroup {B} (a b c d : M unit) (k : unit -> M B) w :
  bind a (fun _ => bind b (fun _ => bind c (fun _ => bind d k))) w
  = bind (bind a (fun _ => bind b (fun _ => bind c (fun _ => d)))) k w.
Proof.
  unfold bind.
  destruct (a w) as [[[]|?] w1]; [|reflexivity].
  destruct (b w1) as [[[]|?] w2]; [|reflexivity].
  destruct (c w2) as [[[]|?] w3]; reflexivity.
Qed.

(** A stop leaves the service stopped, and does not throw. *)
Lemma temp_stop_stops obj b t w :
  heap w !! obj = Some t ->
  (Temp.stop obj b w).1 = Ok tt
  /\ exists t1, heap (Temp.stop obj b w).2 !! obj = Some t1 /\ stopped_service t1.
Proof.
  intros Ht. unfold Temp.stop, Temp.method, Temp.this. rewrite bind_gets, Ht.
  assert (Hprefix : exists w1 t1,
    (Temp.update obj (set_t_shouldRun false) ;;
     when (bool_decide (is_Some (t_reconnectTimeout t))) (
       emit (clear_timeout (TempStream obj)) ;;
       Temp.update obj (set_t_reconnectTimeout None)) ;;
     Temp.update obj (set_t_reconnectAttempts 0) ;;
     when (bool_decide (is_Some (t_ws t))) (
       emit (ws_close (TempStream obj)) ;;
       Temp.update obj (set_t_ws None))) w = (Ok tt, w1)
    /\ heap w1 !! obj = Some t1
    /\ t_shouldRun t1 = false /\ t_reconnectTimeout t1 = None
    /\ t_reconnectAttempts t1 = 0 /\ t_ws t1 = None
    /\ t_hasStopped t1 = t_hasStopped t).
  { unfold Temp.update, when, emit, bind, modify, ret.
    destruct t as [u hd fl sock pd st ra rt sr lc ic lh hs]; simpl.
    destruct rt as [rt0|]; destruct sock as [sock0|]; simpl;
      eexists _, _; (split; [reflexivity|]); simpl;
      rewrite !lookup_alter_eq, Ht; simpl; repeat split. }
  destruct Hprefix as (w1 & t1 & Hrun & Ht1 & F1 & F2 & F3 & F4 & F5).
  match goal with |- context [bind ?a (fun _ => bind ?b (fun _ => bind ?c (fun _ => bind ?d ?k)))] =>
    assert (Hsplit : forall w0,
      bind a (fun _ => bind b (fun _ => bind c (fun _ => bind d k))) w0
      = bind (bind a (fun _ => bind b (fun _ => bind c (fun _ => d)))) k w0)
      by (intros w0; apply bind_regroup);
    rewrite Hsplit; clear Hsplit
  end.
  rewrite (bind_Ok _ _ _ _ _ Hrun).
  destruct (t_hasStopped t) eqn:Hs.
  - simpl. split; [reflexivity|]. exists t1. split; [exact Ht1|].
    repeat split; assumption.
  - cbv iota. rewrite bind_update.
    set (w2 := set_heap _ w1).
    assert (Ht2 : heap w2 !! obj = Some (set_t_hasStopped true t1)).
    { subst w2. simpl. rewrite lookup_alter_eq, Ht1. reflexivity. }
    pose proof (temp_finalizeStream_keeps_object obj (t_userDID t) b w2 _ Ht2) as Hfin.
    unfold try_catch.
    destruct (Temp.finalizeStream (t_userDID t) b w2) as [[[]|err] w3]; simpl in *.
    + split; [reflexivity|]. eexists. split; [exact Hfin|].
      destruct t1; simpl in *; repeat split; assumption.
    + split; [reflexivity|]. eexists. split; [exact Hfin|].
      destruct t1; simpl in *; repeat split; assumption.
Qed.

(** X14. The stop of a temporary stream is idempotent, as the guard of the
    source intends: [stop] never throws, and a second [stop] of the same
    service, by whomever it is triggered, returns and leaves the whole world
    as the first one left it (nothing is closed, finalized or promoted a
    second time). *)
Theorem temp_stop_idempotent obj triggeredByManager triggeredByManager' w :
  let w1 := (Temp.stop obj triggeredByManager w).2 in
  (Temp.stop obj triggeredByManager w).1 = Ok tt
  /\ Temp.stop obj triggeredByManager' w1 = (Ok tt, w1).
Proof.
  intros w1. destruct (heap w !! obj) as [t|] eqn:Ht.
  - destruct (temp_stop_stops obj triggeredByManager t w Ht)
      as (Hok & t1 & Ht1 & Hstopped).
    split; [exact Hok|]. apply (temp_stop_stopped _ _ t1); assumption.
  - assert (Hrun : forall b, Temp.stop obj b w = (Ok tt, w)).
    { intros b. unfold Temp.stop, Temp.method, Temp.this.
      rewrite bind_gets, Ht. reflexivity. }
    subst w1. rewrite !Hrun. split; reflexivity.
Qed.

(** ** The end of a backfill (jetstream-temp.ts, processEvent) *)

#[local] Instance keeps_changes_and_follows_frame : Frame keeps_changes_and_follows.
Proof.
  split; unfold keeps_changes_and_follows; simpl; auto.
  - intros w1 w2 w3 [H1 H2] [H3 H4]. split; congruence.
Qed.

Ltac tables_leaf :=
  intros; unfold keeps_changes_and_follows; simpl;
  repeat match goal with |- context [if ?b then _ else _] => destruct b end;
  simpl; auto.

Lemma temp_stop_keeps_tables obj triggeredByManager :
  preserves keeps_changes_and_follows (Temp.stop obj triggeredByManager).
Proof. frame_all tables_leaf. Qed.

(** X15. An event whose time is at or after the start of the temporary
    stream ends the backfill: the stream takes the time of the event as its
    cursor and stops (it will not run again, its socket is dropped, its stop
    is recorded), [processEvent] returns, and the event itself is not handled:
    the change table and the follow table are as before. *)
Theorem temp_catch_up_stops_stream obj t event w :
  heap w !! obj = Some t ->
  ev_time_us event <> 0 -> t_startTime t * 1000 <= ev_time_us event ->
  let w' := (Temp.processEvent obj event w).2 in
  (Temp.processEvent obj event w).1 = Ok tt
  /\ (exists t', heap w' !! obj = Some t' /\ stopped_service t'
                 /\ t_lastCursor t' = Some (ev_time_us event))
  /\ profile_changes (db w') = profile_changes (db w)
  /\ monitored_follows (db w') = monitored_follows (db w).
Proof.
  intros Ht Hne Hle.
  assert (Hcond : negb (bool_decide (ev_time_us event = 0))
                  && Qle_bool (inject_Z (t_startTime t)) (ev_time_us event # 1000)
                  = true).
  { rewrite bool_decide_eq_false_2 by exact Hne. simpl.
    apply Qle_bool_iff. unfold Qle. simpl. lia. }
  unfold Temp.processEvent, Temp.method, Temp.this.
  rewrite bind_gets, Ht. unfold try_catch.
  rewrite Hcond. rewrite bool_decide_eq_false_2 by exact Hne. cbn [negb when].
  rewrite bind_update.
  set (w1 := set_heap _ w).
  assert (Ht1 : heap w1 !! obj = Some (set_t_lastCursor (Some (ev_time_us event)) t)).
  { subst w1. simpl. rewrite lookup_alter_eq, Ht. reflexivity. }
  destruct (temp_stop_stops obj false _ w1 Ht1) as (Hok & t2 & Ht2 & Hstopped).
  destruct (temp_stop_keeps_cursor obj obj false w1 _ Ht1) as (t3 & Ht3 & Hcur).
  destruct (temp_stop_keeps_tables obj false w1) as [Hpc Hmf].
  destruct (Temp.stop obj false w1) as [[[]|e] w2]; simpl in *; [|discriminate].
  split; [reflexivity|]. split; [|split; assumption].
  exists t2. split; [exact Ht2|]. split; [exact Hstopped|].
  rewrite Ht2 in Ht3. injection Ht3 as <-. rewrite Hcur.
  destruct t; reflexivity.
Qed.

Lemma temp_catch_up_stops_stream_witness :
  exists t',
    heap (Temp.processEvent 0 (identity_event 1700000000000000) world_temp).2 !! 0%nat
    = Some t'
    /\ stopped_service t' /\ t_lastCursor t' = Some 1700000000000000.
Proof.
  assert (Ht : heap world_temp !! 0%nat
               = Some {| t_userDID := "did:plc:user";
                         t_userHandle := Some "user.example";
                         t_follows := ["did:plc:alice"];
                         t_ws := Some {| ws_host := "jetstream.example";
                                         ws_cursor := Some 1699913600000000 |};
                         t_profileData := ∅; t_startTime := 1700000000000;
                         t_reconnectAttempts := 0; t_reconnectTimeout := None;
                         t_shouldRun := true; t_lastCursor := None;
                         t_initialCursor := Some 1699913600000000;
                         t_lastHost := Some "jetstream.example";
                         t_hasStopped := false |})
    by (vm_compute; reflexivity).
  exact (proj1 (proj2 (temp_catch_up_stops_stream 0 _
                         (identity_event 1700000000000000) world_temp Ht
                         ltac:(discriminate) ltac:(simpl; lia)))).
Defined.

(** ** Reconnects of a temporary stream (jetstream-temp.ts) *)

(** One close of the socket of a stream that should run. *)
Lemma temp_on_close_running obj t w :
  heap w !! obj = Some t -> t_shouldRun t = true ->
  let delay := Z.min (1000 * 2 ^ (t_reconnectAttempts t + 1)) 30000 in
  Temp.on_close obj w
  = (Ok tt,
     set_trace (trace w ++ [set_timeout (TempStream obj) delay; status_broadcast])
       (set_heap
          (<[obj := set_t_reconnectTimeout (Some delay)
                      (set_t_reconnectAttempts (t_reconnectAttempts t + 1)
                         (set_t_ws None t))]> (heap w)) w)).
Proof.
  intros Ht Hrun delay. unfold Temp.on_close, Temp.method, Temp.this.
  rewrite bind_gets, Ht, Hrun. cbn [negb].
  unfold Temp.update, triggerMonitoringStatusBroadcast, emit, bind, modify, ret.
  destruct w as [d f c tr r1 r2 r3 h ri mx mn hp mg]. simpl in *.
  unfold set_trace, set_heap. simpl. rewrite <- app_assoc. simpl.
  f_equal. f_equal.
  apply map_eq. intros i. destruct (decide (i = obj)) as [->|Hne].
  - rewrite !lookup_alter_eq, lookup_insert_eq, Ht. reflexivity.
  - rewrite !lookup_alter_ne, lookup_insert_ne by congruence. reflexivity.
Qed.

(** X16. A temporary stream backs off. After the socket of a running stream
    whose attempt counter is zero (as it is after a start or an open) has
    closed [k] times in a row, for [k] at least one, the stream has no socket,
    has counted [k] attempts, and the last close has scheduled the reconnect
    after min(1000 * 2^k, 30000) ms, which is never less than 2 s and never
    more than 30 s. *)
Theorem temp_reconnect_backoff obj t w (k : nat) :
  heap w !! obj = Some t -> t_shouldRun t = true -> t_reconnectAttempts t = 0 ->
  let delay := Z.min (1000 * 2 ^ Z.of_nat (S k)) 30000 in
  (exists t',
     heap (temp_closes obj (S k) w) !! obj = Some t'
     /\ t_ws t' = None /\ t_shouldRun t' = true
     /\ t_reconnectAttempts t' = Z.of_nat (S k)
     /\ t_reconnectTimeout t' = Some delay)
  /\ trace (temp_closes obj (S k) w)
     = (trace (temp_closes obj k w)
        ++ [set_timeout (TempStream obj) delay; status_broadcast])%list
  /\ 2000 <= delay <= 30000.
Proof.
  intros Ht Hrun Hatt.
  assert (Hk : forall k : nat,
    exists tk, heap (temp_closes obj k w) !! obj = Some tk
               /\ t_shouldRun tk = true /\ t_reconnectAttempts tk = Z.of_nat k).
  { clear k. induction k as [|k (tk & Htk & Hr & Ha)].
    - exists t. simpl. auto.
    - simpl temp_closes. rewrite (temp_on_close_running obj tk _ Htk Hr).
      eexists. simpl. rewrite lookup_insert_eq. split; [reflexivity|].
      destruct tk; simpl in *. split; [exact Hr | lia]. }
  destruct (Hk k) as (tk & Htk & Hr & Ha).
  cbv zeta. simpl temp_closes.
  rewrite (temp_on_close_running obj tk _ Htk Hr). simpl.
  rewrite lookup_insert_eq, Ha.
  replace (Z.of_nat k + 1) with (Z.of_nat (S k)) by lia.
  split; [|split; [reflexivity|]].
  - eexists. split; [reflexivity|]. destruct tk; simpl in *. auto.
  - assert (H2 : 2 ^ 1 <= 2 ^ Z.of_nat (S k))
      by (apply Z.pow_le_mono_r; lia).
    change (2 ^ 1) with 2 in H2. lia.
Qed.

Lemma temp_reconnect_backoff_witness :
  exists t',
    heap (temp_closes 0 3 world_temp) !! 0%nat = Some t'
    /\ t_ws t' = None /\ t_shouldRun t' = true
    /\ t_reconnectAttempts t' = 3
    /\ t_reconnectTimeout t' = Some 8000.
Proof.
  assert (Ht : heap world_temp !! 0%nat
               = Some {| t_userDID := "did:plc:user";
                         t_userHandle := Some "user.example";
                         t_follows := ["did:plc:alice"];
                         t_ws := Some {| ws_host := "jetstream.example";
                                         ws_cursor := Some 1699913600000000 |};
                         t_profileData := ∅; t_startTime := 1700000000000;
                         t_reconnectAttempts := 0; t_reconnectTimeout := None;
                         t_shouldRun := true; t_lastCursor := None;
                         t_initialCursor := Some 1699913600000000;
                         t_lastHost := Some "jetstream.example";
                         t_hasStopped := false |})
    by (vm_compute; reflexivity).
  exact (proj1 (temp_reconnect_backoff 0 _ world_temp 2 Ht eq_refl eq_refl)).
Defined.

(** ** Ignored DIDs are not requested upstream *)

#[local] Instance keeps_follows_frame obj : Frame (keeps_follows obj).
Proof.
  split; unfold keeps_follows; simpl; eauto.
  intros w1 w2 w3 H12 H23 t Ht.
  destruct (H12 t Ht) as (t2 & Ht2 & E2).
  destruct (H23 t2 Ht2) as (t3 & Ht3 & E3).
  exists t3. split; [exact Ht3 | congruence].
Qed.

#[local] Instance keeps_domain_frame : Frame keeps_domain.
Proof. split; unfold keeps_domain; simpl; eauto. Qed.

Ltac follows_leaf :=
  intros; unfold keeps_follows; simpl;
  repeat match goal with |- context [match ?b with _ => _ end] => destruct b end;
  simpl; eauto;
  let t := fresh "t" in let Ht := fresh "Ht" in
  intros t Ht;
  first
    [ rewrite lookup_alter; case_decide;
      [ subst; rewrite Ht; simpl; eexists; split; reflexivity
      | eauto ]
    | eauto ].

Ltac domain_leaf :=
  intros; unfold keeps_domain; simpl;
  repeat match goal with |- context [match ?b with _ => _ end] => destruct b end;
  simpl; eauto;
  let o := fresh "o" in let Ho := fresh "Ho" in
  intros o Ho;
  first
    [ rewrite lookup_alter; case_decide; [subst; rewrite Ho; reflexivity | exact Ho]
    | eauto ].

Lemma temp_startStreamForUser_keeps_follows obj userDID follows :
  preserves (keeps_follows obj) (Temp.startStreamForUser userDID follows).
Proof.
  unfold Temp.startStreamForUser.
  apply preserves_bind; [apply _ | frame_all follows_leaf |]. intros userHandle.
  apply preserves_bind; [apply _ | frame_all follows_leaf |]. intros ignoredRows.
  cbv zeta. destruct (bool_decide _); [frame_all follows_leaf|].
  intros w t Ht.
  rewrite (bind_Ok _ _ _ _ _ (new_service_run _ _ _ _)).
  pose proof (fresh_address_ne _ _ _ Ht) as Hne.
  set (service := fresh (dom (heap w))) in *.
  match goal with |- context [(?rest ?w1).2] =>
    assert (Hrest : preserves (keeps_follows obj) rest)
      by frame_all follows_leaf;
    apply (Hrest w1)
  end.
  simpl. rewrite lookup_insert_ne by exact Hne. exact Ht.
Qed.

Lemma run_keeps_follows obj a : preserves (keeps_follows obj) (run a).
Proof.
  pose proof (temp_startStreamForUser_keeps_follows obj) as Hstart.
  destruct a; unfold run; frame_all follows_leaf.
Qed.

Lemma exec_all_keeps_follows obj actions : forall w t,
  heap w !! obj = Some t ->
  exists t', heap (exec_all w actions) !! obj = Some t' /\ t_follows t' = t_follows t.
Proof.
  induction actions as [|a actions IH]; intros w t Ht; simpl.
  - eauto.
  - destruct (run_keeps_follows obj a w t Ht) as (t1 & Ht1 & E1).
    destruct (IH _ t1 Ht1) as (t2 & Ht2 & E2).
    exists t2. split; [exact Ht2 | congruence].
Qed.

(** The follow list of the service that [startStreamForUser] creates. *)
Lemma startStreamForUser_creates userDID follows w obj t1 :
  heap w !! obj = None ->
  heap (Temp.startStreamForUser userDID follows w).2 !! obj = Some t1 ->
  forall did, In did (t_follows t1) <-> In did follows /\ ~ ignored did (db w).
Proof.
  intros Hnone Hsome. unfold Temp.startStreamForUser in Hsome.
  destruct (resolveHandle_run userDID w) as (userHandle & ws & c & Hr & _).
  rewrite (bind_Ok _ _ _ _ _ Hr) in Hsome. clear Hr.
  change (db w) with (db (set_handleCache c (set_trace (trace w ++ ws) w))).
  change (heap w)
    with (heap (set_handleCache c (set_trace (trace w ++ ws) w))) in Hnone.
  generalize dependent (set_handleCache c (set_trace (trace w ++ ws) w)).
  clear w. intros w Hnone Hsome.
  unfold getIgnoredUsers in Hsome.
  match type of Hsome with context [bind (pool_query ?s) _ _] =>
    destruct (pool_query_cases s w) as [H|H] end.
  { rewrite (bind_Throw _ _ _ _ _ H) in Hsome. simpl in Hsome. congruence. }
  rewrite (bind_Ok _ _ _ _ _ H) in Hsome. clear H. cbv zeta in Hsome.
  cbn [fst snd] in Hsome.
  set (w0 := set_db (db w) (set_faults (tail (faults w)) w)) in *.
  set (filtered := List.filter _ follows) in *.
  assert (Hfiltered : forall did, In did filtered <-> In did follows /\ ~ ignored did (db w)).
  { intros did. subst filtered. rewrite filter_In, negb_true_iff,
      bool_decide_eq_false, ignored_set_spec. reflexivity. }
  destruct (bool_decide (length filtered = 0%nat)).
  - exfalso.
    match type of Hsome with context [(?rest w0).2] =>
      assert (Hrest : preserves keeps_domain rest) by frame_all domain_leaf;
      pose proof (Hrest w0 obj Hnone) as Hn
    end.
    congruence.
  - rewrite (bind_Ok _ _ _ _ _ (new_service_run _ _ _ _)) in Hsome.
    set (service := fresh (dom (heap w0))) in *.
    match type of Hsome with context [(?rest ?w1).2] =>
      assert (Hdom : preserves keeps_domain rest) by frame_all domain_leaf;
      assert (Hfol : preserves (keeps_follows service) rest)
        by frame_all follows_leaf;
      pose proof (fun H => Hdom w1 obj H : heap (rest w1).2 !! obj = None) as Hn;
      pose proof (fun t => Hfol w1 t) as Hf
    end.
    destruct (decide (obj = service)) as [->|Hne].
    + edestruct Hf as (t' & Ht' & E); [simpl; apply lookup_insert_eq|].
      rewrite Ht' in Hsome. injection Hsome as <-. simpl in E.
      intros did. rewrite E. apply Hfiltered.
    + exfalso. rewrite Hn in Hsome; [discriminate|].
      cbn [heap set_heap]. rewrite lookup_insert_ne by congruence. exact Hnone.
Qed.

(** X17. A temporary stream asks the upstream for the follow list it was
    started with. The follow list of a service that [startForUser] creates
    holds exactly the DIDs of the request that were not on the ignore list at
    that time; after any sequence of calls that follow one another the
    service is still there with that list, and each time its socket opens it
    sends one options message, whose wanted DIDs are that list. The list is
    not filtered again: a DID that is put on the ignore list after the start
    is still asked for. *)
Theorem temp_stream_requests_its_follow_list userDID follows w obj t1 actions :
  heap w !! obj = None ->
  heap (Temp.startForUser userDID follows w).2 !! obj = Some t1 ->
  (forall did, In did (t_follows t1) <-> In did follows /\ ~ ignored did (db w))
  /\ let w2 := exec_all (Temp.startForUser userDID follows w).2 actions in
     exists t2,
       heap w2 !! obj = Some t2 /\ t_follows t2 = t_follows t1
       /\ (t_ws t2 <> None ->
           sent (trace (Temp.on_open obj w2).2)
           = (sent (trace w2) ++
              [(TempStream obj,
                {| om_type := "options_update";
                   om_wantedCollections := wantedCollections;
                   om_wantedDids := t_follows t1;
                   om_maxMessageSizeBytes := 0 |})])%list).
Proof.
  intros Hnone Hsome. split.
  - unfold Temp.startForUser, Temp.at_capacity in Hsome.
    rewrite bind_gets in Hsome. cbv beta in Hsome.
    destruct (bool_decide (is_Some _)); [simpl in Hsome; congruence|].
    rewrite bind_gets in Hsome. cbv beta in Hsome.
    destruct (maxConcurrentTempStreams w <=? _).
    + simpl in Hsome. congruence.
    + apply (startStreamForUser_creates userDID follows w obj); [exact Hnone|].
      unfold bind in Hsome.
      destruct (Temp.startStreamForUser userDID follows w) as [[[]|e] w1];
        exact Hsome.
  - intros w2.
    destruct (exec_all_keeps_follows obj actions _ _ Hsome) as (t2 & Ht2 & E).
    exists t2. split; [exact Ht2|]. split; [exact E|]. intros Hws.
    rewrite (temp_on_open_sent obj t2 w2 Ht2 Hws), E. reflexivity.
Qed.

(** Alice is put on the ignore list after the stream of a user who follows
    her was started: when the socket opens again, alice is asked for. *)
Lemma temp_stream_requests_its_follow_list_witness :
  let w1 := (Temp.startForUser "did:plc:user" ["did:plc:alice"] world0).2 in
  let w2 := exec_all w1 [AdminAddIgnoredUser "did:plc:alice"] in
  ignored "did:plc:alice" (db w2)
  /\ sent (trace (Temp.on_open 0%nat w2).2)
     = (sent (trace w2) ++
        [(TempStream 0%nat,
          {| om_type := "options_update";
             om_wantedCollections := wantedCollections;
             om_wantedDids := ["did:plc:alice"];
             om_maxMessageSizeBytes := 0 |})])%list.
Proof.
  intros w1 w2.
  set (t1 := {| t_userDID := "did:plc:user";
                t_userHandle := Some "user.example";
                t_follows := ["did:plc:alice"];
                t_ws := Some {| ws_host := "jetstream.example";
                                ws_cursor := Some 1699913600000000 |};
                t_profileData := ∅; t_startTime := 1700000000000;
                t_reconnectAttempts := 0; t_reconnectTimeout := None;
                t_shouldRun := true; t_lastCursor := None;
                t_initialCursor := Some 1699913600000000;
                t_lastHost := Some "jetstream.example";
                t_hasStopped := false |}).
  assert (Hnone : heap world0 !! 0%nat = None) by reflexivity.
  assert (Hsome : heap w1 !! 0%nat = Some t1) by (vm_compute; reflexivity).
  assert (Hlater : heap w2 !! 0%nat = Some t1) by (vm_compute; reflexivity).
  split.
  - exists {| iu_did := "did:plc:alice"; iu_added_at := 1700000000000 |}.
    split; [vm_compute; left; reflexivity | reflexivity].
  - destruct (proj2 (temp_stream_requests_its_follow_list "did:plc:user"
                       ["did:plc:alice"] world0 0 t1
                       [AdminAddIgnoredUser "did:plc:alice"] Hnone Hsome))
      as (t2 & Ht2 & _ & Hsent).
    apply Hsent. fold w1 w2 in Ht2. rewrite Hlater in Ht2.
    injection Ht2 as <-. discriminate.
Defined.


(** ** The routes of the change table and of the ignore list *)

Lemma select_limit_1_In {A} (p : A -> bool) rows x xs :
  select_limit_1 p rows = x :: xs -> In x rows /\ p x = true.
Proof.
  unfold select_limit_1. intros H.
  assert (Hin : In x (List.filter p rows)).
  { destruct (List.filter p rows) as [|y ys]; [discriminate|].
    simpl in H. injection H as -> _. left. reflexivity. }
  apply filter_In in Hin. exact Hin.
Qed.

Lemma head_filter_In {A} (p : A -> bool) rows x :
  In x rows -> p x = true ->
  exists y, head (List.filter p rows) = Some y /\ In y rows /\ p y = true.
Proof.
  intros Hx Hp.
  assert (Hin : In x (List.filter p rows)) by (apply filter_In; auto).
  destruct (List.filter p rows) as [|y ys] eqn:E; [destruct Hin|].
  exists y. split; [reflexivity|].
  apply filter_In. rewrite E. left. reflexivity.
Qed.

Lemma pool_query_fault_cases {A} (stmt : Db -> A * Db) w :
  (pool_query stmt w = (Throw DbError, set_faults (tail (faults w)) w)
   /\ head (faults w) = Some true)
  \/ pool_query stmt w
     = (Ok (stmt (db w)).1,
        set_db (stmt (db w)).2 (set_faults (tail (faults w)) w)).
Proof.
  unfold pool_query. destruct (stmt (db w)) as [a d].
  destruct (faults w) as [|[] fs]; simpl; auto.
Qed.

Lemma head_In {A} (x : A) l : head l = Some x -> In x l.
Proof. destruct l; simpl; [discriminate|]. intros [= ->]. left. reflexivity. Qed.

Ltac fault_seen :=
  left; simpl in *; split; [reflexivity|]; split; [reflexivity|];
  first [ apply head_In; assumption
        | apply In_tail; apply head_In; assumption
        | apply In_tail; apply In_tail; apply head_In; assumption ].

Ltac step_fault_query :=
  match goal with
  | |- context [bind (pool_query ?s) ?k ?w] =>
      let H := fresh "Hq" in
      let Hh := fresh "Hhd" in
      destruct (pool_query_fault_cases s w) as [[H Hh]|H];
      [ rewrite (bind_Throw _ _ _ _ _ H) | rewrite (bind_Ok _ _ _ _ _ H) ];
      clear H
  end.

(** The three ways [insertChange] ends: a statement fails and nothing is
    stored; the DID is ignored and nothing is stored; or a row of the table
    is returned. *)
Lemma insertChange_outcome c lp w :
  let r := insertChange c lp w in
  (r.1 = Throw DbError /\ db r.2 = db w /\ In true (faults w))
  \/ (r.1 = Ok None /\ db r.2 = db w /\ ignored (sc_did c) (db w))
  \/ (exists row, r.1 = Ok (Some row) /\ In row (profile_changes (db r.2))
                  /\ not_ignored (sc_did c) (db w)).
Proof.
  cbv zeta. unfold insertChange.
  step_fault_query.
  { fault_seen. }
  simpl.
  destruct (select_limit_1 _ (ignored_users (db w))) as [|u us] eqn:Eign; simpl.
  2:{ right. left. split; [reflexivity|]. split; [reflexivity|].
      apply select_limit_1_In in Eign as [Hu Hd].
      apply bool_decide_eq_true in Hd. exists u. auto. }
  assert (Hni : not_ignored (sc_did c) (db w)).
  { intros u Hu. pose proof (select_limit_1_nil_inv _ _ Eign u Hu) as Hne.
    apply bool_decide_eq_false in Hne. exact Hne. }
  step_fault_query.
  { fault_seen. }
  simpl.
  destruct (select_limit_1 (same_change c) _) as [|dup dups] eqn:Edup.
  - unfold Date_now. rewrite bind_gets. cbv beta.
    step_fault_query.
    { fault_seen. }
    simpl. right. right. eexists. split; [reflexivity|]. split; [|exact Hni].
    apply in_or_app. right. left. reflexivity.
  - step_fault_query.
    { fault_seen. }
    simpl. apply select_limit_1_In in Edup as [Hdup _].
    destruct (head_filter_In (fun r => bool_decide (pc_id r = pc_id dup))
                (profile_changes (db w)) dup Hdup) as (y & Hy & Hin & _).
    { apply bool_decide_eq_true. reflexivity. }
    right. right. exists y. rewrite Hy. simpl. auto.
Qed.

(** X18. [POST /api/changes] always answers. A body without a DID, or with
    none of the six old/new fields non-empty, gets status 400; a valid body
    for an ignored DID gets 403; status 500 is given only when a database
    statement failed. Every answer other than success leaves the database
    as it was, and the row of a success answer is in the change table
    afterwards. *)
Theorem post_changes_outcomes change w :
  let valid :=
    negb (bool_decide (sc_did change = ""))
    && (truthy (sc_old_handle change) || truthy (sc_new_handle change)
        || truthy (sc_old_display_name change) || truthy (sc_new_display_name change)
        || truthy (sc_old_avatar change) || truthy (sc_new_avatar change)) in
  let w' := (post_changes change w).2 in
  exists response,
    (post_changes change w).1 = Ok response
    /\ match response with
       | Success row =>
           valid = true /\ not_ignored (sc_did change) (db w)
           /\ In row (profile_changes (db w'))
       | Failure status _ =>
           db w' = db w
           /\ ((status = 400 /\ valid = false)
               \/ (status = 403 /\ valid = true /\ ignored (sc_did change) (db w))
               \/ (status = 500 /\ valid = true /\ In true (faults w)))
       end.
Proof.
  cbv zeta. unfold post_changes, try_catch.
  destruct (bool_decide (sc_did change = "")) eqn:Edid; simpl.
  { eexists. split; [reflexivity|]. simpl. auto. }
  destruct (truthy (sc_old_handle change)), (truthy (sc_new_handle change)),
           (truthy (sc_old_display_name change)), (truthy (sc_new_display_name change)),
           (truthy (sc_old_avatar change)), (truthy (sc_new_avatar change)); simpl.
  64:{ eexists. split; [reflexivity|]. simpl. auto. }
  all: destruct (insertChange_outcome change None w)
         as [(Hr & Hdb & Hf) | [(Hr & Hdb & Hi) | (row & Hr & Hin & Hni)]].
  all: destruct (insertChange change None w) as [res w1] eqn:Er; simpl in Hr;
    subst res.
  all: first [ rewrite (bind_Throw _ _ _ _ _ Er) | rewrite (bind_Ok _ _ _ _ _ Er) ].
  all: eexists; (split; [reflexivity|]); simpl; auto 6.
Qed.

(** A reload that the database answers returns and changes no table. *)
Lemma reloadDIDs_db w :
  faults w = [] -> (reloadDIDs w).1 = Ok tt /\ db (reloadDIDs w).2 = db w.
Proof.
  intros Hf. rewrite (reloadDIDs_run w Hf). split; [reflexivity|].
  cbv zeta. simpl snd. repeat case_bool_decide; reflexivity.
Qed.

Lemma reloadDIDsNow_run source w :
  faults w = [] ->
  let w1 := set_trace (trace w ++ [did_reload source]) w in
  (reloadDIDsNow source w).1 = Ok tt
  /\ db (reloadDIDsNow source w).2 = db w
  /\ currentDIDs (main (reloadDIDsNow source w).2) = reload_dids (db w).
Proof.
  intros Hf w1. unfold reloadDIDsNow, emit. rewrite bind_modify. fold w1.
  assert (Hf1 : faults w1 = []) by exact Hf.
  destruct (reloadDIDs_db w1 Hf1) as [H1 H2].
  split; [exact H1|]. split; [exact H2|].
  apply (reloadDIDs_currentDIDs w1 Hf1).
Qed.

Lemma ignored_after_ignoring did now d :
  ignored did (delete_profile_changes did (insert_ignored_user did now d).2).2.
Proof.
  pose proof (existsb_after_insert did now d) as H.
  apply existsb_exists in H as (u & Hu & Hd).
  apply bool_decide_eq_true in Hd. exists u. auto.
Qed.

Lemma no_change_after_delete did d row :
  In row (profile_changes (delete_profile_changes did d).2) -> pc_did row <> did.
Proof.
  unfold delete_profile_changes. simpl. intros H.
  apply filter_In in H as [_ H]. apply negb_true_iff, bool_decide_eq_false in H.
  exact H.
Qed.

(** X19. [POST /api/admin/ignored-users] when the database answers; [did]
    is the value of the field [did] of the JSON body. A request of anyone but
    the admin is answered with status 403 and changes nothing. A request of
    the admin whose [did] is a string that starts with [did:plc:] is answered
    with the DID and the number of its stored changes; afterwards the DID is
    on the ignore list, the change table has no row of it, and the DID set of
    the main stream does not contain it. When [did] is missing, [null],
    [false], [0], the empty string or a string that does not start with
    [did:plc:], the answer is status 400 and nothing changes. When [did] is
    any other value ([true], a number other than 0, an object or an array),
    the call of [startsWith] throws: the answer is status 500, the error is
    logged, and the database and the main stream are as before. *)
Theorem admin_ignore_route ADMIN_DID userDID did w :
  faults w = [] ->
  let r := post_admin_ignored_users ADMIN_DID userDID did w in
  if negb (requireAdmin ADMIN_DID userDID) then
    r.2 = w /\ exists error, r.1 = Ok (Failure 403 error)
  else
    match did with
    | jv_string s =>
        if String.prefix "did:plc:" s then
          r.1 = Ok (Success
                      (s, Z.of_nat (length (List.filter
                                              (fun row => bool_decide (pc_did row = s))
                                              (profile_changes (db w))))))
          /\ ignored s (db r.2)
          /\ (forall row, In row (profile_changes (db r.2)) -> pc_did row <> s)
          /\ s ∉ currentDIDs (main r.2)
        else
          r.2 = w /\ exists error, r.1 = Ok (Failure 400 error)
    | _ =>
        if js_truthy did then
          (exists error, r.1 = Ok (Failure 500 error))
          /\ db r.2 = db w /\ main r.2 = main w
          /\ trace r.2 = (trace w ++ [console_error "Error adding ignored user"])%list
        else
          r.2 = w /\ exists error, r.1 = Ok (Failure 400 error)
    end.
Proof.
  intros Hf. cbv zeta. unfold post_admin_ignored_users.
  destruct (requireAdmin ADMIN_DID userDID); cbn [negb];
    [|split; [reflexivity | eexists; reflexivity]].
  unfold try_catch.
  destruct did as [| |b|n|s|]; cbn [js_truthy].
  - split; [reflexivity | eexists; reflexivity].
  - split; [reflexivity | eexists; reflexivity].
  - destruct b; cbn [negb].
    + split; [eexists; reflexivity|]. split; [reflexivity|].
      split; reflexivity.
    + split; [reflexivity | eexists; reflexivity].
  - destruct (Qeq_bool n 0); cbn [negb].
    + split; [reflexivity | eexists; reflexivity].
    + split; [eexists; reflexivity|]. split; [reflexivity|].
      split; reflexivity.
  - destruct (String.prefix "did:plc:" s) eqn:Ep.
    2:{ destruct (bool_decide (s = "")); cbn [negb js_startsWith];
          [|rewrite bind_assoc, !bind_ret, Ep];
          (split; [reflexivity | eexists; reflexivity]). }
    assert (Hs : bool_decide (s = "") = false).
    { apply bool_decide_eq_false. intros ->. discriminate Ep. }
    rewrite Hs. cbn [negb js_startsWith js_string_of].
    rewrite bind_assoc, !bind_ret, Ep. cbn [negb].
    rewrite (bind_Ok _ _ _ _ _ (addIgnoredUser_run s w Hf)).
    match goal with |- context [bind (resolveHandle s) ?k ?w0] =>
      destruct (resolveHandle_run s w0) as (h & ws & c & Hr & _);
      rewrite (bind_Ok _ _ _ _ _ Hr); clear Hr
    end.
    match goal with |- context [bind (reloadDIDsNow "manual") ?k ?w1] =>
      destruct (reloadDIDsNow_run "manual" w1 Hf) as (H1 & H2 & H3);
      destruct (reloadDIDsNow "manual" w1) as [res w2] eqn:Er;
      simpl in H1, H2, H3; subst res;
      rewrite (bind_Ok _ _ _ _ _ Er)
    end.
    unfold ret. cbn [fst snd]. rewrite H2, H3.
    split; [|split; [|split]].
    + unfold insert_ignored_user, delete_profile_changes.
      destruct (existsb _ _); reflexivity.
    + apply ignored_after_ignoring.
    + intros row. apply no_change_after_delete.
    + intros Hin. apply reload_dids_spec in Hin as [_ Hni]. apply Hni.
      apply ignored_after_ignoring.
  - split; [eexists; reflexivity|]. split; [reflexivity|].
    split; reflexivity.
Qed.

(** Witness of X19: the admin ignores alice, whom a monitoring user follows;
    and a request whose [did] is the number 123. *)
Lemma admin_ignore_route_witness :
  ((post_admin_ignored_users "did:plc:admin" (Some "did:plc:admin")
      (jv_string "did:plc:alice") world_monitoring).1
   = Ok (Success ("did:plc:alice", 0))
   /\ "did:plc:alice" ∈ currentDIDs (main world_monitoring)
   /\ "did:plc:alice"
      ∉ currentDIDs (main (post_admin_ignored_users "did:plc:admin"
                             (Some "did:plc:admin") (jv_string "did:plc:alice")
                             world_monitoring).2))
  /\ exists error,
       (post_admin_ignored_users "did:plc:admin" (Some "did:plc:admin")
          (jv_number 123) world_monitoring).1
       = Ok (Failure 500 error).
Proof.
  split.
  - pose proof (admin_ignore_route "did:plc:admin" (Some "did:plc:admin")
                  (jv_string "did:plc:alice") world_monitoring eq_refl) as H.
    cbv zeta in H.
    change (negb (requireAdmin "did:plc:admin" (Some "did:plc:admin")))
      with false in H.
    change (String.prefix "did:plc:" "did:plc:alice") with true in H.
    cbv iota in H. destruct H as (H1 & _ & _ & H4).
    split; [exact H1|]. split; [|exact H4].
    apply list_elem_of_In. right. left. reflexivity.
  - pose proof (admin_ignore_route "did:plc:admin" (Some "did:plc:admin")
                  (jv_number 123) world_monitoring eq_refl) as H.
    cbv zeta in H.
    change (negb (requireAdmin "did:plc:admin" (Some "did:plc:admin")))
      with false in H.
    change (js_truthy (jv_number 123)) with true in H.
    cbv iota in H. exact (proj1 H).
Defined.

Lemma removeIgnoredUser_run did w :
  faults w = [] ->
  removeIgnoredUser did w
  = (Ok tt,
     set_db (set_ignored_users
               (List.filter (fun u => negb (bool_decide (iu_did u = did)))
                  (ignored_users (db w))) (db w)) w).
Proof.
  intros Hf. unfold removeIgnoredUser. rewrite (pool_query_Ok _ w Hf). reflexivity.
Qed.

Lemma ignored_after_remove did other d :
  ignored other
    (set_ignored_users
       (List.filter (fun u => negb (bool_decide (iu_did u = did))) (ignored_users d)) d)
  <-> ignored other d /\ other <> did.
Proof.
  unfold ignored. simpl. split.
  - intros (u & Hu & Hd). apply filter_In in Hu as [Hu Hne].
    apply negb_true_iff, bool_decide_eq_false in Hne.
    split; [exists u; auto | congruence].
  - intros [(u & Hu & Hd) Hne]. exists u. split; [|exact Hd].
    apply filter_In. split; [exact Hu|].
    apply negb_true_iff, bool_decide_eq_false. congruence.
Qed.

(** X20. [DELETE /api/admin/ignored-users/:did] when the database answers
    the admin's request: the answer is success; the DID is no longer on the
    ignore list while every other DID is on it exactly as before; the change
    table and the follow table are untouched; and the DID set of the main
    stream contains the DID afterwards exactly when it is a monitoring user
    or is followed by one. A request of anyone else is answered with 403 and
    changes nothing. *)
Theorem admin_unignore_route ADMIN_DID userDID did w :
  faults w = [] ->
  let r := delete_admin_ignored_users ADMIN_DID userDID did w in
  if requireAdmin ADMIN_DID userDID then
    r.1 = Ok (Success tt)
    /\ (forall other, ignored other (db r.2) <-> ignored other (db w) /\ other <> did)
    /\ profile_changes (db r.2) = profile_changes (db w)
    /\ monitored_follows (db r.2) = monitored_follows (db w)
    /\ (did ∈ currentDIDs (main r.2)
        <-> monitoring_user (db w) did \/ followed_did (db w) did)
  else
    r.2 = w /\ exists error, r.1 = Ok (Failure 403 error).
Proof.
  intros Hf. cbv zeta. unfold delete_admin_ignored_users.
  destruct (requireAdmin ADMIN_DID userDID); simpl;
    [|split; [reflexivity | eexists; reflexivity]].
  unfold try_catch.
  rewrite (bind_Ok _ _ _ _ _ (removeIgnoredUser_run did w Hf)).
  match goal with |- context [bind (resolveHandle did) ?k ?w0] =>
    destruct (resolveHandle_run did w0) as (h & ws & c & Hr & _);
    rewrite (bind_Ok _ _ _ _ _ Hr); clear Hr
  end.
  match goal with |- context [bind (reloadDIDsNow "manual") ?k ?w1] =>
    destruct (reloadDIDsNow_run "manual" w1 Hf) as (H1 & H2 & H3);
    destruct (reloadDIDsNow "manual" w1) as [res w2] eqn:Er;
    simpl in H1, H2, H3; subst res;
    rewrite (bind_Ok _ _ _ _ _ Er)
  end.
  unfold ret. cbn [fst snd]. rewrite H2, H3. cbn [db set_db].
  split; [reflexivity|]. split; [intros other; apply ignored_after_remove|].
  split; [reflexivity|]. split; [reflexivity|].
  rewrite reload_dids_spec, ignored_after_remove.
  unfold monitoring_user, followed_did. simpl. tauto.
Qed.

Lemma admin_unignore_route_witness :
  let w := (post_admin_ignored_users "did:plc:admin" (Some "did:plc:admin")
              (jv_string "did:plc:alice") world_monitoring).2 in
  ("did:plc:alice" ∉ currentDIDs (main w))
  /\ ("did:plc:alice"
      ∈ currentDIDs (main (delete_admin_ignored_users "did:plc:admin"
                             (Some "did:plc:admin") "did:plc:alice" w).2)).
Proof.
  intros w. split.
  { intros Hin. apply list_elem_of_In in Hin. vm_compute in Hin.
    destruct Hin as [Heq|[]]. discriminate Heq. }
  pose proof (admin_unignore_route "did:plc:admin" (Some "did:plc:admin")
                "did:plc:alice" w eq_refl) as H.
  cbv zeta in H.
  change (requireAdmin "did:plc:admin" (Some "did:plc:admin")) with true in H.
  cbv iota in H. destruct H as (_ & _ & _ & _ & H5).
  apply H5. right. eexists. split; [left; reflexivity | reflexivity].
Defined.

(** ** Uptime of the main stream (jetstream-service.ts, getUptimeInfo) *)

Lemma stop_not_running w : shouldRun (main (stop w).2) = false.
Proof.
  destruct w as [d f c t r1 r2 r3 h ri mx mn hp mg].
  destruct mn as [sock pd ra sr rt cd lc stt bf lag lh sa cs].
  unfold stop, saveSetting, Date_now, update_main, triggerMonitoringStatusBroadcast,
    when, emit, pool_query, bind, modify, gets, ret.
  destruct lc as [c0|]; [destruct (bool_decide_reflect (c0 = 0)) as [Hc|Hc]|];
    destruct f as [|[] [|[] f]]; destruct rt as [rt0|]; destruct sock as [sock0|];
    simpl;
    rewrite ?(bool_decide_eq_true_2 _ Hc), ?(bool_decide_eq_false_2 _ Hc);
    reflexivity.
Qed.

(** X21. [getUptimeInfo] changes nothing and never throws. It reports an
    uptime exactly when the stream has a start time and is meant to run; the
    report counts whole seconds, minutes, hours and days of the milliseconds
    elapsed since the start time (the chained roundings lose nothing). After
    [stop], whether it returned or threw, there is no uptime. *)
Theorem getUptimeInfo_reports w :
  (getUptimeInfo w).2 = w
  /\ match (getUptimeInfo w).1 with
     | Ok (Some info) =>
         startTime (main w) = Some (up_startTime info)
         /\ shouldRun (main w) = true
         /\ uptimeSeconds info = (clock w - up_startTime info) / 1000
         /\ uptimeMinutes info = (clock w - up_startTime info) / 60000
         /\ uptimeHours info = (clock w - up_startTime info) / 3600000
         /\ uptimeDays info = (clock w - up_startTime info) / 86400000
     | Ok None => startTime (main w) = None \/ shouldRun (main w) = false
     | Throw _ => False
     end
  /\ (getUptimeInfo (stop w).2).1 = Ok None.
Proof.
  assert (Hrun : forall w0,
            (getUptimeInfo w0).2 = w0
            /\ match (getUptimeInfo w0).1 with
               | Ok (Some info) =>
                   startTime (main w0) = Some (up_startTime info)
                   /\ shouldRun (main w0) = true
                   /\ uptimeSeconds info = (clock w0 - up_startTime info) / 1000
                   /\ uptimeMinutes info = (clock w0 - up_startTime info) / 60000
                   /\ uptimeHours info = (clock w0 - up_startTime info) / 3600000
                   /\ uptimeDays info = (clock w0 - up_startTime info) / 86400000
               | Ok None => startTime (main w0) = None \/ shouldRun (main w0) = false
               | Throw _ => False
               end).
  { intros w0. unfold getUptimeInfo. rewrite bind_gets. cbv beta.
    destruct (startTime (main w0)) as [started|] eqn:Est; [|simpl; auto].
    destruct (shouldRun (main w0)) eqn:Esr; simpl; [|auto].
    split; [reflexivity|]. split; [reflexivity|]. split; [reflexivity|].
    split; [reflexivity|].
    rewrite !Z.div_div by lia. auto. }
  destruct (Hrun w) as [H1 H2]. split; [exact H1|]. split; [exact H2|].
  destruct (Hrun (stop w).2) as [_ H3].
  destruct (getUptimeInfo (stop w).2).1 as [[info|]|e]; [|reflexivity|destruct H3].
  destruct H3 as (_ & Hsr & _). rewrite stop_not_running in Hsr. discriminate.
Qed.


(** ** The profile and identity handlers (jetstream-service.ts) *)

Lemma getLastKnownHandle_frame did w :
  exists fs, (getLastKnownHandle did w).2 = set_faults fs w.
Proof.
  unfold getLastKnownHandle.
  match goal with |- context [bind (pool_query ?s) _ _] =>
    destruct (pool_query_cases s w) as [H|H] end.
  - rewrite (bind_Throw _ _ _ _ _ H). eexists. reflexivity.
  - rewrite (bind_Ok _ _ _ _ _ H). simpl.
    destruct (latest_change _); eexists; reflexivity.
Qed.

Lemma getLastKnownHandle_Ok did w :
  faults w = [] -> exists h, getLastKnownHandle did w = (Ok h, w).
Proof.
  intros Hf. unfold getLastKnownHandle.
  rewrite (bind_Ok _ _ _ _ _ (pool_query_Ok _ w Hf)). simpl. rewrite set_db_id.
  destruct (latest_change _); eexists; reflexivity.
Qed.

Lemma select_limit_1_stored c d :
  select_limit_1 (same_change c) (profile_changes d) = [] <-> stored c d = false.
Proof.
  unfold stored. split.
  - intros H. apply not_true_iff_false. intros He.
    apply existsb_exists in He as (r & Hr & Hs).
    rewrite (select_limit_1_nil_inv _ _ H r Hr) in Hs. discriminate.
  - intros H. apply select_limit_1_none. intros r Hr.
    apply not_true_iff_false. intros Hs.
    apply not_true_iff_false in H. apply H. apply existsb_exists. eauto.
Qed.

Lemma isDuplicateChange_run c w :
  faults w = [] ->
  exists dup, isDuplicateChange c w = (Ok dup, w)
              /\ (is_Some dup <-> stored c (db w) = true).
Proof.
  intros Hf. unfold isDuplicateChange.
  rewrite (bind_Ok _ _ _ _ _ (pool_query_Ok _ w Hf)). simpl. rewrite set_db_id.
  destruct (select_limit_1 _ _) as [|row rows] eqn:E.
  - exists None. split; [reflexivity|].
    apply select_limit_1_stored in E. rewrite E.
    split; [intros [x Hx]; discriminate | discriminate].
  - eexists. split; [reflexivity|]. split; [|eauto].
    intros _. apply not_false_iff_true. intros Hs.
    apply select_limit_1_stored in Hs. rewrite Hs in E. discriminate.
Qed.

(** The look-up in the audit log returns, and leaves at most a warning. *)
Lemma getPreviousHandleFromAuditLog_run did w :
  exists handle warnings,
    getPreviousHandleFromAuditLog did w
    = (Ok handle, set_trace (trace w ++ warnings) w).
Proof.
  unfold getPreviousHandleFromAuditLog.
  destruct (negb (String.prefix "did:plc:" did)).
  - exists None, []. rewrite set_trace_nil. reflexivity.
  - rewrite bind_gets. cbv beta.
    destruct (net_auditLog w did) as [handle|].
    + exists handle, []. rewrite set_trace_nil. reflexivity.
    + eexists None, [_]. reflexivity.
Qed.

(** What [insertChange] leaves when the database answers and the DID is not
    ignored: the table as it was when the candidate is stored, and one more
    row otherwise. *)
Lemma insertChange_run c lp w :
  faults w = [] -> not_ignored (sc_did c) (db w) ->
  exists res,
    insertChange c lp w
    = (Ok res,
       if stored c (db w) then w
       else set_db (set_profile_changes
                      (profile_changes (db w) ++
                       [new_change_row (profile_changes_seq (db w)) c
                          (getChangeType c) (clock w)])
                      (profile_changes_seq (db w) + 1) (db w)) w).
Proof.
  intros Hf Hni. destruct (stored c (db w)) eqn:Es.
  - unfold insertChange.
    rewrite (bind_Ok _ _ _ _ _ (pool_query_Ok _ w Hf)). simpl.
    rewrite set_db_id, (ignored_check_none _ _ Hni). simpl.
    rewrite (bind_Ok _ _ _ _ _ (pool_query_Ok _ w Hf)). simpl.
    rewrite set_db_id.
    destruct (select_limit_1 (same_change c) _) as [|dup dups] eqn:E.
    { apply select_limit_1_stored in E. congruence. }
    rewrite (bind_Ok _ _ _ _ _ (pool_query_Ok _ w Hf)). simpl.
    rewrite set_db_id. eexists. reflexivity.
  - apply select_limit_1_stored in Es.
    rewrite (insertChange_fresh c lp w Hni Hf (select_limit_1_nil_inv _ _ Es)).
    eexists. reflexivity.
Qed.

(** X22. A profile commit that brings nothing new stores no change. When
    the stream has no snapshot of the DID yet (first sighting), the handler
    leaves the database as it is, whatever the display name and avatar; on
    the main stream, when the database answers, it returns with a snapshot
    of the event's display name and avatar in the cache. When the cached
    snapshot has the event's display name and avatar, no table and no
    snapshot changes and nothing is sent: with a handle in the snapshot the
    call changes nothing at all; with an empty one the handler looks the
    handle up, in the database and then with the resolver, which can leave
    the resolver's warning in the trace and an entry in the resolver's
    cache. *)
Theorem profile_commit_without_change event owner logPrefix w commit record :
  ev_kind event = "commit" -> ev_commit event = Some commit ->
  c_collection commit = "app.bsky.actor.profile" ->
  c_record commit = Some record ->
  let did := ev_did event in
  let r := handleProfileCommit event owner logPrefix w in
  (cached_profile owner did w = None ->
   db r.2 = db w
   /\ (owner = MainStream -> faults w = [] ->
       r.1 = Ok tt
       /\ exists h,
            cached_profile owner did r.2
            = Some {| pd_displayName := or_empty (cr_displayName record);
                      pd_avatarRef := or_empty (cr_avatar_link record);
                      pd_handle := h |}))
  /\ (forall old,
        cached_profile owner did w = Some old ->
        pd_displayName old = or_empty (cr_displayName record) ->
        pd_avatarRef old = or_empty (cr_avatar_link record) ->
        db r.2 = db w /\ main r.2 = main w /\ heap r.2 = heap w
        /\ mgr r.2 = mgr w
        /\ (exists warnings,
              trace r.2 = (trace w ++ warnings)%list /\ warnings_only warnings)
        /\ (pd_handle old <> "" -> r = (Ok tt, w))).
Proof.
  intros Hk Hc Hcol Hrec did r. subst did.
  eassert (Hr : r = _).
  { subst r. unfold handleProfileCommit. rewrite Hk, Hc, Hcol, Hrec.
    rewrite !bool_decide_eq_true_2 by reflexivity. cbn [negb].
    unfold profileData_get. rewrite bind_gets. cbv beta.
    fold (cached_profile owner (ev_did event) w). reflexivity. }
  clearbody r. subst r.
  split.
  - intros Hnone. rewrite Hnone. simpl.
    rewrite bind_assoc.
    destruct (getLastKnownHandle_frame (ev_did event) w) as [fs Hfs].
    split.
    + destruct (getLastKnownHandle (ev_did event) w) as [[h|e] w1] eqn:Eg;
        simpl in Hfs; subst w1.
      2:{ rewrite (bind_Throw _ _ _ _ _ Eg). reflexivity. }
      rewrite (bind_Ok _ _ _ _ _ Eg). rewrite bind_ret.
      destruct (bool_decide (_ = "")).
      * rewrite bind_assoc.
        destruct (resolveHandle_run (ev_did event) (set_faults fs w))
          as (rh & ws & c & Hres & _).
        rewrite (bind_Ok _ _ _ _ _ Hres), !bind_ret. rewrite ?andb_false_r.
        unfold profileData_set. rewrite bind_modify.
        destruct (negb _ && negb _); destruct owner; reflexivity.
      * rewrite !bind_ret. rewrite ?andb_false_r.
        unfold profileData_set. rewrite bind_modify.
        destruct (negb _ && negb _); destruct owner; reflexivity.
    + intros -> Hf.
      destruct (getLastKnownHandle_Ok (ev_did event) w Hf) as [h Eg].
      rewrite (bind_Ok _ _ _ _ _ Eg). rewrite bind_ret.
      destruct (bool_decide (_ = "")).
      * rewrite bind_assoc.
        destruct (resolveHandle_run (ev_did event) w)
          as (rh & ws & c & Hres & _).
        rewrite (bind_Ok _ _ _ _ _ Hres), !bind_ret. rewrite ?andb_false_r.
        unfold profileData_set. rewrite bind_modify.
        destruct (negb _ && negb _);
          (split; [reflexivity|]); eexists; apply lookup_insert_eq.
      * rewrite !bind_ret. rewrite ?andb_false_r.
        unfold profileData_set. rewrite bind_modify.
        destruct (negb _ && negb _);
          (split; [reflexivity|]); eexists; apply lookup_insert_eq.
  - intros old Hold Hdn Hav. rewrite Hold. simpl.
    rewrite Hdn, Hav.
    rewrite !(bool_decide_eq_true_2 (or_empty _ = or_empty _)) by reflexivity.
    destruct (bool_decide_reflect (pd_handle old = "")) as [He|He].
    + assert (Hnil : exists warnings : list Effect,
                 trace w = (trace w ++ warnings)%list /\ warnings_only warnings).
      { exists []. split; [symmetry; apply app_nil_r | intros e []]. }
      rewrite bind_assoc.
      destruct (getLastKnownHandle_frame (ev_did event) w) as [fs Hfs].
      destruct (getLastKnownHandle (ev_did event) w) as [[h|e] w1] eqn:Eg;
        simpl in Hfs; subst w1.
      2:{ rewrite (bind_Throw _ _ _ _ _ Eg).
          repeat (split; [first [reflexivity | exact Hnil]|]).
          intros Hne. contradiction. }
      rewrite (bind_Ok _ _ _ _ _ Eg). rewrite bind_ret.
      destruct (bool_decide (_ = "")).
      * rewrite bind_assoc.
        destruct (resolveHandle_run (ev_did event) (set_faults fs w))
          as (rh & ws & c & Hres & Hws & _).
        rewrite (bind_Ok _ _ _ _ _ Hres), !bind_ret.
        cbn [negb andb bool_decide ret fst snd].
        repeat (split; [reflexivity|]).
        split; [exists ws; split; [reflexivity | exact Hws]|].
        intros Hne. contradiction.
      * rewrite !bind_ret.
        repeat (split; [first [reflexivity | exact Hnil]|]).
        intros Hne. contradiction.
    + rewrite bind_ret. rewrite (bool_decide_eq_false_2 _ He).
      rewrite bind_ret.
      repeat (split; [first [reflexivity
                            | exists []; split;
                              [symmetry; apply app_nil_r | intros e []]]|]).
      intros _. reflexivity.
Qed.

Lemma cached_profile_set owner did v old w :
  cached_profile owner did w = Some old ->
  cached_profile owner did (profileData_set owner did v w).2 = Some v.
Proof.
  destruct owner as [|obj]; simpl; intros H.
  - apply lookup_insert_eq.
  - destruct (heap w !! obj) as [t|] eqn:Et; [|discriminate].
    rewrite lookup_alter_eq, Et. simpl. apply lookup_insert_eq.
Qed.

(** X23. A profile commit that changes the display name or the avatar of a
    DID whose snapshot the stream holds (with a handle). When the database
    answers and the DID is not ignored, the handler returns; the snapshot
    then has the event's display name and avatar and the handle it had; and
    the change table has gained exactly one row, of type [profile], with the
    old and the new values (an empty value stored as NULL) and no handle
    transition, unless a row with these values was stored already, in which
    case the database is as before. *)
Theorem profile_commit_records_change event owner logPrefix w commit record old :
  faults w = [] ->
  ev_kind event = "commit" -> ev_commit event = Some commit ->
  c_collection commit = "app.bsky.actor.profile" ->
  c_record commit = Some record ->
  cached_profile owner (ev_did event) w = Some old ->
  pd_handle old <> "" ->
  (or_empty (cr_displayName record) <> pd_displayName old
   \/ or_empty (cr_avatar_link record) <> pd_avatarRef old) ->
  not_ignored (ev_did event) (db w) ->
  let change :=
    {| sc_did := ev_did event;
       sc_handle := js_string (pd_handle old);
       sc_old_handle := js_undefined; sc_new_handle := js_undefined;
       sc_old_display_name := string_or_undefined (pd_displayName old);
       sc_new_display_name := string_or_undefined (or_empty (cr_displayName record));
       sc_old_avatar := string_or_undefined (pd_avatarRef old);
       sc_new_avatar := string_or_undefined (or_empty (cr_avatar_link record)) |} in
  let r := handleProfileCommit event owner logPrefix w in
  r.1 = Ok tt
  /\ cached_profile owner (ev_did event) r.2
     = Some {| pd_displayName := or_empty (cr_displayName record);
               pd_avatarRef := or_empty (cr_avatar_link record);
               pd_handle := pd_handle old |}
  /\ db r.2
     = (if stored change (db w) then db w
        else set_profile_changes
               (profile_changes (db w) ++
                [new_change_row (profile_changes_seq (db w)) change CT_profile
                   (clock w)])
               (profile_changes_seq (db w) + 1) (db w)).
Proof.
  intros Hf Hk Hc Hcol Hrec Hold Hh Hch Hni change r.
  eassert (Hr : r = _).
  { subst r. unfold handleProfileCommit. rewrite Hk, Hc, Hcol, Hrec.
    rewrite !bool_decide_eq_true_2 by reflexivity. cbn [negb].
    unfold profileData_get. rewrite bind_gets. cbv beta.
    fold (cached_profile owner (ev_did event) w). rewrite Hold. simpl.
    rewrite (bool_decide_eq_false_2 _ Hh). rewrite bind_ret.
    rewrite (bool_decide_eq_false_2 _ Hh). rewrite bind_ret.
    rewrite !negb_involutive. reflexivity. }
  clearbody r. subst r.
  assert (Hb : bool_decide (or_empty (cr_displayName record) = pd_displayName old)
               && bool_decide (or_empty (cr_avatar_link record) = pd_avatarRef old)
               = false).
  { apply andb_false_iff. rewrite !bool_decide_eq_false. exact Hch. }
  rewrite Hb. simpl.
  pose proof (cached_profile_set owner (ev_did event)
                {| pd_displayName := or_empty (cr_displayName record);
                   pd_avatarRef := or_empty (cr_avatar_link record);
                   pd_handle := pd_handle old |} old w Hold) as Hset.
  unfold profileData_set in *. rewrite bind_modify. simpl in Hset.
  match goal with |- context [bind (isDuplicateChange ?c) _ ?wx] =>
    set (w1 := wx) in *; set (c0 := c)
  end.
  assert (Hc0 : c0 = change).
  { subst c0 change. unfold string_or_undefined at 1.
    rewrite (bool_decide_eq_false_2 _ Hh). reflexivity. }
  rewrite Hc0. clear Hc0 c0.
  assert (Hf1 : faults w1 = []) by (subst w1; destruct owner; exact Hf).
  assert (Hdb1 : db w1 = db w) by (subst w1; destruct owner; reflexivity).
  assert (Hck1 : clock w1 = clock w) by (subst w1; destruct owner; reflexivity).
  destruct (isDuplicateChange_run change w1 Hf1) as (dup & Hdup & _).
  rewrite (bind_Ok _ _ _ _ _ Hdup).
  assert (Hni1 : not_ignored (sc_did change) (db w1)) by (rewrite Hdb1; exact Hni).
  destruct (insertChange_run change logPrefix w1 Hf1 Hni1) as (res & Hins).
  rewrite (bind_Ok _ _ _ _ _ Hins). unfold ret. cbn [fst snd].
  rewrite Hdb1, Hck1.
  assert (Hct : getChangeType change = CT_profile) by reflexivity.
  rewrite Hct.
  split; [reflexivity|].
  destruct (stored change (db w)); (split; [|first [exact Hdb1 | reflexivity]]).
  - exact Hset.
  - destruct owner; exact Hset.
Qed.

Lemma profile_commit_records_change_witness :
  let w := (handleProfileCommit (profile_event "Alice") MainStream None world0).2 in
  let r := handleProfileCommit (profile_event "Alice B") MainStream None w in
  r.1 = Ok tt
  /\ map pc_old_display_name (profile_changes (db r.2)) = [Some "Alice"]
  /\ map pc_new_display_name (profile_changes (db r.2)) = [Some "Alice B"].
Proof.
  intros w r.
  destruct (profile_commit_records_change (profile_event "Alice B") MainStream None
              w (profile_commit "Alice B") (profile_record "Alice B")
              {| pd_displayName := "Alice"; pd_avatarRef := "";
                 pd_handle := "alice.example" |}
              eq_refl eq_refl eq_refl eq_refl eq_refl
              ltac:(vm_compute; reflexivity) ltac:(discriminate)
              ltac:(left; discriminate) ltac:(intros u []))
    as (H1 & _ & H3).
  split; [exact H1|]. subst r. rewrite H3. split; vm_compute; reflexivity.
Defined.

Lemma profile_commit_without_change_witness :
  let r := handleProfileCommit (profile_event "Alice") MainStream None world0 in
  db r.2 = db world0
  /\ r.1 = Ok tt
  /\ exists h,
       cached_profile MainStream "did:plc:alice" r.2
       = Some {| pd_displayName := "Alice"; pd_avatarRef := ""; pd_handle := h |}.
Proof.
  intros r.
  destruct (proj1 (profile_commit_without_change (profile_event "Alice") MainStream
                     None world0 (profile_commit "Alice") (profile_record "Alice")
                     eq_refl eq_refl eq_refl eq_refl) eq_refl) as [H1 H2].
  split; [exact H1|]. exact (H2 eq_refl eq_refl).
Defined.

(** X24. An identity event for a DID whose snapshot the stream holds, when
    the database answers and the DID is not ignored. The handler returns and
    the snapshot takes the event's handle, keeping display name and avatar.
    A change is stored only for a true handle-to-handle transition (the
    cached handle and the new one are both non-empty and differ): the change
    table then gains exactly one row, of type [handle], from the cached
    handle to the new one, unless such a row is stored already. In every
    other case the database is as before. *)
Theorem identity_event_of_cached_did event owner logPrefix w identity old :
  faults w = [] ->
  ev_kind event = "identity" -> ev_identity event = Some identity ->
  cached_profile owner (ev_did event) w = Some old ->
  not_ignored (ev_did event) (db w) ->
  let newHandle := or_empty (i_handle identity) in
  let change :=
    {| sc_did := ev_did event;
       sc_handle := js_string newHandle;
       sc_old_handle := js_string (pd_handle old);
       sc_new_handle := js_string newHandle;
       sc_old_display_name := js_undefined; sc_new_display_name := js_undefined;
       sc_old_avatar := js_undefined; sc_new_avatar := js_undefined |} in
  let handleChanged :=
    negb (bool_decide (newHandle = pd_handle old))
    && negb (bool_decide (pd_handle old = ""))
    && negb (bool_decide (newHandle = "")) in
  let r := handleIdentityEvent event owner logPrefix w in
  r.1 = Ok tt
  /\ cached_profile owner (ev_did event) r.2
     = Some {| pd_displayName := pd_displayName old;
               pd_avatarRef := pd_avatarRef old;
               pd_handle := newHandle |}
  /\ db r.2
     = (if handleChanged && negb (stored change (db w))
        then set_profile_changes
               (profile_changes (db w) ++
                [new_change_row (profile_changes_seq (db w)) change CT_handle
                   (clock w)])
               (profile_changes_seq (db w) + 1) (db w)
        else db w).
Proof.
  intros Hf Hk Hi Hold Hni newHandle change handleChanged r.
  eassert (Hr : r = _).
  { subst r. unfold handleIdentityEvent. rewrite Hk, Hi.
    rewrite !bool_decide_eq_true_2 by reflexivity. cbn [negb].
    unfold profileData_get. rewrite !bind_gets. cbv beta.
    fold (cached_profile owner (ev_did event) w). rewrite Hold. simpl.
    rewrite !bind_ret. unfold or_empty at 1 2 3. rewrite bind_gets. cbv beta.
    fold (cached_profile owner (ev_did event) w). rewrite Hold. simpl.
    fold newHandle. fold handleChanged. reflexivity. }
  clearbody r. subst r.
  pose proof (cached_profile_set owner (ev_did event)
                {| pd_displayName := pd_displayName old;
                   pd_avatarRef := pd_avatarRef old;
                   pd_handle := newHandle |} old w Hold) as Hset.
  unfold profileData_set in *. rewrite bind_modify. simpl in Hset.
  match goal with |- context [set_main ?m w] =>
    set (w1 := match owner with MainStream => set_main m w | TempStream obj => _ end)
      in *
  end.
  assert (Hf1 : faults w1 = []) by (subst w1; destruct owner; exact Hf).
  assert (Hdb1 : db w1 = db w) by (subst w1; destruct owner; reflexivity).
  assert (Hck1 : clock w1 = clock w) by (subst w1; destruct owner; reflexivity).
  destruct handleChanged eqn:Ech; simpl.
  2:{ split; [reflexivity|]. split; [exact Hset | exact Hdb1]. }
  subst handleChanged.
  apply andb_true_iff in Ech as [Ech Hnew]. apply andb_true_iff in Ech as [Hne Hold'].
  apply negb_true_iff, bool_decide_eq_false in Hne, Hold', Hnew.
  match goal with |- context [bind (isDuplicateChange ?c) _ _] => set (c0 := c) end.
  assert (Hc0 : c0 = change).
  { subst c0 change. unfold string_or_undefined.
    rewrite (bool_decide_eq_false_2 _ Hold'), (bool_decide_eq_false_2 _ Hnew).
    reflexivity. }
  rewrite Hc0. clear Hc0 c0.
  destruct (isDuplicateChange_run change w1 Hf1) as (dup & Hdup & Hiff).
  rewrite (bind_Ok _ _ _ _ _ Hdup). rewrite Hdb1 in Hiff.
  destruct dup as [[dupOld dupNew]|].
  - rewrite (proj1 Hiff) by eauto. simpl.
    destruct (getPreviousHandleFromAuditLog_run (ev_did event) w1)
      as (ah & aws & Haudit).
    destruct (negb (truthy dupOld)); cbn [when].
    + rewrite bind_assoc, (bind_Ok _ _ _ _ _ Haudit), !bind_ret.
      destruct (negb (truthy dupNew)); cbn [when].
      * destruct (resolveHandle_run (ev_did event)
                    (set_trace (trace w1 ++ aws) w1))
          as (rh & ws & c & Hres & _).
        rewrite (bind_Ok _ _ _ _ _ Hres).
        split; [reflexivity|]. split; [exact Hset | exact Hdb1].
      * split; [reflexivity|]. split; [exact Hset | exact Hdb1].
    + rewrite bind_ret.
      destruct (negb (truthy dupNew)); cbn [when].
      * destruct (resolveHandle_run (ev_did event) w1)
          as (rh & ws & c & Hres & _).
        rewrite (bind_Ok _ _ _ _ _ Hres).
        split; [reflexivity|]. split; [exact Hset | exact Hdb1].
      * split; [reflexivity|]. split; [exact Hset | exact Hdb1].
  - assert (Hs : stored change (db w) = false).
    { apply not_true_iff_false. intros Hs. apply Hiff in Hs as [x Hx].
      discriminate. }
    rewrite Hs. simpl.
    assert (Hni1 : not_ignored (sc_did change) (db w1)) by (rewrite Hdb1; exact Hni).
    destruct (insertChange_run change logPrefix w1 Hf1 Hni1) as (res & Hins).
    rewrite (bind_Ok _ _ _ _ _ Hins). unfold ret. cbn [fst snd].
    rewrite Hdb1, Hck1, Hs.
    assert (Hct : getChangeType change = CT_handle).
    { unfold getChangeType, change. simpl.
      rewrite (bool_decide_eq_false_2 _ Hold'), (bool_decide_eq_false_2 _ Hnew).
      reflexivity. }
    rewrite Hct. split; [reflexivity|]. split; [|reflexivity].
    destruct owner; exact Hset.
Qed.

Lemma identity_event_of_cached_did_witness :
  let w := (handleProfileCommit (profile_event "Alice") MainStream None world0).2 in
  let r := handleIdentityEvent (identity_event 1700000000000000) MainStream None w in
  r.1 = Ok tt
  /\ map pc_old_handle (profile_changes (db r.2)) = [Some "alice.example"]
  /\ map pc_new_handle (profile_changes (db r.2)) = [Some "new.alice.example"].
Proof.
  intros w r.
  destruct (identity_event_of_cached_did (identity_event 1700000000000000)
              MainStream None w
              {| i_did := "did:plc:alice"; i_handle := Some "new.alice.example" |}
              {| pd_displayName := "Alice"; pd_avatarRef := "";
                 pd_handle := "alice.example" |}
              eq_refl eq_refl eq_refl ltac:(vm_compute; reflexivity)
              ltac:(intros u []))
    as (H1 & _ & H3).
  split; [exact H1|]. subst r. rewrite H3. split; vm_compute; reflexivity.
Defined.


(** ** Retries and the cursor of the main stream (jetstream-service.ts) *)

#[local] Instance keeps_db_and_snapshots_frame : Frame keeps_db_and_snapshots.
Proof.
  split; unfold keeps_db_and_snapshots; simpl; auto.
  - intros w1 w2 w3 [H1 H2] [H3 H4]. split; congruence.
  - intros w w' [H1 H2]. auto.
Qed.

Ltac snapshots_leaf :=
  intros; unfold keeps_db_and_snapshots; simpl;
  repeat match goal with |- context [if ?b then _ else _] => destruct b end;
  simpl; auto.

(** What [processEvent] does after the handlers have returned touches
    neither the database nor the snapshots. *)
Lemma processEvent_after_dispatch event w wd :
  dispatch_event event w = (Ok tt, wd) ->
  keeps_db_and_snapshots wd (processEvent event w).2.
Proof.
  intros E. unfold processEvent, try_catch.
  destruct (isRunningWithCursor_run w) as [had Hhad].
  rewrite (bind_Ok _ _ _ _ _ Hhad). cbv zeta.
  rewrite (bind_Ok _ _ _ _ _ E).
  match goal with |- context [match ?m ?x with _ => _ end] =>
    assert (Hrest : preserves keeps_db_and_snapshots m)
      by frame_all snapshots_leaf;
    specialize (Hrest x); destruct (m x) as [[[]|err] w2]
  end; simpl in *; exact Hrest.
Qed.

(** An identity event for a DID of which the main stream holds a snapshot:
    the handler writes the new handle to the snapshot, and only then, when
    the handle has changed, turns to the database. *)
Lemma handleIdentityEvent_cached event identity old w :
  ev_kind event = "identity" -> ev_identity event = Some identity ->
  cached_profile MainStream (ev_did event) w = Some old ->
  let newHandle := or_empty (i_handle identity) in
  let w1 :=
    set_main (set_profileData
                (<[ev_did event :=
                     {| pd_displayName := pd_displayName old;
                        pd_avatarRef := pd_avatarRef old;
                        pd_handle := newHandle |}]> (profileData (main w)))
                (main w)) w in
  (newHandle = pd_handle old ->
   handleIdentityEvent event MainStream None w = (Ok tt, w1))
  /\ (newHandle <> pd_handle old -> pd_handle old <> "" -> newHandle <> "" ->
      forall fs, faults w = true :: fs ->
      handleIdentityEvent event MainStream None w
      = (Throw DbError, set_faults fs w1)).
Proof.
  intros Hk Hi Hold newHandle w1.
  set (r := handleIdentityEvent event MainStream None w).
  eassert (Hr : r = _).
  { subst r. unfold handleIdentityEvent. rewrite Hk, Hi.
    rewrite !bool_decide_eq_true_2 by reflexivity. cbn [negb].
    unfold profileData_get. rewrite !bind_gets. cbv beta.
    fold (cached_profile MainStream (ev_did event) w). rewrite Hold. simpl.
    rewrite !bind_ret. unfold or_empty at 1 2 3. rewrite bind_gets. cbv beta.
    fold (cached_profile MainStream (ev_did event) w). rewrite Hold. simpl.
    fold newHandle. unfold profileData_set. rewrite bind_modify.
    fold w1. reflexivity. }
  clearbody r. subst r. split.
  - intros Heq. rewrite (bool_decide_eq_true_2 _ Heq). reflexivity.
  - intros Hne Ho Hn fs Hf.
    rewrite (bool_decide_eq_false_2 _ Hne), (bool_decide_eq_false_2 _ Ho),
      (bool_decide_eq_false_2 _ Hn). cbn [negb andb].
    unfold isDuplicateChange.
    assert (Hf1 : faults w1 = true :: fs) by exact Hf.
    rewrite bind_assoc.
    rewrite (bind_Throw _ _ _ _ _ (pool_query_fails _ fs w1 Hf1)).
    reflexivity.
Qed.

(** The handlers of an identity event whose first statement fails once: the
    second attempt of [withDBRetry] finds the new handle in the snapshot and
    returns without a statement. *)
Lemma dispatch_identity_event_retried event identity old fs w :
  ev_kind event = "identity" -> ev_identity event = Some identity ->
  cached_profile MainStream (ev_did event) w = Some old ->
  or_empty (i_handle identity) <> pd_handle old ->
  pd_handle old <> "" -> or_empty (i_handle identity) <> "" ->
  faults w = true :: fs ->
  exists wd,
    dispatch_event event w = (Ok tt, wd)
    /\ db wd = db w /\ faults wd = fs
    /\ cached_profile MainStream (ev_did event) wd
       = Some {| pd_displayName := pd_displayName old;
                 pd_avatarRef := pd_avatarRef old;
                 pd_handle := or_empty (i_handle identity) |}
    /\ trace wd
       = (trace w ++
          [console_error ("Persisting Jetstream identity event" +:+ " failed")])%list.
Proof.
  intros Hk Hi Hold Hne Ho Hn Hf.
  destruct (handleIdentityEvent_cached event identity old w Hk Hi Hold)
    as [_ Hfirst].
  specialize (Hfirst Hne Ho Hn fs Hf).
  set (new := {| pd_displayName := pd_displayName old;
                 pd_avatarRef := pd_avatarRef old;
                 pd_handle := or_empty (i_handle identity) |}) in *.
  set (w1 := set_main (set_profileData
                         (<[ev_did event := new]> (profileData (main w)))
                         (main w)) w) in *.
  set (context := "Persisting Jetstream identity event").
  set (w2 := set_trace (trace (set_faults fs w1)
                        ++ [console_error (context +:+ " failed")])
               (set_faults fs w1)).
  set (w3 := set_clock (clock w2 + DB_RETRY_BASE_DELAY_MS * 2 ^ (0 + 1 - 1)) w2).
  assert (Hcached : cached_profile MainStream (ev_did event) w3 = Some new)
    by apply lookup_insert_eq.
  destruct (handleIdentityEvent_cached event identity new w3 Hk Hi Hcached)
    as [Hsecond _].
  specialize (Hsecond eq_refl).
  assert (Hretry : withDBRetry (handleIdentityEvent event MainStream None)
                     context w
                   = handleIdentityEvent event MainStream None w3).
  { unfold withDBRetry.
    change (Z.to_nat DB_RETRY_ATTEMPTS) with 3%nat.
    rewrite (withDBRetry_loop_Throw 2 0 _ context w DbError _ Hfirst).
    cbv zeta. change (DB_RETRY_ATTEMPTS <=? 0 + 1) with false. cbv iota.
    fold w2. fold w3.
    destruct (handleIdentityEvent event MainStream None w3) as [[[]|e] wx] eqn:E;
      [|discriminate Hsecond].
    apply (withDBRetry_loop_Ok 2 (0 + 1) _ context w3 tt wx E). }
  eexists. split.
  { unfold dispatch_event. rewrite Hk.
    rewrite (bool_decide_eq_true_2 ("identity" = "identity")) by reflexivity.
    rewrite (bool_decide_eq_false_2 ("identity" = "commit")) by discriminate.
    cbn [when]. fold context.
    rewrite (bind_Ok _ _ _ _ _ (eq_trans Hretry Hsecond)). reflexivity. }
  split; [reflexivity|]. split; [reflexivity|].
  split; [apply lookup_insert_eq | reflexivity].
Qed.

(** X25. A handle change can be lost to a retry. The main stream holds a
    snapshot of a DID, and an identity event brings a new handle (the old
    and the new one non-empty and different). When the first database
    statement of the handler fails once, the second attempt of [withDBRetry]
    returns without storing anything, because the first attempt has already
    written the new handle to the snapshot: the database is as it was, the
    snapshot has the new handle, and the cursor has moved to the time of the
    event. The same event delivered again stores nothing either. *)
Theorem retry_loses_handle_change event identity old fs w :
  ev_kind event = "identity" -> ev_identity event = Some identity ->
  cached_profile MainStream (ev_did event) w = Some old ->
  or_empty (i_handle identity) <> pd_handle old ->
  pd_handle old <> "" -> or_empty (i_handle identity) <> "" ->
  faults w = true :: fs ->
  let r := processEvent event w in
  db r.2 = db w
  /\ cached_profile MainStream (ev_did event) r.2
     = Some {| pd_displayName := pd_displayName old;
               pd_avatarRef := pd_avatarRef old;
               pd_handle := or_empty (i_handle identity) |}
  /\ lastCursor (main r.2) = Some (ev_time_us event)
  /\ db (processEvent event r.2).2 = db w.
Proof.
  intros Hk Hi Hold Hne Ho Hn Hf r.
  destruct (dispatch_identity_event_retried event identity old fs w
              Hk Hi Hold Hne Ho Hn Hf) as (wd & Hd & Hdb & _ & Hcache & _).
  destruct (processEvent_after_dispatch event w wd Hd) as [Hdb' Hpd'].
  pose proof (processEvent_cursor event w) as Hcur. rewrite Hd in Hcur.
  assert (Hcached : cached_profile MainStream (ev_did event) r.2
                    = Some {| pd_displayName := pd_displayName old;
                              pd_avatarRef := pd_avatarRef old;
                              pd_handle := or_empty (i_handle identity) |}).
  { unfold cached_profile in *. subst r. rewrite Hpd'. exact Hcache. }
  split; [subst r; congruence|]. split; [exact Hcached|].
  split; [exact Hcur|].
  destruct (handleIdentityEvent_cached event identity _ r.2 Hk Hi Hcached)
    as [Hagain _].
  specialize (Hagain eq_refl).
  assert (Hd2 : exists wd2, dispatch_event event r.2 = (Ok tt, wd2)
                            /\ db wd2 = db r.2).
  { eexists. split.
    - unfold dispatch_event. rewrite Hk.
      rewrite (bool_decide_eq_true_2 ("identity" = "identity")) by reflexivity.
      rewrite (bool_decide_eq_false_2 ("identity" = "commit")) by discriminate.
      cbn [when]. unfold withDBRetry.
      unfold bind.
      rewrite (withDBRetry_loop_Ok _ 0 _ _ r.2 tt _ Hagain). reflexivity.
    - reflexivity. }
  destruct Hd2 as (wd2 & Hd2 & Hdb2).
  destruct (processEvent_after_dispatch event r.2 wd2 Hd2) as [Hdb3 _].
  subst r. congruence.
Qed.

(** Witness of X25: the main stream has seen a profile commit of alice and
    holds her snapshot; her identity event arrives when the database fails
    one statement. Nothing is stored and the cursor moves on; with a
    database that answers, the same event stores the change. *)
Lemma retry_loses_handle_change_witness :
  let w := (processEvent (profile_event "Alice") world_connected).2 in
  let event := identity_event 1700000000000001 in
  profile_changes (db (processEvent event (set_faults [true] w)).2) = []
  /\ lastCursor (main (processEvent event (set_faults [true] w)).2)
     = Some 1700000000000001
  /\ map pc_new_handle (profile_changes (db (processEvent event w).2))
     = [Some "new.alice.example"].
Proof.
  intros w event.
  destruct (retry_loses_handle_change event
              {| i_did := "did:plc:alice"; i_handle := Some "new.alice.example" |}
              {| pd_displayName := "Alice"; pd_avatarRef := "";
                 pd_handle := "alice.example" |}
              [] (set_faults [true] w)
              eq_refl eq_refl ltac:(vm_compute; reflexivity)
              ltac:(discriminate) ltac:(discriminate) ltac:(discriminate)
              eq_refl)
    as (H1 & _ & H3 & _).
  split; [rewrite H1; vm_compute; reflexivity|].
  split; [exact H3 | vm_compute; reflexivity].
Defined.

(** X26. An event whose handler failed is asked for again only when the
    stream reconnects before another event has been handled. After an event
    whose handlers threw, the cursor of the main stream is where it was; the
    next event whose handlers return moves the cursor to its own time, and
    a reconnect then asks the upstream to resume from that time, which is
    later than the failed event when the events arrived in order. *)
Theorem failed_event_is_passed_over failed next w e :
  (dispatch_event failed w).1 = Throw e ->
  let w1 := (processEvent failed w).2 in
  (dispatch_event next w1).1 = Ok tt ->
  let w2 := (processEvent next w1).2 in
  ev_time_us next <> 0 ->
  currentDIDs (main w2) <> [] ->
  lastCursor (main w1) = lastCursor (main w)
  /\ lastCursor (main w2) = Some (ev_time_us next)
  /\ ws_cursor <$> ws (main (connect w2).2) = Some (Some (ev_time_us next)).
Proof.
  intros Hfail w1 Hnext w2 Hne Hdids.
  pose proof (processEvent_cursor failed w) as H1. rewrite Hfail in H1.
  pose proof (processEvent_cursor next w1) as H2. rewrite Hnext in H2.
  split; [exact H1|]. split; [exact H2|].
  apply connect_resumes_from_cursor; assumption.
Qed.

(** Witness of X26: the identity event of alice fails on a database that
    fails three statements in a row; an event of another kind follows, five
    microseconds later; the reconnect asks for the events after the second
    one. *)
Lemma failed_event_is_passed_over_witness :
  let w := set_faults [true; true; true] world_connected in
  let w1 := (processEvent (identity_event 1700000000000000) w).2 in
  let w2 := (processEvent (other_event 1700000000000005) w1).2 in
  lastCursor (main w1) = Some 1699999999000000
  /\ profile_changes (db w2) = []
  /\ ws_cursor <$> ws (main (connect w2).2) = Some (Some 1700000000000005).
Proof.
  intros w w1 w2.
  destruct (failed_event_is_passed_over (identity_event 1700000000000000)
              (other_event 1700000000000005) w DbError
              ltac:(vm_compute; reflexivity) ltac:(vm_compute; reflexivity)
              ltac:(discriminate) ltac:(vm_compute; discriminate))
    as (H1 & _ & H3).
  split; [exact H1|]. split; [vm_compute; reflexivity | exact H3].
Defined.
